(** * Collaborative spreadsheet grid: the client-side grid component and the
      real-time collaboration channel.

    A shallow embedding of
    - [client/src/components/spreadsheet/GoogleSheetsGrid.tsx]
    - [client/src/components/spreadsheet/RealTimeCollaboration.tsx]

    React handlers read the state captured by the render they were created
    in and request changes through setters and callbacks.  A handler is
    therefore embedded as a function from the captured state to the list of
    requests it issues, in program order; a separate function applies the
    requests to the state and decides which render each handler belongs
    to. *)

From Stdlib Require Import ZArith List String Ascii Bool Lia.
From stdpp Require Import base option list gmap strings pretty.
Import ListNotations.

Local Open Scope string_scope.
Local Open Scope list_scope.
Local Open Scope Z_scope.
Local Set Warnings "-register-all".

(** ** JavaScript primitives used by the components *)

Module Js.

(** [s.startsWith(p)] *)
Fixpoint startsWith (s p : string) : bool :=
  match p with
  | EmptyString => true
  | String a p' =>
      match s with
      | EmptyString => false
      | String b s' => if Ascii.eqb a b then startsWith s' p' else false
      end
  end.

(** [v || ''] on a value of type [string | null | undefined]: the empty
    string is the only falsy string, and it is replaced by itself. *)
Definition or_empty (v : option string) : string :=
  match v with
  | Some s => s
  | None => ""
  end.

(** *** [Number(s)] applied to a string (ECMAScript StringToNumber)

    Only the question whether the result is [NaN] matters to the
    components.  Strings are sequences of UTF-8 bytes; the white space
    and line terminator characters of the StringNumericLiteral grammar
    are recognised in their encoded form. *)

Definition byte_of (c : ascii) : N := N_of_ascii c.

(** Removes one leading StrWhiteSpaceChar, if there is one. *)
Definition strip_ws1 (s : string) : option string :=
  match s with
  | String c1 r1 =>
      let b1 := byte_of c1 in
      if ((9 <=? b1) && (b1 <=? 13) || (b1 =? 32))%N then Some r1
      else
        match r1 with
        | String c2 r2 =>
            let b2 := byte_of c2 in
            (* U+00A0 *)
            if ((b1 =? 194) && (b2 =? 160))%N then Some r2
            else
              match r2 with
              | String c3 r3 =>
                  let b3 := byte_of c3 in
                  if (* U+1680 *)
                     ((b1 =? 225) && (b2 =? 154) && (b3 =? 128)
                      (* U+2000 .. U+200A, U+2028, U+2029, U+202F *)
                      || (b1 =? 226) && (b2 =? 128)
                         && ((128 <=? b3) && (b3 <=? 138)
                             || (b3 =? 168) || (b3 =? 169) || (b3 =? 175))
                      (* U+205F *)
                      || (b1 =? 226) && (b2 =? 129) && (b3 =? 159)
                      (* U+3000 *)
                      || (b1 =? 227) && (b2 =? 128) && (b3 =? 128)
                      (* U+FEFF *)
                      || (b1 =? 239) && (b2 =? 187) && (b3 =? 191))%N
                  then Some r3
                  else None
              | EmptyString => None
              end
        | EmptyString => None
        end
  | EmptyString => None
  end.

(** Removes the leading run of white space; the fuel is the length of the
    string, which bounds the number of characters removed. *)
Fixpoint skip_ws_fuel (fuel : nat) (s : string) : string :=
  match fuel with
  | O => s
  | S fuel' =>
      match strip_ws1 s with
      | Some r => skip_ws_fuel fuel' r
      | None => s
      end
  end.

Definition skip_ws (s : string) : string := skip_ws_fuel (String.length s) s.

Definition is_digit (c : ascii) : bool :=
  let b := byte_of c in ((48 <=? b) && (b <=? 57))%N.

Definition is_bin_digit (c : ascii) : bool :=
  let b := byte_of c in ((b =? 48) || (b =? 49))%N.

Definition is_oct_digit (c : ascii) : bool :=
  let b := byte_of c in ((48 <=? b) && (b <=? 55))%N.

Definition is_hex_digit (c : ascii) : bool :=
  let b := byte_of c in
  ((48 <=? b) && (b <=? 57) || (65 <=? b) && (b <=? 70)
   || (97 <=? b) && (b <=? 102))%N.

Fixpoint skip_while (p : ascii -> bool) (s : string) : string :=
  match s with
  | String c r => if p c then skip_while p r else s
  | EmptyString => s
  end.

Definition leading (p : ascii -> bool) (s : string) : bool :=
  match s with
  | String c _ => p c
  | EmptyString => false
  end.

(** One or more digits of the given class; the rest of the input. *)
Definition digits1 (p : ascii -> bool) (s : string) : option string :=
  if leading p s then Some (skip_while p s) else None.

(** ExponentPart, if one follows. *)
Definition skip_exponent (s : string) : string :=
  match s with
  | String c r =>
      if (Ascii.eqb c "e" || Ascii.eqb c "E")%char then
        let r' :=
          match r with
          | String sg t =>
              if (Ascii.eqb sg "+" || Ascii.eqb sg "-")%char then t else r
          | EmptyString => r
          end in
        match digits1 is_digit r' with
        | Some rest => rest
        | None => s
        end
      else s
  | EmptyString => s
  end.

(** StrUnsignedDecimalLiteral: the rest of the input after the longest
    literal, or [None] when no literal starts here. *)
Definition unsigned_decimal (s : string) : option string :=
  if startsWith s "Infinity" then
    Some (String.substring 8 (String.length s - 8) s)
  else
    match digits1 is_digit s with
    | Some r =>
        match r with
        | String "."%char r' => Some (skip_exponent (skip_while is_digit r'))
        | _ => Some (skip_exponent r)
        end
    | None =>
        match s with
        | String "."%char r =>
            match digits1 is_digit r with
            | Some r' => Some (skip_exponent r')
            | None => None
            end
        | _ => None
        end
    end.

(** StrDecimalLiteral: an optional sign and an unsigned literal. *)
Definition decimal (s : string) : option string :=
  match s with
  | String c r =>
      if (Ascii.eqb c "+" || Ascii.eqb c "-")%char then unsigned_decimal r
      else unsigned_decimal s
  | EmptyString => None
  end.

(** NonDecimalIntegerLiteral: [0b], [0o] or [0x] and digits of that base. *)
Definition non_decimal (s : string) : option string :=
  match s with
  | String "0"%char (String c r) =>
      if (Ascii.eqb c "b" || Ascii.eqb c "B")%char then digits1 is_bin_digit r
      else if (Ascii.eqb c "o" || Ascii.eqb c "O")%char then digits1 is_oct_digit r
      else if (Ascii.eqb c "x" || Ascii.eqb c "X")%char then digits1 is_hex_digit r
      else None
  | _ => None
  end.

Definition only_ws (s : string) : bool :=
  match skip_ws s with
  | EmptyString => true
  | _ => false
  end.

(** The whole of [t] is one literal of the given class, up to trailing
    white space. *)
Definition literal (parse : string -> option string) (t : string) : bool :=
  match parse t with
  | Some rest => only_ws rest
  | None => false
  end.

(** [isNaN(Number(s))]: white space alone converts to [0]; otherwise the
    trimmed string has to be exactly one numeric literal. *)
Definition isNaN_Number (s : string) : bool :=
  match skip_ws s with
  | EmptyString => false
  | t => negb (literal non_decimal t || literal decimal t)
  end.

(** [Number.MAX_SAFE_INTEGER], [2^53 - 1].  A number is a double: every
    integer up to this bound is one, and on integers within it [x--],
    [x % n] and [Math.floor(x / 26)] give the integer results ([x / 26] is
    rounded to a double before [Math.floor], but the quotient is below
    [2^49], where doubles are at most [1/16] apart, and lies [1/26] or more
    under the next integer, so that it is not rounded up to it).  From
    [2^53] on [x--] is rounded to a neighbouring double. *)
Definition MAX_SAFE_INTEGER : Z := 2 ^ 53 - 1.

(** [for (let i = lo; i <= hi; i++)]: the values [i] takes. *)
Definition for_range (lo hi : Z) : list Z :=
  map (fun k => lo + Z.of_nat k) (seq 0 (Z.to_nat (hi - lo + 1))).

End Js.

(** ** The grid component ([GoogleSheetsGrid.tsx]) *)

Module Grid.

(** [formatting?: any]; the fields the component reads. *)
Record Formatting := {
  backgroundColor : option string;
  bold : bool;
  italic : bool;
  textAlign : option string;
}.

(** [interface Cell].  [None] stands for [null] and for an absent
    optional field alike: the component never tells them apart. *)
Record Cell := {
  id : option Z;
  row : Z;
  column : Z;
  value : option string;
  formula : option string;
  dataType : option string;
  formatting : option Formatting;
}.

(** [interface Selection] *)
Record Selection := {
  startRow : Z;
  startCol : Z;
  endRow : Z;
  endCol : Z;
}.

(** [selectedCell: { row: number; column: number } | null] *)
Record CellRef := {
  ref_row : Z;
  ref_column : Z;
}.

Definition ROWS : Z := 1000.
Definition COLS : Z := 26.

(** The key of the lookup map, [`${row}-${col}`]. *)
Definition cellKey (r c : Z) : string := pretty r +:+ "-" +:+ pretty c.

(** [cells.forEach(cell => cellMap.set(`${cell.row}-${cell.column}`, cell))] *)
Definition cellMap (cells : list Cell) : gmap string Cell :=
  foldl (fun m cell => <[cellKey (row cell) (column cell) := cell]> m) ∅ cells.

(** What a render of the component captures: the props owned by the
    parent ([cells], [selectedCell], [isEditing]) and the component's own
    [useState] cells. *)
Record State := {
  cells : list Cell;
  selectedCell : option CellRef;
  isEditing : bool;
  selection : option Selection;
  isSelecting : bool;
  isDragging : bool;
  dragStart : option (Z * Z);
  editingValue : string;
  clipboard : list Cell;
}.

(** [KeyboardEvent], the fields the handler reads. *)
Record KeyboardEvent := {
  key : string;
  shiftKey : bool;
  ctrlKey : bool;
  metaKey : bool;
}.

(** What a handler asks for, in program order. *)
Inductive Effect :=
| PreventDefault
| StopPropagation
| OnCellSelect (r c : Z)
| OnEditingChange (editing : bool)
| Mutate (r c : Z) (v : string)            (* saveCellMutation.mutate *)
| SetSelection (s : option Selection)
| SetIsSelecting (b : bool)
| SetIsDragging (b : bool)
| SetDragStart (d : option (Z * Z))
| SetEditingValue (v : string)
| SetClipboard (c : list Cell)
| Toast (title description : string)
| FocusInput                               (* setTimeout(() => inputRef.current?.focus(), 0) *)
| SetTimeout (callback : list Effect).

(** The body of the PUT request built by [mutationFn]. *)
Record CellBody := {
  body_value : string;
  body_dataType : string;
  body_formula : option string;
}.

Definition mutationBody (v : string) : CellBody :=
  {| body_value := v;
     body_dataType :=
       if Js.startsWith v "=" then "formula"
       else if Js.isNaN_Number v then "text" else "number";
     body_formula := if Js.startsWith v "=" then Some v else None |}.

(** [getCellValue] *)
Definition getCellValue (cells : list Cell) (r c : Z) : string :=
  Js.or_empty (cellMap cells !! cellKey r c ≫= value).

Definition when (b : bool) (es : list Effect) : list Effect :=
  if b then es else [].

Definition startEditing (st : State) : list Effect :=
  match selectedCell st with
  | None => []
  | Some sc =>
      [SetEditingValue (getCellValue (cells st) (ref_row sc) (ref_column sc));
       OnEditingChange true;
       FocusInput]
  end.

Definition finishEditing (st : State) : list Effect :=
  match selectedCell st with
  | None => []
  | Some sc =>
      [Mutate (ref_row sc) (ref_column sc) (editingValue st);
       OnEditingChange false;
       SetEditingValue ""]
  end.

Definition cancelEditing (st : State) : list Effect :=
  [OnEditingChange false; SetEditingValue ""].

(** The entry [copySelection] pushes for the cell at [(r, c)]. *)
Definition copiedCell (st : State) (r c : Z) : Cell :=
  let cell := cellMap (cells st) !! cellKey r c in
  {| id := None;
     row := r;
     column := c;
     value := Some (Js.or_empty (cell ≫= value));
     formula := cell ≫= formula;
     dataType := cell ≫= dataType;
     formatting := None |}.

(** The array [copySelection] builds. *)
Definition copiedCells (st : State) : list Cell :=
  match selection st with
  | Some sel =>
      flat_map (fun r =>
        map (fun c => copiedCell st r c)
            (Js.for_range (startCol sel) (endCol sel)))
        (Js.for_range (startRow sel) (endRow sel))
  | None =>
      match selectedCell st with
      | Some sc => [copiedCell st (ref_row sc) (ref_column sc)]
      | None => []
      end
  end.

Definition copySelection (st : State) : list Effect :=
  match selection st, selectedCell st with
  | None, None => []
  | _, _ =>
      let copied := copiedCells st in
      [SetClipboard copied;
       Toast "Copied" (pretty (length copied) +:+ " cell(s) copied")]
  end.

(** The body of the [forEach] callback of [pasteSelection]. *)
Definition pasteCell (startRow startCol : Z) (first cell : Cell) : list Effect :=
  let targetRow := startRow + (row cell - row first) in
  let targetCol := startCol + (column cell - column first) in
  when ((targetRow <=? ROWS) && (targetCol <=? COLS))
    [Mutate targetRow targetCol (Js.or_empty (value cell))].

Definition pasteSelection (st : State) : list Effect :=
  match selectedCell st, clipboard st with
  | None, _ => []
  | Some _, [] => []
  | Some sc, first :: _ =>
      flat_map (pasteCell (ref_row sc) (ref_column sc) first) (clipboard st)
      ++ [Toast "Pasted" (pretty (length (clipboard st)) +:+ " cell(s) pasted")]
  end.

Definition clearSelection (st : State) : list Effect :=
  match selection st with
  | Some sel =>
      flat_map (fun r =>
        map (fun c => Mutate r c "")
            (Js.for_range (startCol sel) (endCol sel)))
        (Js.for_range (startRow sel) (endRow sel))
  | None =>
      match selectedCell st with
      | Some sc => [Mutate (ref_row sc) (ref_column sc) ""]
      | None => []
      end
  end.

Definition cutSelection (st : State) : list Effect :=
  copySelection st ++ clearSelection st.

Definition selectAll (st : State) : list Effect :=
  [SetSelection (Some {| startRow := 1; startCol := 1;
                         endRow := ROWS; endCol := COLS |})].

(** [handleKeyDown], the branch taken when [isEditing] is false. *)
Definition navigationKey (st : State) (e : KeyboardEvent) (r c : Z) : list Effect :=
  (if String.eqb (key e) "ArrowUp" then
     PreventDefault :: when (r >? 1) [OnCellSelect (r - 1) c]
   else if String.eqb (key e) "ArrowDown" then
     PreventDefault :: when (r <? ROWS) [OnCellSelect (r + 1) c]
   else if String.eqb (key e) "ArrowLeft" then
     PreventDefault :: when (c >? 1) [OnCellSelect r (c - 1)]
   else if String.eqb (key e) "ArrowRight" then
     PreventDefault :: when (c <? COLS) [OnCellSelect r (c + 1)]
   else if String.eqb (key e) "Tab" then
     PreventDefault ::
     (if shiftKey e then when (c >? 1) [OnCellSelect r (c - 1)]
      else when (c <? COLS) [OnCellSelect r (c + 1)])
   else if String.eqb (key e) "Enter" then
     PreventDefault ::
     (if shiftKey e then when (r >? 1) [OnCellSelect (r - 1) c]
      else when (r <? ROWS) [OnCellSelect (r + 1) c])
   else if String.eqb (key e) "F2" then
     PreventDefault :: startEditing st
   else if String.eqb (key e) "Delete" || String.eqb (key e) "Backspace" then
     PreventDefault ::
     (match selection st with
      | Some _ => clearSelection st
      | None => [Mutate r c ""]
      end)
   else [])
  ++
  (if ctrlKey e || metaKey e then
     if String.eqb (key e) "c" then PreventDefault :: copySelection st
     else if String.eqb (key e) "v" then PreventDefault :: pasteSelection st
     else if String.eqb (key e) "x" then PreventDefault :: cutSelection st
     else if String.eqb (key e) "a" then PreventDefault :: selectAll st
     else []
   else []).

(** [handleKeyDown], the branch taken when [isEditing] is true. *)
Definition editingKey (st : State) (e : KeyboardEvent) (r c : Z) : list Effect :=
  if String.eqb (key e) "Enter" then
    PreventDefault :: finishEditing st ++ when (r <? ROWS) [OnCellSelect (r + 1) c]
  else if String.eqb (key e) "Escape" then
    PreventDefault :: cancelEditing st
  else if String.eqb (key e) "Tab" then
    PreventDefault :: finishEditing st
    ++ (if shiftKey e then when (c >? 1) [OnCellSelect r (c - 1)]
        else when (c <? COLS) [OnCellSelect r (c + 1)])
  else [].

Definition handleKeyDown (st : State) (e : KeyboardEvent) : list Effect :=
  match selectedCell st with
  | None => []
  | Some sc =>
      if negb (isEditing st) then navigationKey st e (ref_row sc) (ref_column sc)
      else editingKey st e (ref_row sc) (ref_column sc)
  end.

Definition handleMouseDown (st : State) (r c : Z) (shift : bool) : list Effect :=
  (if isEditing st then finishEditing st else [])
  ++ OnCellSelect r c ::
  match shift, selectedCell st with
  | true, Some sc =>
      [SetSelection (Some {| startRow := Z.min (ref_row sc) r;
                             startCol := Z.min (ref_column sc) c;
                             endRow := Z.max (ref_row sc) r;
                             endCol := Z.max (ref_column sc) c |})]
  | _, _ =>
      [SetSelection None; SetIsSelecting true; SetDragStart (Some (r, c))]
  end.

Definition handleMouseEnter (st : State) (r c : Z) : list Effect :=
  match isSelecting st, dragStart st with
  | true, Some (dr, dc) =>
      [SetSelection (Some {| startRow := Z.min dr r;
                             startCol := Z.min dc c;
                             endRow := Z.max dr r;
                             endCol := Z.max dc c |})]
  | _, _ => []
  end.

Definition handleMouseUp (st : State) : list Effect :=
  [SetIsSelecting false; SetDragStart None].

Definition handleFillHandleMouseDown (st : State) : list Effect :=
  [StopPropagation; SetIsDragging true].

(** [setTimeout(startEditing, 0)] hands over the [startEditing] of the
    current render. *)
Definition handleDoubleClick (st : State) (r c : Z) : list Effect :=
  [OnCellSelect r c; SetTimeout (startEditing st)].

(** The DOM events the component listens to. *)
Inductive Event :=
| KeyDown (e : KeyboardEvent)
| MouseDown (r c : Z) (shift : bool)
| MouseEnter (r c : Z)
| MouseUp
| FillHandleMouseDown
| DoubleClick (r c : Z)
| InputChange (v : string).

Definition handle (st : State) (ev : Event) : list Effect :=
  match ev with
  | KeyDown e => handleKeyDown st e
  | MouseDown r c shift => handleMouseDown st r c shift
  | MouseEnter r c => handleMouseEnter st r c
  | MouseUp => handleMouseUp st
  | FillHandleMouseDown => handleFillHandleMouseDown st
  | DoubleClick r c => handleDoubleClick st r c
  | InputChange v => [SetEditingValue v]
  end.

(** *** Applying the requests

    The [useState] setters are the component's own.  What lies behind
    the callbacks and behind the PUT request is not part of the
    component. *)

Definition in_bounds (r c : Z) : Prop :=
  1 <= r <= ROWS /\ 1 <= c <= COLS.

(** [in_bounds] as a test. *)
Definition in_boundsb (r c : Z) : bool :=
  (1 <=? r) && (r <=? ROWS) && (1 <=? c) && (c <=? COLS).

Definition at_pos (r c : Z) (cell : Cell) : bool :=
  (row cell =? r) && (column cell =? c).

(** The stored cell [old] after a request with body [b]. *)
Definition stored (b : CellBody) (old : Cell) : Cell :=
  {| id := id old;
     row := row old;
     column := column old;
     value := Some (body_value b);
     formula := body_formula b;
     dataType := Some (body_dataType b);
     formatting := formatting old |}.

(** The cell a request with body [b] creates at [(r, c)]. *)
Definition created (r c : Z) (b : CellBody) : Cell :=
  {| id := None;
     row := r;
     column := c;
     value := Some (body_value b);
     formula := body_formula b;
     dataType := Some (body_dataType b);
     formatting := None |}.

(** Modelled from the spec: the persistence interface
    [writeCell(sheetId, row, column, {value, dataType, formula}) → Cell]
    behind [PUT /api/sheets/:sheetId/cells/:row/:column], which the
    component reads back through [cells] once the query is invalidated.
    The server is missing from the sources.  The cell at [(row, column)]
    takes the value, data type and formula of the request, and a cell that
    does not exist yet is created; a write outside the bounds of the grid
    is a no-op. *)
Definition writeCell (cells : list Cell) (r c : Z) (b : CellBody) : list Cell :=
  if in_boundsb r c then
    if existsb (at_pos r c) cells
    then map (fun cell => if at_pos r c cell then stored b cell else cell) cells
    else cells ++ [created r c b]
  else cells.

(** [setCell(row, col, value)]: the request [saveCellMutation.mutate]
    sends, as the store takes it. *)
Definition setCell (cells : list Cell) (r c : Z) (v : string) : list Cell :=
  writeCell cells r c (mutationBody v).

(** [getCell(row, col) → Cell | empty] *)
Definition getCell (cells : list Cell) (r c : Z) : option Cell :=
  cellMap cells !! cellKey r c.

(** The state of the page: what the latest render of the component
    captured, the render whose [handleKeyDown] is the listener on
    [document], and the [setTimeout] callbacks that have not run yet.

    The handlers passed as props to the cells ([onMouseDown],
    [onMouseEnter], [onMouseUp], [onDoubleClick], [onChange]) are those of
    the latest render.  [handleKeyDown] is registered by
    [useEffect(..., [selectedCell, isEditing, selection])]: it is replaced
    only by a render in which one of these three changed, and until then it
    keeps the [cells], [editingValue] and [clipboard] of the render that
    registered it. *)
Record Page := {
  view : State;
  keydown : State;
  timers : list (list Effect);
}.

Definition with_cells (st : State) (x : list Cell) : State :=
  {| cells := x; selectedCell := selectedCell st; isEditing := isEditing st;
     selection := selection st; isSelecting := isSelecting st;
     isDragging := isDragging st; dragStart := dragStart st;
     editingValue := editingValue st; clipboard := clipboard st |}.

Definition with_selectedCell (st : State) (x : option CellRef) : State :=
  {| cells := cells st; selectedCell := x; isEditing := isEditing st;
     selection := selection st; isSelecting := isSelecting st;
     isDragging := isDragging st; dragStart := dragStart st;
     editingValue := editingValue st; clipboard := clipboard st |}.

Definition with_isEditing (st : State) (x : bool) : State :=
  {| cells := cells st; selectedCell := selectedCell st; isEditing := x;
     selection := selection st; isSelecting := isSelecting st;
     isDragging := isDragging st; dragStart := dragStart st;
     editingValue := editingValue st; clipboard := clipboard st |}.

Definition with_selection (st : State) (x : option Selection) : State :=
  {| cells := cells st; selectedCell := selectedCell st; isEditing := isEditing st;
     selection := x; isSelecting := isSelecting st;
     isDragging := isDragging st; dragStart := dragStart st;
     editingValue := editingValue st; clipboard := clipboard st |}.

Definition with_isSelecting (st : State) (x : bool) : State :=
  {| cells := cells st; selectedCell := selectedCell st; isEditing := isEditing st;
     selection := selection st; isSelecting := x;
     isDragging := isDragging st; dragStart := dragStart st;
     editingValue := editingValue st; clipboard := clipboard st |}.

Definition with_isDragging (st : State) (x : bool) : State :=
  {| cells := cells st; selectedCell := selectedCell st; isEditing := isEditing st;
     selection := selection st; isSelecting := isSelecting st;
     isDragging := x; dragStart := dragStart st;
     editingValue := editingValue st; clipboard := clipboard st |}.

Definition with_dragStart (st : State) (x : option (Z * Z)) : State :=
  {| cells := cells st; selectedCell := selectedCell st; isEditing := isEditing st;
     selection := selection st; isSelecting := isSelecting st;
     isDragging := isDragging st; dragStart := x;
     editingValue := editingValue st; clipboard := clipboard st |}.

Definition with_editingValue (st : State) (x : string) : State :=
  {| cells := cells st; selectedCell := selectedCell st; isEditing := isEditing st;
     selection := selection st; isSelecting := isSelecting st;
     isDragging := isDragging st; dragStart := dragStart st;
     editingValue := x; clipboard := clipboard st |}.

Definition with_clipboard (st : State) (x : list Cell) : State :=
  {| cells := cells st; selectedCell := selectedCell st; isEditing := isEditing st;
     selection := selection st; isSelecting := isSelecting st;
     isDragging := isDragging st; dragStart := dragStart st;
     editingValue := editingValue st; clipboard := x |}.

(** Modelled from the spec: the owner of the props, which is missing from
    the sources.  [onCellSelect(row, col)] makes [(row, col)] the active
    cell, [onEditingChange(b)] enters or leaves the editing mode, and a
    mutation reaches the store as [setCell] and comes back as [cells].  The
    [useState] setters and [setTimeout] are the component's own. *)
Definition apply (p : Page) (e : Effect) : Page :=
  let st := view p in
  let keep st' := {| view := st'; keydown := keydown p; timers := timers p |} in
  match e with
  | PreventDefault | StopPropagation | FocusInput | Toast _ _ => p
  | OnCellSelect r c =>
      keep (with_selectedCell st (Some {| ref_row := r; ref_column := c |}))
  | OnEditingChange b => keep (with_isEditing st b)
  | Mutate r c v => keep (with_cells st (setCell (cells st) r c v))
  | SetSelection s => keep (with_selection st s)
  | SetIsSelecting b => keep (with_isSelecting st b)
  | SetIsDragging b => keep (with_isDragging st b)
  | SetDragStart d => keep (with_dragStart st d)
  | SetEditingValue v => keep (with_editingValue st v)
  | SetClipboard c => keep (with_clipboard st c)
  | SetTimeout callback =>
      {| view := st; keydown := keydown p; timers := timers p ++ [callback] |}
  end.

Definition run (p : Page) (es : list Effect) : Page := foldl apply p es.

(** [onCellSelect] and [setSelection] with a range hand over a new object,
    which [useEffect] takes for a change whatever it holds. *)
Definition fresh_object (e : Effect) : bool :=
  match e with
  | OnCellSelect _ _ | SetSelection (Some _) => true
  | _ => false
  end.

#[global] Instance CellRef_eq_dec : EqDecision CellRef.
Proof. solve_decision. Defined.

#[global] Instance Selection_eq_dec : EqDecision Selection.
Proof. solve_decision. Defined.

(** The dependencies [[selectedCell, isEditing, selection]] hold the same
    in two renders. *)
Definition same_deps (a b : State) : Prop :=
  selectedCell a = selectedCell b /\ isEditing a = isEditing b
  /\ selection a = selection b.

(** The render after the requests [es] have been applied to [before]:
    [useEffect] registers its [handleKeyDown] when a dependency changed. *)
Definition rendered (before : Page) (es : list Effect) : Page :=
  let after := run before es in
  {| view := view after;
     keydown :=
       if bool_decide (same_deps (view before) (view after))
          && negb (existsb fresh_object es)
       then keydown before
       else view after;
     timers := timers after |}.

(** The first render: the listener is the one it registers. *)
Definition mounted (st : State) : Page :=
  {| view := st; keydown := st; timers := [] |}.

(** What happens next on the page: a DOM event reaches its handler, or
    the oldest pending timer fires. *)
Inductive Input :=
| Dom (ev : Event)
| Timer.

(** The render whose handler a DOM event reaches. *)
Definition captured (p : Page) (ev : Event) : State :=
  match ev with
  | KeyDown _ => keydown p
  | _ => view p
  end.

Definition step (p : Page) (i : Input) : Page :=
  match i with
  | Dom ev => rendered p (handle (captured p ev) ev)
  | Timer =>
      match timers p with
      | callback :: rest =>
          rendered {| view := view p; keydown := keydown p; timers := rest |}
                   callback
      | [] => p
      end
  end.

(** The listener on [document] agrees with the latest render on the
    dependencies of its effect. *)
Definition listener_current (p : Page) : Prop :=
  same_deps (keydown p) (view p).

(** The cells a list of requests writes, in order. *)
Fixpoint mutations (es : list Effect) : list (Z * Z * string) :=
  match es with
  | Mutate r c v :: rest => (r, c, v) :: mutations rest
  | _ :: rest => mutations rest
  | [] => []
  end.

(** The calls of [onEditingChange] in a list of requests, in order. *)
Fixpoint editing_changes (es : list Effect) : list bool :=
  match es with
  | OnEditingChange b :: rest => b :: editing_changes rest
  | _ :: rest => editing_changes rest
  | [] => []
  end.

(** The store after a sequence of writes. *)
Definition write_all (cells : list Cell) (ms : list (Z * Z * string)) : list Cell :=
  foldl (fun cs m => setCell cs m.1.1 m.1.2 m.2) cells ms.

(** [Range{startRow, startCol, endRow, endCol}] as [setSelection] is
    given it: corners ordered. *)
Definition normalized (sel : Selection) : Prop :=
  startRow sel <= endRow sel /\ startCol sel <= endCol sel.

End Grid.

(** ** The collaboration channel ([RealTimeCollaboration.tsx]) *)

Module Collab.

(** [interface User] *)
Record User := {
  id : Z;
  username : string;
  email : string;
  avatar : option string;
}.

(** [interface CollaboratorCursor]; [color] is [None] where the table
    lookup gives [undefined]. *)
Record CollaboratorCursor := {
  userId : Z;
  user : User;
  row : Z;
  column : Z;
  isEditing : bool;
  color : option string;
}.

(** [interface CellUpdate] *)
Record CellUpdate := {
  cu_userId : Z;
  cu_sheetId : Z;
  cu_row : Z;
  cu_column : Z;
  cu_value : string;
  cu_timestamp : Z;
}.

Inductive ConnectionStatus := connecting | connected | disconnected.

Definition CURSOR_COLORS : list string :=
  ["#FF6B6B"; "#4ECDC4"; "#45B7D1"; "#FFA07A"; "#98D8C8";
   "#F7DC6F"; "#BB8FCE"; "#85C1E9"; "#F8C471"; "#82E0AA"].

(** [CURSOR_COLORS[userId % CURSOR_COLORS.length]]; [%] takes the sign of
    the dividend, and a negative index reads [undefined]. *)
Definition getUserColor (uid : Z) : option string :=
  let i := Z.rem uid (Z.of_nat (length CURSOR_COLORS)) in
  if i <? 0 then None else CURSOR_COLORS !! Z.to_nat i.

(** The component's [useState] cells. *)
Record State := {
  collaborators : gmap Z CollaboratorCursor;
  isConnected : bool;
  connectionStatus : ConnectionStatus;
}.

(** Calls of the optional callback props. *)
Inductive Callback :=
| OnCollaboratorJoin (u : User)
| OnCollaboratorLeave (uid : Z)
| OnCellUpdate (data : CellUpdate).

Definition with_collaborators (st : State) (m : gmap Z CollaboratorCursor) : State :=
  {| collaborators := m;
     isConnected := isConnected st;
     connectionStatus := connectionStatus st |}.

Definition handleCollaboratorJoin (st : State) (u : User) : State * list Callback :=
  let color := getUserColor (id u) in
  (with_collaborators st
     (<[id u := {| userId := id u; user := u; row := 1; column := 1;
                   isEditing := false; color := color |}]> (collaborators st)),
   [OnCollaboratorJoin u]).

Definition handleCollaboratorLeave (st : State) (uid : Z) : State * list Callback :=
  (with_collaborators st (delete uid (collaborators st)),
   [OnCollaboratorLeave uid]).

(** The payload of [cursor:move]. *)
Record CursorMove := {
  cm_userId : Z;
  cm_row : Z;
  cm_column : Z;
  cm_isEditing : bool;
}.

Definition handleCursorMove (me : User) (st : State) (data : CursorMove)
  : State * list Callback :=
  if cm_userId data =? id me then (st, [])
  else
    match collaborators st !! cm_userId data with
    | None => (st, [])
    | Some collaborator =>
        (with_collaborators st
           (<[cm_userId data :=
                {| userId := userId collaborator;
                   user := user collaborator;
                   row := cm_row data;
                   column := cm_column data;
                   isEditing := cm_isEditing data;
                   color := color collaborator |}]> (collaborators st)),
         [])
    end.

Definition handleCellUpdate (me : User) (st : State) (data : CellUpdate)
  : State * list Callback :=
  if cu_userId data =? id me then (st, [])
  else (st, [OnCellUpdate data]).

(** [data: { status: 'connected' | 'disconnected' }] *)
Definition handleConnectionStatus (st : State) (status : ConnectionStatus)
  : State * list Callback :=
  ({| collaborators := collaborators st;
      isConnected := match status with connected => true | _ => false end;
      connectionStatus := status |},
   []).

(** The events the component registers a listener for. *)
Inductive Message :=
| CollaboratorJoin (u : User)        (* collaborator:join *)
| CollaboratorLeave (uid : Z)        (* collaborator:leave *)
| CursorMoved (data : CursorMove)    (* cursor:move *)
| CellUpdated (data : CellUpdate)    (* cell:update *)
| StatusChanged (status : ConnectionStatus).   (* connection:status *)

(** The listeners are registered only once [user] is known; [me] is that
    user. *)
Definition receive (me : User) (st : State) (m : Message) : State * list Callback :=
  match m with
  | CollaboratorJoin u => handleCollaboratorJoin st u
  | CollaboratorLeave uid => handleCollaboratorLeave st uid
  | CursorMoved data => handleCursorMove me st data
  | CellUpdated data => handleCellUpdate me st data
  | StatusChanged status => handleConnectionStatus st status
  end.

(** The payload [broadcastCellUpdate] emits as [cell:update]; [now] is
    [Date.now()]. *)
Record Outbound := {
  out_spreadsheetId : Z;
  out_sheetId : Z;
  out_row : Z;
  out_column : Z;
  out_value : string;
  out_userId : Z;
  out_timestamp : Z;
}.

Definition broadcastCellUpdate (me : User) (spreadsheetId sheetId : Z)
    (r c : Z) (v : string) (now : Z) : Outbound :=
  {| out_spreadsheetId := spreadsheetId;
     out_sheetId := sheetId;
     out_row := r;
     out_column := c;
     out_value := v;
     out_userId := id me;
     out_timestamp := now |}.

(** The same payload as a peer, or the sender behind a relay that echoes,
    receives it. *)
Definition relayed (o : Outbound) : CellUpdate :=
  {| cu_userId := out_userId o;
     cu_sheetId := out_sheetId o;
     cu_row := out_row o;
     cu_column := out_column o;
     cu_value := out_value o;
     cu_timestamp := out_timestamp o |}.

End Collab.

(** ** The two components on one sheet *)

Module Session.

(** Modelled from the spec: the page that hands [onCellUpdate] to the
    collaboration channel is missing from the sources.  An inbound
    update the channel lets through is applied to the grid as [setCell]
    does, without sending anything. *)
Definition applyCallback (cells : list Grid.Cell) (cb : Collab.Callback)
  : list Grid.Cell :=
  match cb with
  | Collab.OnCellUpdate data =>
      Grid.setCell cells (Collab.cu_row data) (Collab.cu_column data)
                   (Collab.cu_value data)
  | Collab.OnCollaboratorJoin _ | Collab.OnCollaboratorLeave _ => cells
  end.

(** The grid and the presence map of one client. *)
Record Client := {
  grid : list Grid.Cell;
  channel : Collab.State;
}.

(** One inbound message: the channel handles it, the page applies what
    the channel calls back with. *)
Definition deliver (me : Collab.User) (cl : Client) (m : Collab.Message) : Client :=
  let '(st, cbs) := Collab.receive me (channel cl) m in
  {| grid := foldl applyCallback (grid cl) cbs; channel := st |}.

Definition deliver_all (me : Collab.User) (cl : Client) (ms : list Collab.Message)
  : Client :=
  foldl (deliver me) cl ms.

(** A local edit as the spec orders it: the store first, then one
    outbound event. *)
Definition localEdit (me : Collab.User) (spreadsheetId sheetId : Z)
    (cl : Client) (r c : Z) (v : string) (now : Z) : Client * Collab.Outbound :=
  ({| grid := Grid.setCell (grid cl) r c v; channel := channel cl |},
   Collab.broadcastCellUpdate me spreadsheetId sheetId r c v now).

End Session.

(** ** More JavaScript primitives *)

Module Text.

(** [String.fromCharCode(n)]: the code unit [n] modulo [2^16], as the
    bytes of its UTF-8 form (one, two or three bytes). *)
Definition fromCharCode (n : Z) : string :=
  let u := n mod 65536 in
  let byte (b : Z) := ascii_of_N (Z.to_N b) in
  if u <? 128 then String (byte u) ""
  else if u <? 2048 then
    String (byte (192 + u / 64)) (String (byte (128 + u mod 64)) "")
  else
    String (byte (224 + u / 4096))
      (String (byte (128 + (u / 64) mod 64))
         (String (byte (128 + u mod 64)) "")).

(** [s.trimEnd()]: the characters of [s] up to the trailing run of white
    space. *)
Fixpoint trimEnd (s : string) : string :=
  if Js.only_ws s then ""
  else
    match s with
    | String c r => String c (trimEnd r)
    | EmptyString => ""
    end.

(** [s.trim()] *)
Definition trim (s : string) : string := trimEnd (Js.skip_ws s).

(** [s.includes(p)] *)
Fixpoint includes (s p : string) : bool :=
  Js.startsWith s p ||
  match s with
  | String _ r => includes r p
  | EmptyString => false
  end.

End Text.

(** ** The grid component: headers and highlighting *)

Module Sheet.
Import Grid.

(** The [while (col > 0)] loop of [columnToLetter]; every round makes
    [col] smaller, so [col] rounds are enough.  [col] is an integer of at
    most [Js.MAX_SAFE_INTEGER], where the arithmetic of the loop is exact
    (the component calls the function with the columns [1] to [COLS]);
    beyond that bound [col--] rounds and the loop is not this one. *)
Fixpoint columnToLetter_loop (fuel : nat) (col : Z) (result : string) : string :=
  match fuel with
  | O => result
  | S fuel' =>
      if col >? 0 then
        let col := col - 1 in
        let result := Text.fromCharCode (65 + Z.rem col 26) +:+ result in
        let col := col / 26 in
        columnToLetter_loop fuel' col result
      else result
  end.

(** [columnToLetter], for an integer [col] of at most
    [Js.MAX_SAFE_INTEGER]. *)
Definition columnToLetter (col : Z) : string :=
  columnToLetter_loop (Z.to_nat col) col "".

(** The column headers, [Array.from({ length: COLS }, (_, i) =>
    columnToLetter(i + 1))]. *)
Definition columnHeaders : list string :=
  map (fun i => columnToLetter (Z.of_nat i + 1)) (seq 0 (Z.to_nat COLS)).

(** [isSelected] of [renderCell] *)
Definition isSelected (st : State) (r c : Z) : bool :=
  match selectedCell st with
  | Some sc => (ref_row sc =? r) && (ref_column sc =? c)
  | None => false
  end.

(** [isInSelection] of [renderCell], as the class list takes it. *)
Definition isInSelection (st : State) (r c : Z) : bool :=
  match selection st with
  | Some sel =>
      (r >=? startRow sel) && (r <=? endRow sel)
      && (c >=? startCol sel) && (c <=? endCol sel)
  | None => false
  end.

(** The cell shows the input instead of its value: [isEditing && isSelected]. *)
Definition showsInput (st : State) (r c : Z) : bool :=
  isEditing st && isSelected st r c.

(** The cell shows the fill handle: [isSelected && !isEditing]. *)
Definition showsFillHandle (st : State) (r c : Z) : bool :=
  isSelected st r c && negb (isEditing st).

End Sheet.

(** ** The collaboration channel: cursor broadcast and overlays *)

Module Cursor.
Import Collab.

(** The position line of the collaborators list,
    [Cell {String.fromCharCode(64 + collaborator.column)}{collaborator.row}]. *)
Definition positionLabel (c : CollaboratorCursor) : string :=
  "Cell " +:+ Text.fromCharCode (64 + column c) +:+ pretty (row c).

(** What the [CollaboratorCursor] component draws. *)
Record Overlay := {
  top : Z;                 (* px *)
  left : Z;                (* px *)
  overlay_color : option string;
  badge : string;
  badge_editing : bool;
}.

(** The [CollaboratorCursor] component; [None] is [return null]. *)
Definition CollaboratorCursorView (collaborator : CollaboratorCursor)
    (currentCell : option (Z * Z)) : option Overlay :=
  match currentCell with
  | None => None
  | Some (r, c) =>
      if (row collaborator =? r) && (column collaborator =? c) then
        Some {| top := (row collaborator - 1) * 32;
                left := (column collaborator - 1) * 100;
                overlay_color := color collaborator;
                badge := username (user collaborator);
                badge_editing := isEditing collaborator |}
      else None
  end.

(** [renderCollaboratorCursors]: one component per Presence entry. *)
Definition renderCollaboratorCursors (st : State) (currentCell : option (Z * Z))
  : list Overlay :=
  omap (fun kv => CollaboratorCursorView kv.2 currentCell)
       (map_to_list (collaborators st)).

(** *** Timers

    [setTimeout] and [clearTimeout] over the timers that have not fired
    yet; a timer carries what its callback will do. *)
Record Pending (A : Type) := {
  timer_id : positive;
  delay : Z;               (* ms *)
  payload : A;
}.
Arguments timer_id {A}.
Arguments delay {A}.
Arguments payload {A}.

Record Timers (A : Type) := {
  next_id : positive;
  pending : list (Pending A);
}.
Arguments next_id {A}.
Arguments pending {A}.

Definition setTimeout {A} (x : A) (wait : Z) (t : Timers A) : positive * Timers A :=
  (next_id t,
   {| next_id := Pos.succ (next_id t);
      pending := pending t ++ [{| timer_id := next_id t; delay := wait; payload := x |}] |}).

Definition clearTimeout {A} (i : positive) (t : Timers A) : Timers A :=
  {| next_id := next_id t;
     pending := List.filter (fun p => negb (Pos.eqb (timer_id p) i)) (pending t) |}.

(** One call of the function [debounce(func, wait)] returns; [timeout] is
    the variable the closure keeps, [x] what [func] will do with the
    arguments of this call. *)
Definition debounced {A} (wait : Z) (timeout : option positive) (x : A)
    (t : Timers A) : option positive * Timers A :=
  let t :=
    match timeout with
    | Some i => clearTimeout i t
    | None => t
    end in
  let '(i, t) := setTimeout x wait t in
  (Some i, t).

(** Calls of one debounced function, one after the other. *)
Definition debounced_calls {A} (wait : Z) (xs : list A)
    (st : option positive * Timers A) : option positive * Timers A :=
  foldl (fun st x => debounced wait st.1 x st.2) st xs.

(** The payload of the outbound [cursor:move]. *)
Record CursorEmit := {
  ce_spreadsheetId : Z;
  ce_sheetId : Z;
  ce_row : Z;
  ce_column : Z;
  ce_isEditing : bool;
}.

(** What the effect that broadcasts the cursor depends on. *)
Record CursorProps := {
  ready : bool;                       (* socket && user *)
  spreadsheetId : Z;
  sheetId : Z;
  currentCell : option (Z * Z);
  editing : bool;
}.

(** The effect [Broadcast cursor position]: it builds a debounced function
    of its own and calls it once. *)
Definition cursorEffect (props : CursorProps) (t : Timers CursorEmit)
  : Timers CursorEmit :=
  match ready props, currentCell props with
  | true, Some (r, c) =>
      (debounced 100 None
         {| ce_spreadsheetId := spreadsheetId props;
            ce_sheetId := sheetId props;
            ce_row := r;
            ce_column := c;
            ce_isEditing := editing props |} t).2
  | _, _ => t
  end.

(** The effect runs once for each render in which a dependency changed. *)
Definition cursorEffects (renders : list CursorProps) (t : Timers CursorEmit)
  : Timers CursorEmit :=
  foldl (fun t props => cursorEffect props t) t renders.

(** Every Presence entry sits under its own user id, with that user's
    colour. *)
Definition well_keyed (st : State) : Prop :=
  forall uid c, collaborators st !! uid = Some c ->
    userId c = uid /\ id (user c) = uid /\ color c = getUserColor uid.

(** The connection flag says what the status says. *)
Definition status_consistent (st : State) : Prop :=
  isConnected st = true <-> connectionStatus st = connected.

End Cursor.

(** ** The keyboard shortcut hook ([use-keyboard-shortcuts.ts]) *)

Module Shortcuts.

Inductive Direction := up | down | left | right.

(** The optional callback props, with the arguments they are called with. *)
Inductive Callback :=
| OnCopy | OnPaste | OnCut | OnUndo | OnRedo | OnSelectAll | OnSave | OnFind
| OnNewSheet | OnBold | OnItalic | OnUnderline | OnDelete | OnEnter | OnEscape
| OnArrowKeys (d : Direction)
| OnTab (shift : bool)
| OnF2.

(** [KeyboardEvent], the fields the handler reads. *)
Record KeyboardEvent := {
  key : string;
  ctrlKey : bool;
  metaKey : bool;
  shiftKey : bool;
  altKey : bool;
}.

(** What the handler does, in program order; [Invoke cb] is [cb?.(...)],
    which calls the prop when it is given. *)
Inductive Action :=
| PreventDefault
| Invoke (cb : Callback).

(** [e.key === k], a [case] of the [switch]. *)
Definition pressed (e : KeyboardEvent) (k : string) : bool := String.eqb (key e) k.

(** [handleKeyDown], the branch taken when [isEditing] is false. *)
Definition navigating (e : KeyboardEvent) : list Action :=
  let isCtrlOrCmd := ctrlKey e || metaKey e in
  let isShift := shiftKey e in
  let isAlt := altKey e in
  (if pressed e "ArrowUp" then [PreventDefault; Invoke (OnArrowKeys up)]
   else if pressed e "ArrowDown" then [PreventDefault; Invoke (OnArrowKeys down)]
   else if pressed e "ArrowLeft" then [PreventDefault; Invoke (OnArrowKeys left)]
   else if pressed e "ArrowRight" then [PreventDefault; Invoke (OnArrowKeys right)]
   else if pressed e "Tab" then [PreventDefault; Invoke (OnTab isShift)]
   else if pressed e "Enter" then [PreventDefault; Invoke OnEnter]
   else if pressed e "F2" then [PreventDefault; Invoke OnF2]
   else if pressed e "Delete" || pressed e "Backspace" then
     if negb isCtrlOrCmd then [PreventDefault; Invoke OnDelete] else []
   else [])
  ++
  (if isCtrlOrCmd then
     if pressed e "c" then [PreventDefault; Invoke OnCopy]
     else if pressed e "v" then [PreventDefault; Invoke OnPaste]
     else if pressed e "x" then [PreventDefault; Invoke OnCut]
     else if pressed e "z" then
       [PreventDefault; Invoke (if isShift then OnRedo else OnUndo)]
     else if pressed e "y" then [PreventDefault; Invoke OnRedo]
     else if pressed e "a" then [PreventDefault; Invoke OnSelectAll]
     else if pressed e "s" then [PreventDefault; Invoke OnSave]
     else if pressed e "f" then [PreventDefault; Invoke OnFind]
     else if pressed e "b" then [PreventDefault; Invoke OnBold]
     else if pressed e "i" then [PreventDefault; Invoke OnItalic]
     else if pressed e "u" then [PreventDefault; Invoke OnUnderline]
     else []
   else [])
  ++
  (if isAlt then
     if pressed e "n" then [PreventDefault; Invoke OnNewSheet] else []
   else []).

(** [handleKeyDown], the branch taken when [isEditing] is true. *)
Definition editing (e : KeyboardEvent) : list Action :=
  let isCtrlOrCmd := ctrlKey e || metaKey e in
  let isShift := shiftKey e in
  (if pressed e "Enter" then
     if negb isShift then [PreventDefault; Invoke OnEnter] else []
   else if pressed e "Escape" then [PreventDefault; Invoke OnEscape]
   else if pressed e "Tab" then [PreventDefault; Invoke (OnTab isShift)]
   else [])
  ++
  (if isCtrlOrCmd then
     if pressed e "s" then [PreventDefault; Invoke OnSave]
     else if pressed e "z" then [Invoke (if isShift then OnRedo else OnUndo)]
     else if pressed e "y" then [Invoke OnRedo]
     else []
   else []).

Definition handleKeyDown (isEditing : bool) (e : KeyboardEvent) : list Action :=
  if negb isEditing then navigating e else editing e.

(** What a key press does on a page that uses the hook: with [disabled]
    the effect returns before it registers the listener. *)
Definition onKeyDown (disabled isEditing : bool) (e : KeyboardEvent) : list Action :=
  if disabled then [] else handleKeyDown isEditing e.

(** The callbacks a list of actions calls, in order. *)
Fixpoint invoked (acts : list Action) : list Callback :=
  match acts with
  | Invoke cb :: rest => cb :: invoked rest
  | PreventDefault :: rest => invoked rest
  | [] => []
  end.

(** The callbacks the editing mode can reach. *)
Definition editing_callback (cb : Callback) : Prop :=
  match cb with
  | OnEnter | OnEscape | OnTab _ | OnSave | OnUndo | OnRedo => True
  | _ => False
  end.

End Shortcuts.

(** ** The dashboard ([dashboard.tsx]) *)

Module Dashboard.

(** [interface Spreadsheet], without [shareSettings], which the page does
    not read. *)
Record Spreadsheet := {
  id : Z;
  name : string;
  description : option string;
  ownerId : Z;
  isPublic : bool;
  createdAt : string;
  updatedAt : string;
}.

Inductive FilterBy := all | owned | shared.

Section Filter.

(** [String.prototype.toLowerCase], whose Unicode tables are not embedded:
    what follows holds for any function in its place. *)
Variable toLowerCase : string -> string.

(** [matchesSearch] of the [filter] callback. *)
Definition matchesSearch (searchQuery : string) (sheet : Spreadsheet) : bool :=
  Text.includes (toLowerCase (name sheet)) (toLowerCase searchQuery)
  || match description sheet with
     | Some d => Text.includes (toLowerCase d) (toLowerCase searchQuery)
     | None => false
     end.

(** [matchesFilter] of the [filter] callback; [user] is [user?.id], [None]
    while nobody is logged in. *)
Definition matchesFilter (filterBy : FilterBy) (user : option Z)
    (sheet : Spreadsheet) : bool :=
  match filterBy with
  | all => true
  | owned => bool_decide (Some (ownerId sheet) = user)
  | shared => negb (bool_decide (Some (ownerId sheet) = user))
  end.

(** The [filter] stage of [filteredSpreadsheets]; the [sort] that follows
    reorders its result and is not embedded. *)
Definition filtered (searchQuery : string) (filterBy : FilterBy)
    (user : option Z) (spreadsheets : list Spreadsheet) : list Spreadsheet :=
  List.filter (fun sheet => matchesSearch searchQuery sheet
                            && matchesFilter filterBy user sheet)
              spreadsheets.

End Filter.

(** The state of the create dialog. *)
Record NewSpreadsheet := {
  new_name : string;
  new_description : string;
  new_isPublic : bool;
}.

Inductive Effect :=
| Toast (title description : string) (destructive : bool)
| Create (data : NewSpreadsheet)       (* createSpreadsheetMutation.mutate *)
| Delete (sheet : Z).                  (* deleteSpreadsheetMutation.mutate *)

Definition handleCreateSpreadsheet (newSpreadsheet : NewSpreadsheet) : list Effect :=
  if String.eqb (Text.trim (new_name newSpreadsheet)) "" then
    [Toast "Error" "Please enter a spreadsheet name" true]
  else [Create newSpreadsheet].

(** [handleDeleteSpreadsheet]; [confirmed] is what [confirm(...)] returns. *)
Definition handleDeleteSpreadsheet (confirmed : bool) (sheet : Z) : list Effect :=
  if confirmed then [Delete sheet] else [].

End Dashboard.

(** ** Vocabulary of the statements *)

Module Vocabulary.
Import Grid.

(** A navigation key pressed where it would leave the grid. *)
Definition at_edge (e : KeyboardEvent) (sc : CellRef) : Prop :=
  key e = "ArrowUp" /\ ref_row sc = 1
  \/ key e = "ArrowDown" /\ ref_row sc = ROWS
  \/ key e = "ArrowLeft" /\ ref_column sc = 1
  \/ key e = "ArrowRight" /\ ref_column sc = COLS
  \/ key e = "Tab" /\ shiftKey e = true /\ ref_column sc = 1
  \/ key e = "Tab" /\ shiftKey e = false /\ ref_column sc = COLS.

(** The event is the Escape key. *)
Definition is_escape (ev : Event) : Prop :=
  match ev with
  | KeyDown e => key e = "Escape"
  | _ => False
  end.

(** Where [paste] at [anchor] puts a clipboard tuple captured from the
    range [sel]: the anchor plus the tuple's offset from the top-left
    corner of the range. *)
Definition target (sel : Selection) (anchor : CellRef) (cell : Cell) : Z * Z :=
  (ref_row anchor + (row cell - startRow sel),
   ref_column anchor + (column cell - startCol sel)).

Definition target_in_bounds (sel : Selection) (anchor : CellRef) (cell : Cell) : bool :=
  in_boundsb (target sel anchor cell).1 (target sel anchor cell).2.

(** The render from which [paste] runs: the clipboard [copy] left, and the
    anchor as the active cell. *)
Definition pasting (st : State) (anchor : CellRef) : State :=
  with_selectedCell (with_clipboard st (copiedCells st)) (Some anchor).

(** The Presence entry [old] after a [cursor:move] with payload [data]. *)
Definition moved (old : Collab.CollaboratorCursor) (data : Collab.CursorMove)
  : Collab.CollaboratorCursor :=
  {| Collab.userId := Collab.userId old;
     Collab.user := Collab.user old;
     Collab.row := Collab.cm_row data;
     Collab.column := Collab.cm_column data;
     Collab.isEditing := Collab.cm_isEditing data;
     Collab.color := Collab.color old |}.

(** A [cell:update] from [peer] for the cell [(r, c)]. *)
Definition update_from (peer sheet r c : Z) (v : string) (t : Z) : Collab.CellUpdate :=
  {| Collab.cu_userId := peer;
     Collab.cu_sheetId := sheet;
     Collab.cu_row := r;
     Collab.cu_column := c;
     Collab.cu_value := v;
     Collab.cu_timestamp := t |}.

(** A key that clears cells while navigating: Delete, Backspace, or [x]
    with Ctrl or Cmd (cut). *)
Definition clearing_key (e : KeyboardEvent) : Prop :=
  key e = "Delete" \/ key e = "Backspace"
  \/ ((ctrlKey e || metaKey e) = true /\ key e = "x").

(** The cell [(r, c)] is one that a clearing key clears: a cell of the
    selected range, or the active cell when no range is selected. *)
Definition to_clear (st : State) (r c : Z) : Prop :=
  match selection st with
  | Some sel => startRow sel <= r <= endRow sel /\ startCol sel <= c <= endCol sel
  | None => selectedCell st = Some {| ref_row := r; ref_column := c |}
  end.

(** No character of [s] is a dash. *)
Fixpoint no_dash (s : string) : Prop :=
  match s with
  | EmptyString => True
  | String c r => c <> "-"%char /\ no_dash r
  end.

End Vocabulary.

Module Notions.

(** Reads a column name back: [A] is 1, [Z] is 26, [AA] is 27. *)
Definition letterToColumn_from (acc : Z) (s : string) : Z :=
  foldl (fun acc ch => acc * 26 + (Z.of_N (N_of_ascii ch) - 64))
        acc (list_ascii_of_string s).

Definition letterToColumn (s : string) : Z := letterToColumn_from 0 s.

(** The coordinates a pointer event carries: those of a rendered cell. *)
Definition pointer_in_bounds (i : Grid.Input) : Prop :=
  match i with
  | Grid.Dom (Grid.MouseDown r c _)
  | Grid.Dom (Grid.MouseEnter r c)
  | Grid.Dom (Grid.DoubleClick r c) => Grid.in_bounds r c
  | _ => True
  end.

(** The active cell, if there is one, is a cell of the grid. *)
Definition active_in_bounds (st : Grid.State) : Prop :=
  forall sc, Grid.selectedCell st = Some sc ->
    Grid.in_bounds (Grid.ref_row sc) (Grid.ref_column sc).

(** A range of the grid with its corners ordered. *)
Definition range_in_grid (sel : Grid.Selection) : Prop :=
  Grid.normalized sel
  /\ Grid.in_bounds (Grid.startRow sel) (Grid.startCol sel)
  /\ Grid.in_bounds (Grid.endRow sel) (Grid.endCol sel).

(** The selected range, if there is one, is a range of the grid. *)
Definition selection_in_grid (st : Grid.State) : Prop :=
  forall sel, Grid.selection st = Some sel -> range_in_grid sel.

(** A request that selects nothing, starts no drag and schedules
    nothing. *)
Definition plain (e : Grid.Effect) : Prop :=
  match e with
  | Grid.OnCellSelect _ _ | Grid.SetSelection _ | Grid.SetDragStart _
  | Grid.SetTimeout _ => False
  | _ => True
  end.

(** The anchor of the drag, if there is one, is a cell of the grid. *)
Definition drag_in_bounds (st : Grid.State) : Prop :=
  forall d, Grid.dragStart st = Some d -> Grid.in_bounds d.1 d.2.

(** A request that keeps the active cell, the selection and the anchor of
    the drag in the grid. *)
Definition tame (e : Grid.Effect) : Prop :=
  match e with
  | Grid.OnCellSelect r c => Grid.in_bounds r c
  | Grid.SetSelection (Some sel) => range_in_grid sel
  | Grid.SetDragStart (Some d) => Grid.in_bounds d.1 d.2
  | Grid.SetTimeout callback => Forall plain callback
  | _ => True
  end.

(** What every page the grid reaches satisfies: the active cell, the
    selected range and the anchor of the drag lie in the grid, the
    [keydown] listener knows the first two, and the pending [setTimeout]
    callbacks select nothing. *)
Definition page_ok (p : Grid.Page) : Prop :=
  active_in_bounds (Grid.view p)
  /\ selection_in_grid (Grid.view p)
  /\ drag_in_bounds (Grid.view p)
  /\ Grid.listener_current p
  /\ Forall (Forall plain) (Grid.timers p).

(** The cell [(r, c)] lies in the range. *)
Definition in_range (sel : Grid.Selection) (r c : Z) : Prop :=
  Grid.startRow sel <= r <= Grid.endRow sel
  /\ Grid.startCol sel <= c <= Grid.endCol sel.

(** Ctrl and the key [k]. *)
Definition chord_key (k : string) : Grid.KeyboardEvent :=
  {| Grid.key := k; Grid.shiftKey := false;
     Grid.ctrlKey := true; Grid.metaKey := false |}.

Definition chord (k : string) : Grid.Input :=
  Grid.Dom (Grid.KeyDown (chord_key k)).

(** A request that writes a cell or leaves the state alone. *)
Definition writes_only (e : Grid.Effect) : Prop :=
  match e with
  | Grid.Mutate _ _ _ | Grid.PreventDefault | Grid.Toast _ _ => True
  | _ => False
  end.

(** The [keydown] listener reads what the latest render reads, the edit
    buffer and the state of the drag apart. *)
Definition listener_fresh (p : Grid.Page) : Prop :=
  Grid.cells (Grid.keydown p) = Grid.cells (Grid.view p)
  /\ Grid.clipboard (Grid.keydown p) = Grid.clipboard (Grid.view p)
  /\ Grid.selectedCell (Grid.keydown p) = Grid.selectedCell (Grid.view p)
  /\ Grid.selection (Grid.keydown p) = Grid.selection (Grid.view p)
  /\ Grid.isEditing (Grid.keydown p) = Grid.isEditing (Grid.view p).

(** A pointer press on the cell [(r, c)] and its release. *)
Definition click (r c : Z) : list Grid.Input :=
  [Grid.Dom (Grid.MouseDown r c false); Grid.Dom Grid.MouseUp].

(** A drag: a pointer press on the cell [(r0, c0)], the pointer moved over
    the cell [(r1, c1)], and its release. *)
Definition drag (r0 c0 r1 c1 : Z) : list Grid.Input :=
  [Grid.Dom (Grid.MouseDown r0 c0 false); Grid.Dom (Grid.MouseEnter r1 c1);
   Grid.Dom Grid.MouseUp].

(** The smallest range that holds the cells [(r0, c0)] and [(r1, c1)]. *)
Definition box (r0 c0 r1 c1 : Z) : Grid.Selection :=
  {| Grid.startRow := Z.min r0 r1; Grid.startCol := Z.min c0 c1;
     Grid.endRow := Z.max r0 r1; Grid.endCol := Z.max c0 c1 |}.

(** Where a block copied from the range [sel] and pasted at [(ar, ac)]
    puts the cell [(r, c)]. *)
Definition moved_to (sel : Grid.Selection) (ar ac r c : Z) : Z * Z :=
  (ar + (r - Grid.startRow sel), ac + (c - Grid.startCol sel)).

(** The cell [(r, c)] is where the block pasted at [(ar, ac)] puts a cell
    of the range, and lies in the grid. *)
Definition pasted_over (sel : Grid.Selection) (ar ac r c : Z) : Prop :=
  in_range sel (r - ar + Grid.startRow sel) (c - ac + Grid.startCol sel)
  /\ Grid.in_bounds r c.

(** The cells of a range, row by row. *)
Definition cells_of (sel : Grid.Selection) : list (Z * Z) :=
  flat_map (fun r => map (fun c => (r, c))
                         (Js.for_range (Grid.startCol sel) (Grid.endCol sel)))
           (Js.for_range (Grid.startRow sel) (Grid.endRow sel)).

(** The channel after an inbound message. *)
Definition next (me : Collab.User) (st : Collab.State) (m : Collab.Message)
  : Collab.State :=
  (Collab.receive me st m).1.

(** Every pending timer was handed out before [next_id]. *)
Definition timers_wf {A} (t : Cursor.Timers A) : Prop :=
  Forall (fun x => (Cursor.timer_id x < Cursor.next_id t)%positive) (Cursor.pending t).

(** The state of one debounced function over the timers [base] that were
    pending before its first call: at most one timer of its own is
    pending, the one of the latest call. *)
Definition own_timer {A} (wait : Z) (base : list (Cursor.Pending A))
    (st : option positive * Cursor.Timers A) : Prop :=
  timers_wf st.2 /\
  ((st.1 = None /\ Cursor.pending st.2 = base)
   \/ exists i x, st.1 = Some i
        /\ Cursor.pending st.2
           = base ++ [{| Cursor.timer_id := i; Cursor.delay := wait;
                         Cursor.payload := x |}]
        /\ Forall (fun y => Cursor.timer_id y <> i) base).

(** What a render asks to broadcast, if anything. *)
Definition emit_of (props : Cursor.CursorProps) : option Cursor.CursorEmit :=
  match Cursor.ready props, Cursor.currentCell props with
  | true, Some (r, c) =>
      Some {| Cursor.ce_spreadsheetId := Cursor.spreadsheetId props;
              Cursor.ce_sheetId := Cursor.sheetId props;
              Cursor.ce_row := r;
              Cursor.ce_column := c;
              Cursor.ce_isEditing := Cursor.editing props |}
  | _, _ => None
  end.

End Notions.

(** * Properties *)

(** ** The lookup key *)

Module KeyFacts.
Import Vocabulary.

Lemma pretty_N_char_no_dash n : pretty_N_char n <> "-"%char.
Proof. unfold pretty_N_char. repeat case_match; discriminate. Qed.

Lemma pretty_N_go_no_dash n s : no_dash s -> no_dash (pretty_N_go n s).
Proof.
  revert s. induction (N.lt_wf_0 n) as [n _ IH]; intros s Hs.
  destruct (decide (n = 0%N)) as [->|Hn].
  - by rewrite pretty_N_go_0.
  - rewrite pretty_N_go_step by lia. apply IH.
    + apply N.div_lt; lia.
    + split; [apply pretty_N_char_no_dash | exact Hs].
Qed.

Lemma pretty_N_no_dash (n : N) : no_dash (pretty n).
Proof.
  unfold pretty, pretty_N. case_decide.
  - simpl. split; [discriminate | exact I].
  - apply pretty_N_go_no_dash. exact I.
Qed.

Lemma pretty_N_go_nonempty n s : s <> "" -> pretty_N_go n s <> "".
Proof.
  revert s. induction (N.lt_wf_0 n) as [n _ IH]; intros s Hs.
  destruct (decide (n = 0%N)) as [->|Hn].
  - by rewrite pretty_N_go_0.
  - rewrite pretty_N_go_step by lia. apply IH; [apply N.div_lt; lia | discriminate].
Qed.

Lemma pretty_N_nonempty (n : N) : pretty n <> "".
Proof.
  unfold pretty, pretty_N. case_decide; [discriminate|].
  rewrite pretty_N_go_step by lia. apply pretty_N_go_nonempty. discriminate.
Qed.

(** A printed integer is one character, possibly the sign, followed by
    characters that are not dashes. *)
Lemma pretty_Z_shape (z : Z) : exists a t, pretty z = String a t /\ no_dash t.
Proof.
  destruct z as [|p|p]; unfold pretty, pretty_Z.
  - exists "0"%char, "". split; [reflexivity | exact I].
  - pose proof (pretty_N_no_dash (Npos p)) as Hd.
    pose proof (pretty_N_nonempty (Npos p)) as Hne.
    change (pretty p) with (pretty (Npos p)).
    destruct (pretty (Npos p)) as [|a t]; [done|].
    exists a, t. split; [reflexivity | apply Hd].
  - exists "-"%char, (pretty (Npos p)). split; [reflexivity|].
    apply pretty_N_no_dash.
Qed.

Lemma split_at_dash t : forall t' u u',
  no_dash t -> no_dash t' ->
  t +:+ String "-" u = t' +:+ String "-" u' -> t = t' /\ u = u'.
Proof.
  induction t as [|a t IH]; intros [|a' t'] u u' Ht Ht' Heq; simpl in *.
  - by injection Heq.
  - injection Heq as <- _. by destruct Ht' as [? _].
  - injection Heq as -> _. by destruct Ht as [? _].
  - injection Heq as -> Heq. destruct Ht as [_ Ht], Ht' as [_ Ht'].
    destruct (IH _ _ _ Ht Ht' Heq) as [-> ->]. done.
Qed.

(** Two cells share a key only if they share their coordinates. *)
Lemma cellKey_inj r c r' c' :
  Grid.cellKey r c = Grid.cellKey r' c' -> r = r' /\ c = c'.
Proof.
  unfold Grid.cellKey. intros Heq.
  destruct (pretty_Z_shape r) as (a & t & Hr & Ht).
  destruct (pretty_Z_shape r') as (a' & t' & Hr' & Ht').
  rewrite Hr, Hr' in Heq. simpl in Heq. injection Heq as -> Heq.
  destruct (split_at_dash _ _ _ _ Ht Ht' Heq) as [-> Hc].
  split.
  - apply (inj pretty). by rewrite Hr, Hr'.
  - by apply (inj pretty).
Qed.

End KeyFacts.

(** ** The lookup map and the store *)

Module StoreFacts.
Import Grid.

Lemma at_pos_true r c cell : at_pos r c cell = true <-> row cell = r /\ column cell = c.
Proof. unfold at_pos. rewrite andb_true_iff, !Z.eqb_eq. tauto. Qed.

Lemma cellMap_snoc cells cell :
  cellMap (cells ++ [cell]) = <[cellKey (row cell) (column cell) := cell]> (cellMap cells).
Proof. unfold cellMap. by rewrite foldl_app. Qed.

(** The map answers with the last cell of the list at these coordinates. *)
Lemma lookup_cellMap_snoc cells cell r c :
  cellMap (cells ++ [cell]) !! cellKey r c =
  if at_pos r c cell then Some cell else cellMap cells !! cellKey r c.
Proof.
  rewrite cellMap_snoc. destruct (at_pos r c cell) eqn:Hpos.
  - apply at_pos_true in Hpos as [<- <-]. apply lookup_insert_eq.
  - apply lookup_insert_ne. intros Hk. apply KeyFacts.cellKey_inj in Hk.
    apply not_true_iff_false in Hpos. apply Hpos, at_pos_true. tauto.
Qed.

Lemma lookup_cellMap_pos cells r c cell :
  cellMap cells !! cellKey r c = Some cell -> row cell = r /\ column cell = c.
Proof.
  induction cells as [|x cells IH] using rev_ind.
  - unfold cellMap. simpl. by rewrite lookup_empty.
  - rewrite lookup_cellMap_snoc. destruct (at_pos r c x) eqn:Hpos.
    + intros [= <-]. by apply at_pos_true.
    + exact IH.
Qed.

Lemma lookup_cellMap_None cells r c :
  existsb (at_pos r c) cells = false -> cellMap cells !! cellKey r c = None.
Proof.
  induction cells as [|x cells IH] using rev_ind; intros Hex.
  - unfold cellMap. simpl. apply lookup_empty.
  - rewrite existsb_app in Hex. simpl in Hex.
    apply orb_false_iff in Hex as [Hex Hx]. rewrite orb_false_r in Hx.
    rewrite lookup_cellMap_snoc, Hx. by apply IH.
Qed.

Lemma lookup_cellMap_Some cells r c :
  existsb (at_pos r c) cells = true -> is_Some (cellMap cells !! cellKey r c).
Proof.
  induction cells as [|x cells IH] using rev_ind; intros Hex.
  - discriminate.
  - rewrite existsb_app in Hex. simpl in Hex. rewrite orb_false_r in Hex.
    rewrite lookup_cellMap_snoc. destruct (at_pos r c x); [by eexists|].
    rewrite orb_false_r in Hex. by apply IH.
Qed.

(** Rewriting cells in place, coordinates kept, rewrites the answers. *)
Lemma lookup_cellMap_map (f : Cell -> Cell) cells r c :
  (forall cell, row (f cell) = row cell /\ column (f cell) = column cell) ->
  cellMap (map f cells) !! cellKey r c = f <$> cellMap cells !! cellKey r c.
Proof.
  intros Hf. induction cells as [|x cells IH] using rev_ind.
  - unfold cellMap. simpl. by rewrite lookup_empty.
  - rewrite map_app. simpl. rewrite !lookup_cellMap_snoc.
    assert (at_pos r c (f x) = at_pos r c x) as ->.
    { unfold at_pos. by destruct (Hf x) as [-> ->]. }
    destruct (at_pos r c x); [done | exact IH].
Qed.

Lemma in_boundsb_true r c : in_boundsb r c = true <-> in_bounds r c.
Proof.
  unfold in_boundsb, in_bounds. rewrite !andb_true_iff, !Z.leb_le. tauto.
Qed.

(** Reading a cell that was just written. *)
Lemma getCell_writeCell_eq cells r c b :
  in_bounds r c ->
  exists cell, getCell (writeCell cells r c b) r c = Some cell
    /\ row cell = r /\ column cell = c
    /\ value cell = Some (body_value b)
    /\ dataType cell = Some (body_dataType b)
    /\ formula cell = body_formula b.
Proof.
  intros Hb. apply in_boundsb_true in Hb.
  unfold getCell, writeCell. rewrite Hb.
  destruct (existsb (at_pos r c) cells) eqn:Hex.
  - rewrite lookup_cellMap_map by (intros cell; by destruct (at_pos r c cell)).
    destruct (lookup_cellMap_Some _ _ _ Hex) as [old Hold]. rewrite Hold. simpl.
    destruct (lookup_cellMap_pos _ _ _ _ Hold) as [Hr Hc].
    assert (at_pos r c old = true) as -> by (by apply at_pos_true).
    exists (stored b old). by repeat split.
  - rewrite lookup_cellMap_snoc.
    assert (at_pos r c (created r c b) = true) as -> by (by apply at_pos_true).
    exists (created r c b). by repeat split.
Qed.

(** Writing a cell leaves the others as they were. *)
Lemma getCell_writeCell_ne cells r c b r' c' :
  (r', c') <> (r, c) ->
  getCell (writeCell cells r c b) r' c' = getCell cells r' c'.
Proof.
  intros Hne. unfold getCell, writeCell.
  destruct (in_boundsb r c); [|done].
  destruct (existsb (at_pos r c) cells) eqn:Hex.
  - rewrite lookup_cellMap_map by (intros cell; by destruct (at_pos r c cell)).
    destruct (cellMap cells !! cellKey r' c') as [old|] eqn:Hold; [|done].
    simpl. destruct (lookup_cellMap_pos _ _ _ _ Hold) as [Hr Hc].
    destruct (at_pos r c old) eqn:Hpos; [|done].
    apply at_pos_true in Hpos as [? ?]. destruct Hne. congruence.
  - rewrite lookup_cellMap_snoc.
    destruct (at_pos r' c' (created r c b)) eqn:Hpos; [|done].
    apply at_pos_true in Hpos as [? ?]. simpl in *. destruct Hne. congruence.
Qed.

(** A write outside the grid changes nothing. *)
Lemma writeCell_out_of_bounds cells r c b :
  ~ in_bounds r c -> writeCell cells r c b = cells.
Proof.
  intros Hb. unfold writeCell. destruct (in_boundsb r c) eqn:Hin; [|done].
  by apply in_boundsb_true in Hin.
Qed.

Lemma getCellValue_setCell_eq cells r c v :
  in_bounds r c -> getCellValue (setCell cells r c v) r c = v.
Proof.
  intros Hb. unfold getCellValue, setCell.
  destruct (getCell_writeCell_eq cells r c (mutationBody v) Hb)
    as (cell & Hget & _ & _ & Hv & _).
  unfold getCell in Hget. rewrite Hget. simpl. by rewrite Hv.
Qed.

Lemma getCellValue_setCell_ne cells r c v r' c' :
  (r', c') <> (r, c) ->
  getCellValue (setCell cells r c v) r' c' = getCellValue cells r' c'.
Proof.
  intros Hne. unfold getCellValue, setCell.
  pose proof (getCell_writeCell_ne cells r c (mutationBody v) r' c' Hne) as Hget.
  unfold getCell in Hget. by rewrite Hget.
Qed.

(** Writing back the value a cell shows changes no value on the sheet. *)
Lemma getCellValue_setCell_same cells r c r' c' :
  getCellValue (setCell cells r c (getCellValue cells r c)) r' c'
  = getCellValue cells r' c'.
Proof.
  destruct (decide ((r', c') = (r, c))) as [[= -> ->]|Hne].
  - destruct (in_boundsb r c) eqn:Hin.
    + apply getCellValue_setCell_eq. by apply in_boundsb_true.
    + unfold setCell, writeCell. by rewrite Hin.
  - by apply getCellValue_setCell_ne.
Qed.

End StoreFacts.

(** ** Writing and reading a cell *)

(** C4: for every in-bounds [(row, col)] and every value, [setCell] followed
    by [getCell] returns the written value with the inferred data type: a
    value that starts with [=] is a formula and is also kept as the
    formula, otherwise a value that [Number] converts to a number is a
    number, and anything else is text. *)
Theorem setCell_then_getCell (cells : list Grid.Cell) (r c : Z) (v : string) :
  Grid.in_bounds r c ->
  Grid.getCellValue (Grid.setCell cells r c v) r c = v /\
  exists cell,
    Grid.getCell (Grid.setCell cells r c v) r c = Some cell /\
    Grid.value cell = Some v /\
    (Js.startsWith v "=" = true ->
       Grid.dataType cell = Some "formula" /\ Grid.formula cell = Some v) /\
    (Js.startsWith v "=" = false -> Js.isNaN_Number v = false ->
       Grid.dataType cell = Some "number" /\ Grid.formula cell = None) /\
    (Js.startsWith v "=" = false -> Js.isNaN_Number v = true ->
       Grid.dataType cell = Some "text" /\ Grid.formula cell = None).
Proof.
  intros Hb. split; [by apply StoreFacts.getCellValue_setCell_eq|].
  destruct (StoreFacts.getCell_writeCell_eq cells r c (Grid.mutationBody v) Hb)
    as (cell & Hget & _ & _ & Hv & Ht & Hf).
  exists cell. split; [exact Hget|]. split; [exact Hv|].
  rewrite Ht, Hf. unfold Grid.mutationBody. simpl.
  repeat split; intros; repeat match goal with H : _ = _ |- _ => rewrite H end;
    reflexivity.
Qed.

Lemma setCell_then_getCell_witness :
  Grid.in_bounds 1 1 /\ Grid.getCellValue (Grid.setCell [] 1 1 "42") 1 1 = "42".
Proof.
  assert (Grid.in_bounds 1 1) as Hb
    by (unfold Grid.in_bounds, Grid.ROWS, Grid.COLS; lia).
  split; [exact Hb|].
  exact (proj1 (setCell_then_getCell [] 1 1 "42" Hb)).
Defined.

Example setCell_number :
  Grid.getCell (Grid.setCell [] 3 2 "42") 3 2
  = Some {| Grid.id := None; Grid.row := 3; Grid.column := 2;
            Grid.value := Some "42"; Grid.formula := None;
            Grid.dataType := Some "number"; Grid.formatting := None |}.
Proof. vm_compute. reflexivity. Qed.

Example setCell_formula :
  Grid.getCell (Grid.setCell [] 3 2 "=A1+1") 3 2
  = Some {| Grid.id := None; Grid.row := 3; Grid.column := 2;
            Grid.value := Some "=A1+1"; Grid.formula := Some "=A1+1";
            Grid.dataType := Some "formula"; Grid.formatting := None |}.
Proof. vm_compute. reflexivity. Qed.

Example setCell_text :
  Grid.getCell (Grid.setCell [] 3 2 "hello") 3 2
  = Some {| Grid.id := None; Grid.row := 3; Grid.column := 2;
            Grid.value := Some "hello"; Grid.formula := None;
            Grid.dataType := Some "text"; Grid.formatting := None |}.
Proof. vm_compute. reflexivity. Qed.

Example isNaN_Number_examples :
  map Js.isNaN_Number
    [""; "42"; "hello"; " 4.5e3 "; "1e"; "0x1F"; "-0x1F"; "."; "+.5";
     "-Infinity"; "infinity"; "0b102"; "1_000"; "12px"; "  "; "1."]
  = [false; false; true; false; true; false; true; true; false;
     false; true; true; true; true; false; false].
Proof. vm_compute. reflexivity. Qed.

(** ** Clearing cells *)

Module EffectFacts.
Import Grid.

Lemma mutations_app es es' : mutations (es ++ es') = mutations es ++ mutations es'.
Proof.
  induction es as [|e es IH]; [done|].
  destruct e; simpl; by rewrite ?IH.
Qed.

Lemma mutations_when b es : mutations (when b es) = if b then mutations es else [].
Proof. by destruct b. Qed.

Lemma mutations_flat_map {A} (f : A -> list Effect) (l : list A) :
  mutations (flat_map f l) = flat_map (fun x => mutations (f x)) l.
Proof.
  induction l as [|x l IH]; [done|].
  simpl. by rewrite mutations_app, IH.
Qed.

Lemma mutations_copySelection st : mutations (copySelection st) = [].
Proof. unfold copySelection. by destruct (selection st), (selectedCell st). Qed.

Lemma mutations_startEditing st : mutations (startEditing st) = [].
Proof. unfold startEditing. by destruct (selectedCell st). Qed.

Lemma editing_changes_app es es' :
  editing_changes (es ++ es') = editing_changes es ++ editing_changes es'.
Proof.
  induction es as [|e es IH]; [done|].
  destruct e; simpl; by rewrite ?IH.
Qed.

Lemma editing_changes_when b es :
  editing_changes (when b es) = if b then editing_changes es else [].
Proof. by destruct b. Qed.

Lemma editing_changes_flat_map {A} (f : A -> list Effect) (l : list A) :
  (forall x, editing_changes (f x) = []) -> editing_changes (flat_map f l) = [].
Proof.
  intros Hf. induction l as [|x l IH]; [done|].
  simpl. by rewrite editing_changes_app, Hf, IH.
Qed.

Lemma editing_changes_clearSelection st : editing_changes (clearSelection st) = [].
Proof.
  unfold clearSelection. destruct (selection st) as [sel|].
  - apply editing_changes_flat_map. intros r.
    induction (Js.for_range (startCol sel) (endCol sel)); by simpl.
  - by destruct (selectedCell st).
Qed.

Lemma editing_changes_copySelection st : editing_changes (copySelection st) = [].
Proof. unfold copySelection. by destruct (selection st), (selectedCell st). Qed.

Lemma editing_changes_pasteSelection st : editing_changes (pasteSelection st) = [].
Proof.
  unfold pasteSelection.
  destruct (selectedCell st) as [sc|]; [|done].
  destruct (clipboard st) as [|first rest] eqn:Hclip; [done|].
  rewrite editing_changes_app, editing_changes_flat_map; [done|].
  intros cell. unfold pasteCell. rewrite editing_changes_when.
  by destruct (_ && _).
Qed.

Lemma editing_changes_cutSelection st : editing_changes (cutSelection st) = [].
Proof.
  unfold cutSelection.
  by rewrite editing_changes_app, editing_changes_copySelection,
    editing_changes_clearSelection.
Qed.

Lemma editing_changes_startEditing st :
  Forall (eq true) (editing_changes (startEditing st)).
Proof. unfold startEditing. destruct (selectedCell st); simpl; repeat constructor. Qed.

(** While navigating, no key leaves the editing mode. *)
Lemma editing_changes_navigationKey st e r c :
  Forall (eq true) (editing_changes (navigationKey st e r c)).
Proof.
  unfold navigationKey. rewrite editing_changes_app. apply Forall_app. split.
  - repeat case_match; simpl;
      rewrite ?editing_changes_when, ?editing_changes_clearSelection;
      try apply editing_changes_startEditing;
      repeat case_match; simpl; constructor.
  - repeat case_match; simpl;
      rewrite ?editing_changes_copySelection, ?editing_changes_pasteSelection,
        ?editing_changes_cutSelection; constructor.
Qed.

(** The cells of the page after a list of requests: the writes among
    them, applied in order. *)
Lemma cells_run p es :
  cells (view (run p es)) = write_all (cells (view p)) (mutations es).
Proof.
  revert p. induction es as [|e es IH]; intros p; [done|].
  unfold run in *. simpl foldl. rewrite IH. by destruct e.
Qed.

Lemma isEditing_run p es :
  isEditing (view (run p es))
  = foldl (fun _ b => b) (isEditing (view p)) (editing_changes es).
Proof.
  revert p. induction es as [|e es IH]; intros p; [done|].
  unfold run in *. simpl foldl. rewrite IH. by destruct e.
Qed.

Lemma mutations_clear_row r cs :
  mutations (map (fun c => Mutate r c "") cs) = map (fun c => (r, c, "")) cs.
Proof. induction cs as [|c cs IH]; simpl; by rewrite ?IH. Qed.

End EffectFacts.

(** ** Navigation at the edges of the grid *)

(** The listener on [document] always agrees with the latest render on
    the active cell, the mode and the selection. *)
Lemma listener_current_mounted st : Grid.listener_current (Grid.mounted st).
Proof. by repeat split. Qed.

Lemma listener_current_rendered p es :
  Grid.listener_current p -> Grid.listener_current (Grid.rendered p es).
Proof.
  intros (Hsc & Hed & Hsel). unfold Grid.listener_current, Grid.rendered. simpl.
  destruct (bool_decide _ && _) eqn:Hkeep; [|by repeat split].
  apply andb_true_iff in Hkeep as [Hsame _].
  apply bool_decide_eq_true in Hsame as (Hsc' & Hed' & Hsel').
  repeat split; congruence.
Qed.

Lemma listener_current_step p i :
  Grid.listener_current p -> Grid.listener_current (Grid.step p i).
Proof.
  intros Hp. destruct i as [ev|]; simpl.
  - by apply listener_current_rendered.
  - destruct (Grid.timers p); [done|]. by apply listener_current_rendered.
Qed.

(** C8: while navigating, a key that would move the active cell past an
    edge of the grid changes nothing: Up at row 1, Down at row 1000, Left
    at column 1, Right at column 26, and Tab or Shift+Tab at the last or
    first column (no wrapping).  The handler only cancels the browser's
    default action. *)
Theorem navigation_clamped_at_edges
    (p : Grid.Page) (e : Grid.KeyboardEvent) (sc : Grid.CellRef) :
  Grid.listener_current p ->
  Grid.selectedCell (Grid.view p) = Some sc ->
  Grid.isEditing (Grid.view p) = false ->
  Vocabulary.at_edge e sc ->
  Grid.handleKeyDown (Grid.keydown p) e = [Grid.PreventDefault] /\
  Grid.step p (Grid.Dom (Grid.KeyDown e)) = p.
Proof.
  intros (Hsc' & Hed' & _) Hsc Hnav Hedge.
  rewrite <- Hsc' in Hsc. rewrite <- Hed' in Hnav.
  assert (Grid.handleKeyDown (Grid.keydown p) e = [Grid.PreventDefault]) as Hh.
  { unfold Grid.handleKeyDown. rewrite Hsc, Hnav. simpl.
    unfold Grid.navigationKey.
    destruct Hedge as [[-> ->]|[[-> ->]|[[-> ->]|[[-> ->]|[(-> & -> & ->)|(-> & -> & ->)]]]]];
      simpl; by destruct (Grid.ctrlKey e), (Grid.metaKey e). }
  split; [exact Hh|]. simpl. rewrite Hh. unfold Grid.rendered. simpl.
  rewrite bool_decide_eq_true_2 by (by repeat split).
  by destruct p.
Qed.

Lemma navigation_clamped_at_edges_witness :
  let p := Grid.mounted
             {| Grid.cells := [];
                Grid.selectedCell := Some {| Grid.ref_row := 1; Grid.ref_column := 5 |};
                Grid.isEditing := false; Grid.selection := None;
                Grid.isSelecting := false; Grid.isDragging := false;
                Grid.dragStart := None; Grid.editingValue := "";
                Grid.clipboard := [] |} in
  let e := {| Grid.key := "ArrowUp"; Grid.shiftKey := false;
              Grid.ctrlKey := false; Grid.metaKey := false |} in
  Grid.step p (Grid.Dom (Grid.KeyDown e)) = p.
Proof.
  intros p e.
  refine (proj2 (navigation_clamped_at_edges p e
                   {| Grid.ref_row := 1; Grid.ref_column := 5 |} _ _ _ _)).
  - repeat split.
  - reflexivity.
  - reflexivity.
  - left. split; reflexivity.
Defined.

(** Away from the edge the same keys move the active cell by one. *)
Example navigation_moves_inside :
  let st := {| Grid.cells := [];
               Grid.selectedCell := Some {| Grid.ref_row := 2; Grid.ref_column := 5 |};
               Grid.isEditing := false; Grid.selection := None;
               Grid.isSelecting := false; Grid.isDragging := false;
               Grid.dragStart := None; Grid.editingValue := "";
               Grid.clipboard := [] |} in
  map (fun k => Grid.handleKeyDown st
                  {| Grid.key := k; Grid.shiftKey := false;
                     Grid.ctrlKey := false; Grid.metaKey := false |})
      ["ArrowUp"; "ArrowDown"; "ArrowLeft"; "ArrowRight"; "Tab"]
  = [[Grid.PreventDefault; Grid.OnCellSelect 1 5];
     [Grid.PreventDefault; Grid.OnCellSelect 3 5];
     [Grid.PreventDefault; Grid.OnCellSelect 2 4];
     [Grid.PreventDefault; Grid.OnCellSelect 2 6];
     [Grid.PreventDefault; Grid.OnCellSelect 2 6]].
Proof. vm_compute. reflexivity. Qed.

(** ** Leaving the editing mode *)

(** Whenever a handler leaves the editing mode (it calls
    [onEditingChange(false)]), its render was editing a cell and, unless
    the event is the Escape key, the handler writes the [editingValue] of
    its render to the active cell, and writes nothing else; on Escape it
    writes nothing and empties the edit buffer. *)
Lemma leaving_edit_mode_writes_captured_buffer (st : Grid.State) (ev : Grid.Event) :
  In false (Grid.editing_changes (Grid.handle st ev)) ->
  Grid.isEditing st = true /\
  exists sc,
    Grid.selectedCell st = Some sc /\
    (~ Vocabulary.is_escape ev ->
       Grid.mutations (Grid.handle st ev)
         = [(Grid.ref_row sc, Grid.ref_column sc, Grid.editingValue st)]) /\
    (Vocabulary.is_escape ev ->
       Grid.handle st ev
         = [Grid.PreventDefault; Grid.OnEditingChange false;
            Grid.SetEditingValue ""]).
Proof.
  intros Hleave.
  destruct ev as [e|r c shift|r c| | |r c|v]; simpl in Hleave |- *.
  - (* a key *)
    unfold Grid.handleKeyDown in *.
    destruct (Grid.selectedCell st) as [sc|] eqn:Hsc; [|done].
    destruct (Grid.isEditing st) eqn:Hed; simpl in Hleave |- *.
    + split; [done|]. unfold Grid.editingKey, Grid.finishEditing in *.
      rewrite Hsc in *. exists sc. split; [done|].
      destruct (String.eqb (Grid.key e) "Enter") eqn:HEnter;
        [|destruct (String.eqb (Grid.key e) "Escape") eqn:HEsc;
          [|destruct (String.eqb (Grid.key e) "Tab") eqn:HTab; [|done]]].
      * apply String.eqb_eq in HEnter.
        split; [|intros HEscape; rewrite HEnter in HEscape; discriminate].
        intros _. simpl. by destruct (_ <? _).
      * apply String.eqb_eq in HEsc. split; [intros []; exact HEsc|done].
      * apply String.eqb_eq in HTab.
        split; [|intros HEscape; rewrite HTab in HEscape; discriminate].
        intros _. simpl.
        by destruct (Grid.shiftKey e); [destruct (_ >? _)|destruct (_ <? _)].
    + pose proof (EffectFacts.editing_changes_navigationKey
                    st e (Grid.ref_row sc) (Grid.ref_column sc)) as Hnav.
      rewrite Forall_forall in Hnav. apply list_elem_of_In in Hleave.
      by specialize (Hnav _ Hleave).
  - (* a pointer press on a cell *)
    unfold Grid.handleMouseDown, Grid.finishEditing in *.
    destruct (Grid.isEditing st) eqn:Hed;
      destruct (Grid.selectedCell st) as [sc|] eqn:Hsc;
      destruct shift; simpl in Hleave |- *;
      try (destruct Hleave as [Hleave|Hleave]; [discriminate|]);
      try done;
      (split; [done|]; exists sc; split; [done|];
       split; [|intros []]; by intros _).
  - unfold Grid.handleMouseEnter in Hleave.
    by destruct (Grid.isSelecting st), (Grid.dragStart st) as [[??]|].
  - done.
  - done.
  - done.
  - done.
Qed.

(** C7 fails for Enter and Tab.  The cell [(2, 3)] holds ["old"]; F2 starts
    editing it, the user replaces the text of the input by ["new"], and
    Enter leaves the editing mode.  The listener on [document] is still the
    one registered when editing started, so the request it sends carries
    ["old"], the edit buffer ["new"] is lost and the cell keeps ["old"].
    Leaving by a pointer press on another cell writes ["new"]. *)
Theorem enter_commits_stale_buffer :
  let key k := Grid.Dom (Grid.KeyDown {| Grid.key := k; Grid.shiftKey := false;
                                         Grid.ctrlKey := false; Grid.metaKey := false |}) in
  let p0 := Grid.mounted
              {| Grid.cells := Grid.setCell [] 2 3 "old";
                 Grid.selectedCell := Some {| Grid.ref_row := 2; Grid.ref_column := 3 |};
                 Grid.isEditing := false; Grid.selection := None;
                 Grid.isSelecting := false; Grid.isDragging := false;
                 Grid.dragStart := None; Grid.editingValue := "";
                 Grid.clipboard := [] |} in
  let p1 := Grid.step p0 (key "F2") in
  let p2 := Grid.step p1 (Grid.Dom (Grid.InputChange "new")) in
  let p3 := Grid.step p2 (key "Enter") in
  let p3' := Grid.step p2 (Grid.Dom (Grid.MouseDown 5 5 false)) in
  Grid.isEditing (Grid.view p2) = true /\
  Grid.editingValue (Grid.view p2) = "new" /\
  Grid.editingValue (Grid.keydown p2) = "old" /\
  Grid.mutations (Grid.handle (Grid.captured p2 (Grid.KeyDown
     {| Grid.key := "Enter"; Grid.shiftKey := false;
        Grid.ctrlKey := false; Grid.metaKey := false |}))
     (Grid.KeyDown {| Grid.key := "Enter"; Grid.shiftKey := false;
                      Grid.ctrlKey := false; Grid.metaKey := false |}))
    = [(2, 3, "old")] /\
  Grid.isEditing (Grid.view p3) = false /\
  Grid.getCellValue (Grid.cells (Grid.view p3)) 2 3 = "old" /\
  Grid.isEditing (Grid.view p3') = false /\
  Grid.getCellValue (Grid.cells (Grid.view p3')) 2 3 = "new".
Proof. vm_compute. repeat split. Qed.

Example escape_discards_the_buffer :
  let key k := Grid.Dom (Grid.KeyDown {| Grid.key := k; Grid.shiftKey := false;
                                         Grid.ctrlKey := false; Grid.metaKey := false |}) in
  let p0 := Grid.mounted
              {| Grid.cells := Grid.setCell [] 2 3 "old";
                 Grid.selectedCell := Some {| Grid.ref_row := 2; Grid.ref_column := 3 |};
                 Grid.isEditing := false; Grid.selection := None;
                 Grid.isSelecting := false; Grid.isDragging := false;
                 Grid.dragStart := None; Grid.editingValue := "";
                 Grid.clipboard := [] |} in
  let p2 := Grid.step (Grid.step p0 (key "F2")) (Grid.Dom (Grid.InputChange "new")) in
  let p3 := Grid.step p2 (key "Escape") in
  Grid.isEditing (Grid.view p3) = false /\
  Grid.editingValue (Grid.view p3) = "" /\
  Grid.cells (Grid.view p3) = Grid.cells (Grid.view p0).
Proof. vm_compute. repeat split. Qed.

(** ** Copy and paste *)

Module ClipboardFacts.
Import Grid Vocabulary.

Lemma in_for_range lo hi x : In x (Js.for_range lo hi) <-> lo <= x <= hi.
Proof.
  unfold Js.for_range. rewrite in_map_iff. split.
  - intros (k & <- & Hk). apply in_seq in Hk. lia.
  - intros Hx. exists (Z.to_nat (x - lo)). split; [lia|]. apply in_seq. lia.
Qed.

Lemma for_range_cons lo hi :
  lo <= hi -> Js.for_range lo hi = lo :: Js.for_range (lo + 1) hi.
Proof.
  intros Hle. unfold Js.for_range.
  replace (Z.to_nat (hi - lo + 1)) with (S (Z.to_nat (hi - (lo + 1) + 1))) by lia.
  simpl. f_equal; [lia|].
  rewrite <- seq_shift, map_map. apply map_ext. intros k. lia.
Qed.

Lemma for_range_nil lo hi : hi < lo -> Js.for_range lo hi = [].
Proof.
  intros Hlt. unfold Js.for_range.
  by replace (Z.to_nat (hi - lo + 1)) with O by lia.
Qed.

(** What [copySelection] captures from a range: the cells of the range. *)
Lemma in_copiedCells st sel cell :
  selection st = Some sel ->
  In cell (copiedCells st) ->
  startRow sel <= row cell <= endRow sel /\
  startCol sel <= column cell <= endCol sel /\
  value cell = Some (getCellValue (cells st) (row cell) (column cell)).
Proof.
  intros Hsel. unfold copiedCells. rewrite Hsel, in_flat_map.
  intros (r & Hr & Hin). apply in_map_iff in Hin as (c & <- & Hc).
  apply in_for_range in Hr, Hc. simpl. repeat split; tauto.
Qed.

(** The first tuple of a non-empty clipboard is the top-left cell. *)
Lemma copiedCells_head st sel first rest :
  selection st = Some sel ->
  copiedCells st = first :: rest ->
  row first = startRow sel /\ column first = startCol sel.
Proof.
  intros Hsel. unfold copiedCells. rewrite Hsel.
  destruct (Z_lt_le_dec (endRow sel) (startRow sel)) as [Hr|Hr].
  { by rewrite (for_range_nil _ _ Hr). }
  rewrite (for_range_cons _ _ Hr). simpl.
  destruct (Z_lt_le_dec (endCol sel) (startCol sel)) as [Hc|Hc].
  - rewrite (for_range_nil _ _ Hc). simpl.
    intros Heq. exfalso. revert Heq.
    induction (Js.for_range (startRow sel + 1) (endRow sel)); [done|].
    simpl. assumption.
  - rewrite (for_range_cons _ _ Hc). simpl. by intros [= <- _].
Qed.

Lemma copiedCells_nonempty st sel :
  selection st = Some sel -> normalized sel -> copiedCells st <> [].
Proof.
  intros Hsel [Hr Hc]. unfold copiedCells. rewrite Hsel.
  by rewrite (for_range_cons _ _ Hr), (for_range_cons _ _ Hc).
Qed.

(** The writes of the [forEach] of [pasteSelection], when no tuple lies
    above or left of the first one. *)
Lemma mutations_pasteCells r0 c0 first l :
  1 <= r0 -> 1 <= c0 ->
  Forall (fun cell => row first <= row cell /\ column first <= column cell) l ->
  mutations (flat_map (pasteCell r0 c0 first) l)
  = map (fun cell => (r0 + (row cell - row first),
                      c0 + (column cell - column first),
                      Js.or_empty (value cell)))
        (List.filter (fun cell => in_boundsb (r0 + (row cell - row first))
                                             (c0 + (column cell - column first)))
                     l).
Proof.
  intros Hr0 Hc0. induction 1 as [|cell l [Hr Hc] _ IH]; [done|].
  simpl. rewrite EffectFacts.mutations_app, IH. unfold pasteCell, in_boundsb.
  assert ((1 <=? r0 + (row cell - row first)) = true) as ->
    by (apply Z.leb_le; lia).
  assert ((1 <=? c0 + (column cell - column first)) = true) as ->
    by (apply Z.leb_le; lia).
  simpl. rewrite andb_true_r.
  by destruct (_ <=? ROWS), (_ <=? COLS).
Qed.

End ClipboardFacts.

(** Every range a handler selects has its corners ordered. *)
Module SelectionFacts.
Import Grid.

Lemma startEditing_sets_no_selection st s : ~ In (SetSelection s) (startEditing st).
Proof.
  unfold startEditing. destruct (selectedCell st); simpl; intuition discriminate.
Qed.

Lemma clearSelection_sets_no_selection st s : ~ In (SetSelection s) (clearSelection st).
Proof.
  unfold clearSelection. destruct (selection st) as [sel|].
  - rewrite in_flat_map. intros (r & _ & Hin).
    apply in_map_iff in Hin as (c & Heq & _). discriminate.
  - destruct (selectedCell st); simpl; intuition discriminate.
Qed.

Lemma copySelection_sets_no_selection st s : ~ In (SetSelection s) (copySelection st).
Proof.
  unfold copySelection.
  destruct (selection st), (selectedCell st); simpl; intuition discriminate.
Qed.

Lemma pasteSelection_sets_no_selection st s : ~ In (SetSelection s) (pasteSelection st).
Proof.
  unfold pasteSelection. destruct (selectedCell st) as [sc|]; [|simpl; tauto].
  destruct (clipboard st) as [|first rest] eqn:Hclip; [simpl; tauto|].
  rewrite in_app_iff, in_flat_map. intros [(cell & _ & Hin)|Hin].
  - unfold pasteCell, when in Hin.
    destruct (_ && _); simpl in Hin; intuition discriminate.
  - simpl in Hin. intuition discriminate.
Qed.

Lemma cutSelection_sets_no_selection st s : ~ In (SetSelection s) (cutSelection st).
Proof.
  unfold cutSelection. rewrite in_app_iff. intros [Hin|Hin].
  - by apply copySelection_sets_no_selection in Hin.
  - by apply clearSelection_sets_no_selection in Hin.
Qed.

Lemma selectAll_normalized : normalized {| startRow := 1; startCol := 1;
                                           endRow := ROWS; endCol := COLS |}.
Proof. unfold normalized, ROWS, COLS. simpl. lia. Qed.

Lemma handlers_select_normalized_ranges st ev sel :
  In (SetSelection (Some sel)) (handle st ev) -> normalized sel.
Proof.
  destruct ev as [e|r c shift|r c| | |r c|v]; simpl.
  - unfold handleKeyDown. destruct (selectedCell st) as [sc|]; [|done].
    destruct (negb (isEditing st)).
    + unfold navigationKey. rewrite in_app_iff. intros [Hin|Hin].
      * exfalso. revert Hin.
        repeat case_match; unfold when; repeat case_match; simpl;
          try (intuition discriminate).
        -- intros [Hin|Hin]; [discriminate|].
           by apply startEditing_sets_no_selection in Hin.
        -- intros [Hin|Hin]; [discriminate|].
           by apply clearSelection_sets_no_selection in Hin.
      * revert Hin. repeat case_match; simpl; try done.
        -- intros [Hin|Hin]; [discriminate|].
           by apply copySelection_sets_no_selection in Hin.
        -- intros [Hin|Hin]; [discriminate|].
           by apply pasteSelection_sets_no_selection in Hin.
        -- intros [Hin|Hin]; [discriminate|].
           by apply cutSelection_sets_no_selection in Hin.
        -- intros [Hin|[[= <-]|[]]]; [discriminate|]. apply selectAll_normalized.
    + unfold editingKey, finishEditing, cancelEditing, when.
      repeat case_match; simpl; intuition discriminate.
  - unfold handleMouseDown, finishEditing. rewrite in_app_iff. intros [Hin|Hin].
    + exfalso. revert Hin. repeat case_match; simpl; intuition discriminate.
    + revert Hin. repeat case_match; simpl;
        try (intuition discriminate).
      intros [Hin|[[= <-]|[]]]; [discriminate|]. unfold normalized. simpl. lia.
  - unfold handleMouseEnter. repeat case_match; simpl; try done.
    intros [[= <-]|[]]. unfold normalized. simpl. lia.
  - intuition discriminate.
  - intuition discriminate.
  - intuition discriminate.
  - intuition discriminate.
Qed.

End SelectionFacts.

(** C5: with the clipboard [copy] captured from a range, [paste] at an
    anchor cell writes, in clipboard order, exactly the tuples whose target
    (the anchor plus the tuple's offset in the range) lies inside the grid,
    each with [setCell]'s request, and skips the others; so no cell outside
    the grid is written.  With an empty clipboard [paste] does nothing. *)
Theorem paste_writes_in_bounds_targets
    (st : Grid.State) (sel : Grid.Selection) (anchor : Grid.CellRef) :
  Grid.selection st = Some sel ->
  Grid.normalized sel ->
  Grid.in_bounds (Grid.ref_row anchor) (Grid.ref_column anchor) ->
  Grid.copiedCells st <> [] /\
  Grid.mutations (Grid.pasteSelection (Vocabulary.pasting st anchor))
    = map (fun cell => (Vocabulary.target sel anchor cell,
                        Js.or_empty (Grid.value cell)))
          (List.filter (Vocabulary.target_in_bounds sel anchor)
                       (Grid.copiedCells st)) /\
  Forall (fun m => Grid.in_bounds m.1.1 m.1.2)
         (Grid.mutations (Grid.pasteSelection (Vocabulary.pasting st anchor))) /\
  (forall st0, Grid.clipboard st0 = [] -> Grid.pasteSelection st0 = []).
Proof.
  intros Hsel Hnorm [[Har _] [Hac _]].
  pose proof (ClipboardFacts.copiedCells_nonempty st sel Hsel Hnorm) as Hne.
  assert (Grid.mutations (Grid.pasteSelection (Vocabulary.pasting st anchor))
          = map (fun cell => (Vocabulary.target sel anchor cell,
                              Js.or_empty (Grid.value cell)))
                (List.filter (Vocabulary.target_in_bounds sel anchor)
                             (Grid.copiedCells st))) as Heq.
  { unfold Grid.pasteSelection, Vocabulary.pasting. simpl.
    destruct (Grid.copiedCells st) as [|first rest] eqn:Hcopied; [done|].
    destruct (ClipboardFacts.copiedCells_head st sel first rest Hsel Hcopied)
      as [Hfr Hfc].
    rewrite EffectFacts.mutations_app. simpl Grid.mutations at 2.
    rewrite app_nil_r, ClipboardFacts.mutations_pasteCells; [|done|done|].
    - unfold Vocabulary.target_in_bounds, Vocabulary.target.
      by rewrite Hfr, Hfc.
    - apply Forall_forall. intros cell Hin. rewrite Hfr, Hfc.
      apply list_elem_of_In in Hin. rewrite <- Hcopied in Hin.
      pose proof (ClipboardFacts.in_copiedCells st sel cell Hsel Hin). lia. }
  split; [exact Hne|]. split; [exact Heq|]. split.
  - rewrite Heq. apply Forall_map, Forall_forall. intros cell Hin.
    apply list_elem_of_In, filter_In in Hin as [_ Hin].
    by apply StoreFacts.in_boundsb_true.
  - intros st0 Hempty. unfold Grid.pasteSelection. rewrite Hempty.
    by destruct (Grid.selectedCell st0).
Qed.

(** A block of three rows and three columns pasted with its top-left corner
    on the last row but one (row 999): the rows 999 and 1000 are written,
    the third row of the block is dropped. *)
Example paste_at_the_bottom_edge :
  let st := {| Grid.cells := [];
               Grid.selectedCell := Some {| Grid.ref_row := 1; Grid.ref_column := 1 |};
               Grid.isEditing := false;
               Grid.selection := Some {| Grid.startRow := 1; Grid.startCol := 1;
                                         Grid.endRow := 3; Grid.endCol := 3 |};
               Grid.isSelecting := false; Grid.isDragging := false;
               Grid.dragStart := None; Grid.editingValue := "";
               Grid.clipboard := [] |} in
  let anchor := {| Grid.ref_row := 999; Grid.ref_column := 1 |} in
  length (Grid.copiedCells st) = 9%nat /\
  map fst (Grid.mutations (Grid.pasteSelection (Vocabulary.pasting st anchor)))
  = [(999, 1); (999, 2); (999, 3); (1000, 1); (1000, 2); (1000, 3)].
Proof. vm_compute. split; reflexivity. Qed.

Lemma paste_writes_in_bounds_targets_witness :
  let sel := {| Grid.startRow := 1; Grid.startCol := 1;
                Grid.endRow := 3; Grid.endCol := 3 |} in
  let st := {| Grid.cells := [];
               Grid.selectedCell := Some {| Grid.ref_row := 1; Grid.ref_column := 1 |};
               Grid.isEditing := false;
               Grid.selection := Some sel;
               Grid.isSelecting := false; Grid.isDragging := false;
               Grid.dragStart := None; Grid.editingValue := "";
               Grid.clipboard := [] |} in
  let anchor := {| Grid.ref_row := 999; Grid.ref_column := 1 |} in
  Forall (fun m => Grid.in_bounds m.1.1 m.1.2)
         (Grid.mutations (Grid.pasteSelection (Vocabulary.pasting st anchor))).
Proof.
  intros sel st anchor.
  refine (proj1 (proj2 (proj2 (paste_writes_in_bounds_targets st sel anchor _ _ _)))).
  - reflexivity.
  - unfold Grid.normalized; simpl; lia.
  - unfold Grid.in_bounds, Grid.ROWS, Grid.COLS; simpl; lia.
Defined.

(** C6 fails on ordinary input.  Ctrl+C and Ctrl+V run the
    [copySelection] and [pasteSelection] of the render that registered the
    [keydown] listener, and neither [clipboard] nor [cells] is among the
    dependencies of that effect.  The cells [(1, 1)], [(1, 2)] and [(2, 2)]
    hold ["a"], ["b"] and ["c"], and [(1, 1)] is the active cell.

    Ctrl+C copies ["a"]; a drag from [(1, 2)] to [(2, 2)] selects that
    range, with [(1, 2)], its top-left cell, as the active cell, and
    registers a listener that holds the clipboard with ["a"]; Ctrl+C copies
    the range, and Ctrl+V, pressed at once, pastes the clipboard the
    listener holds: the request writes ["a"] to [(1, 2)], which showed
    ["b"] before the paste.

    With Delete pressed after the drag the range is empty, but Ctrl+C
    copies ["b"] and ["c"], which the listener still holds as the cells;
    after a click on [(1, 2)] Ctrl+V pastes them, and [(1, 2)], which
    showed the empty string before the paste, shows ["b"]. *)
Theorem copy_paste_at_source_from_stale_listener :
  let p0 := Grid.mounted
              {| Grid.cells :=
                   Grid.setCell (Grid.setCell (Grid.setCell [] 1 1 "a") 1 2 "b") 2 2 "c";
                 Grid.selectedCell := Some {| Grid.ref_row := 1; Grid.ref_column := 1 |};
                 Grid.isEditing := false; Grid.selection := None;
                 Grid.isSelecting := false; Grid.isDragging := false;
                 Grid.dragStart := None; Grid.editingValue := "";
                 Grid.clipboard := [] |} in
  let shown (cell : Grid.Cell) := (Grid.row cell, Grid.column cell, Grid.value cell) in
  let delete := Grid.Dom (Grid.KeyDown {| Grid.key := "Delete"; Grid.shiftKey := false;
                                          Grid.ctrlKey := false; Grid.metaKey := false |}) in
  let p1 := Grid.step p0 (Notions.chord "c") in
  let p2 := foldl Grid.step p1 (Notions.drag 1 2 2 2) in
  let p3 := Grid.step p2 (Notions.chord "c") in
  let p4 := Grid.step p3 (Notions.chord "v") in
  let q1 := foldl Grid.step p0 (Notions.drag 1 2 2 2 ++ [delete]) in
  let q2 := Grid.step q1 (Notions.chord "c") in
  let q3 := foldl Grid.step q2 (Notions.click 1 2) in
  let q4 := Grid.step q3 (Notions.chord "v") in
  (Grid.selection (Grid.view p3) = Some (Notions.box 1 2 2 2) /\
   Grid.selectedCell (Grid.view p3)
     = Some {| Grid.ref_row := 1; Grid.ref_column := 2 |} /\
   map shown (Grid.clipboard (Grid.view p3)) = [(1, 2, Some "b"); (2, 2, Some "c")] /\
   map shown (Grid.clipboard (Grid.keydown p3)) = [(1, 1, Some "a")] /\
   Grid.mutations (Grid.handleKeyDown (Grid.keydown p3) (Notions.chord_key "v"))
     = [(1, 2, "a")] /\
   Grid.getCellValue (Grid.cells (Grid.view p3)) 1 2 = "b" /\
   Grid.getCellValue (Grid.cells (Grid.view p4)) 1 2 = "a") /\
  (Grid.getCellValue (Grid.cells (Grid.view q1)) 1 2 = "" /\
   Grid.getCellValue (Grid.cells (Grid.keydown q1)) 1 2 = "b" /\
   map shown (Grid.clipboard (Grid.view q2)) = [(1, 2, Some "b"); (2, 2, Some "c")] /\
   Grid.selectedCell (Grid.view q3)
     = Some {| Grid.ref_row := 1; Grid.ref_column := 2 |} /\
   Grid.mutations (Grid.handleKeyDown (Grid.keydown q3) (Notions.chord_key "v"))
     = [(1, 2, "b"); (2, 2, "c")] /\
   Grid.getCellValue (Grid.cells (Grid.view q3)) 1 2 = "" /\
   Grid.getCellValue (Grid.cells (Grid.view q4)) 1 2 = "b").
Proof. vm_compute. repeat split. Qed.

(** ** Inbound events of the collaboration channel *)

Module ChannelFacts.
Import Collab.

Lemma handleCellUpdate_own me st data :
  cu_userId data = id me -> handleCellUpdate me st data = (st, []).
Proof. intros Heq. unfold handleCellUpdate. by rewrite Heq, Z.eqb_refl. Qed.

Lemma handleCellUpdate_remote me st data :
  cu_userId data <> id me -> handleCellUpdate me st data = (st, [OnCellUpdate data]).
Proof.
  intros Hne. unfold handleCellUpdate.
  by destruct (Z.eqb_spec (cu_userId data) (id me)).
Qed.

Lemma handleCursorMove_own me st data :
  cm_userId data = id me -> handleCursorMove me st data = (st, []).
Proof. intros Heq. unfold handleCursorMove. by rewrite Heq, Z.eqb_refl. Qed.

Lemma handleCursorMove_unknown me st data :
  collaborators st !! cm_userId data = None ->
  handleCursorMove me st data = (st, []).
Proof.
  intros Hnone. unfold handleCursorMove. rewrite Hnone.
  by destruct (cm_userId data =? id me).
Qed.

Lemma handleCursorMove_known me st data old :
  cm_userId data <> id me ->
  collaborators st !! cm_userId data = Some old ->
  handleCursorMove me st data
  = (with_collaborators st
       (<[cm_userId data := Vocabulary.moved old data]> (collaborators st)), []).
Proof.
  intros Hne Hold. unfold handleCursorMove. rewrite Hold.
  by destruct (Z.eqb_spec (cm_userId data) (id me)).
Qed.

(** A cursor move never adds or removes a Presence entry. *)
Lemma handleCursorMove_dom me st data :
  dom (collaborators (handleCursorMove me st data).1) = dom (collaborators st).
Proof.
  unfold handleCursorMove. destruct (cm_userId data =? id me); [done|].
  destruct (collaborators st !! cm_userId data) as [old|] eqn:Hold; [|done].
  simpl. apply dom_insert_lookup_L. by eexists.
Qed.

End ChannelFacts.

(** C1: a cell-update event that carries the local user's id is discarded:
    the handler calls nothing and changes nothing, so the grid of the
    client stays as it was.  In particular, after a local edit, the copy of
    its own broadcast that a relay echoes back leaves the grid equal to the
    grid after the single local write. *)
Theorem own_cell_update_is_discarded
    (me : Collab.User) (cl : Session.Client) (data : Collab.CellUpdate) :
  Collab.cu_userId data = Collab.id me ->
  Collab.handleCellUpdate me (Session.channel cl) data = (Session.channel cl, []) /\
  Session.deliver me cl (Collab.CellUpdated data) = cl /\
  (forall spreadsheetId sheetId r c v now,
     let edited := Session.localEdit me spreadsheetId sheetId cl r c v now in
     Session.deliver me edited.1 (Collab.CellUpdated (Collab.relayed edited.2))
       = edited.1 /\
     Session.grid
       (Session.deliver me edited.1 (Collab.CellUpdated (Collab.relayed edited.2)))
       = Grid.setCell (Session.grid cl) r c v).
Proof.
  intros Hown.
  assert (forall cl' d, Collab.cu_userId d = Collab.id me ->
            Session.deliver me cl' (Collab.CellUpdated d) = cl') as Hdeliver.
  { intros [g ch] d Hd. unfold Session.deliver. simpl.
    by rewrite (ChannelFacts.handleCellUpdate_own me ch d Hd). }
  split; [by apply ChannelFacts.handleCellUpdate_own|].
  split; [by apply Hdeliver|].
  intros spreadsheetId sheetId r c v now edited. subst edited. simpl.
  rewrite Hdeliver by reflexivity. by split.
Qed.

Lemma own_cell_update_is_discarded_witness :
  let me := {| Collab.id := 7; Collab.username := "ann";
               Collab.email := "ann@example.org"; Collab.avatar := None |} in
  let cl := {| Session.grid := Grid.setCell [] 1 1 "x";
               Session.channel := {| Collab.collaborators := ∅;
                                     Collab.isConnected := true;
                                     Collab.connectionStatus := Collab.connected |} |} in
  let data := Vocabulary.update_from 7 1 1 1 "y" 100 in
  Session.deliver me cl (Collab.CellUpdated data) = cl.
Proof.
  intros me cl data.
  refine (proj1 (proj2 (own_cell_update_is_discarded me cl data _))).
  reflexivity.
Defined.

(** C2: two cell-update events of a remote peer for the same cell are both
    applied, in the order of delivery, and their timestamps are not
    compared: whatever the timestamps (100 and then 50, say), the cell ends
    with the value of the event delivered second. *)
Theorem delivery_order_wins
    (me : Collab.User) (cl : Session.Client)
    (peer sheet r c : Z) (v1 v2 : string) (t1 t2 : Z) :
  peer <> Collab.id me ->
  Grid.in_bounds r c ->
  let first := Vocabulary.update_from peer sheet r c v1 t1 in
  let second := Vocabulary.update_from peer sheet r c v2 t2 in
  let cl' := Session.deliver_all me cl
               [Collab.CellUpdated first; Collab.CellUpdated second] in
  (Collab.handleCellUpdate me (Session.channel cl) first).2
    = [Collab.OnCellUpdate first] /\
  (Collab.handleCellUpdate me (Session.channel cl) second).2
    = [Collab.OnCellUpdate second] /\
  Session.grid cl'
    = Grid.setCell (Grid.setCell (Session.grid cl) r c v1) r c v2 /\
  Grid.getCellValue (Session.grid cl') r c = v2.
Proof.
  intros Hpeer Hb first second cl'.
  assert (Session.grid cl'
          = Grid.setCell (Grid.setCell (Session.grid cl) r c v1) r c v2) as Hgrid.
  { subst cl'. unfold Session.deliver_all, Session.deliver. simpl.
    rewrite !ChannelFacts.handleCellUpdate_remote by exact Hpeer. reflexivity. }
  rewrite !ChannelFacts.handleCellUpdate_remote by exact Hpeer.
  repeat split; [exact Hgrid|].
  rewrite Hgrid. by apply StoreFacts.getCellValue_setCell_eq.
Qed.

Lemma delivery_order_wins_witness :
  let me := {| Collab.id := 7; Collab.username := "ann";
               Collab.email := "ann@example.org"; Collab.avatar := None |} in
  let cl := {| Session.grid := [];
               Session.channel := {| Collab.collaborators := ∅;
                                     Collab.isConnected := true;
                                     Collab.connectionStatus := Collab.connected |} |} in
  Grid.getCellValue
    (Session.grid
       (Session.deliver_all me cl
          [Collab.CellUpdated (Vocabulary.update_from 8 1 4 2 "late" 100);
           Collab.CellUpdated (Vocabulary.update_from 8 1 4 2 "early" 50)]))
    4 2 = "early".
Proof.
  intros me cl.
  refine (proj2 (proj2 (proj2
            (delivery_order_wins me cl 8 1 4 2 "late" "early" 100 50 _ _)))).
  - discriminate.
  - unfold Grid.in_bounds, Grid.ROWS, Grid.COLS; lia.
Defined.

(** C3, as stated, fails: the handlers do not look at the bounds.  A
    cursor-move to row 5000, column 99 from a collaborator who is present
    moves that collaborator's Presence entry there, and a cell-update for
    the same coordinates from another user is handed to [onCellUpdate]. *)
Lemma out_of_bounds_event_counterexample :
  let me := {| Collab.id := 7; Collab.username := "ann";
               Collab.email := "ann@example.org"; Collab.avatar := None |} in
  let peer := {| Collab.id := 8; Collab.username := "bob";
                 Collab.email := "bob@example.org"; Collab.avatar := None |} in
  let st := (Collab.handleCollaboratorJoin
               {| Collab.collaborators := ∅; Collab.isConnected := true;
                  Collab.connectionStatus := Collab.connected |} peer).1 in
  let data := {| Collab.cm_userId := 8; Collab.cm_row := 5000;
                 Collab.cm_column := 99; Collab.cm_isEditing := false |} in
  let upd := Vocabulary.update_from 8 1 5000 99 "x" 0 in
  ~ Grid.in_bounds 5000 99 /\
  Collab.row <$> Collab.collaborators st !! 8 = Some 1 /\
  Collab.row <$> Collab.collaborators (Collab.handleCursorMove me st data).1 !! 8
    = Some 5000 /\
  Collab.column <$> Collab.collaborators (Collab.handleCursorMove me st data).1 !! 8
    = Some 99 /\
  (Collab.handleCursorMove me st data).1 <> st /\
  (Collab.handleCellUpdate me st upd).2 = [Collab.OnCellUpdate upd].
Proof.
  intros me peer st data upd.
  split; [unfold Grid.in_bounds, Grid.ROWS, Grid.COLS; lia|].
  split; [by vm_compute|]. split; [by vm_compute|]. split; [by vm_compute|].
  split; [|by vm_compute].
  intros Heq.
  apply (f_equal (fun s => Collab.row <$> Collab.collaborators s !! 8)) in Heq.
  vm_compute in Heq. discriminate.
Qed.

(** C3, amended: an inbound cursor-move or cell-update is not checked
    against the bounds of the grid.  A cursor-move from another user who
    has a Presence entry stores the row, the column and the editing flag it
    carries in that entry, whatever they are, and a cell-update from another
    user is handed to [onCellUpdate] as it came.  A cursor-move is ignored
    when it comes from the local user or from a user without a Presence
    entry, and a cell-update when it comes from the local user. *)
Theorem inbound_events_not_bounds_checked (me : Collab.User) (st : Collab.State) :
  (forall data old,
     Collab.cm_userId data <> Collab.id me ->
     Collab.collaborators st !! Collab.cm_userId data = Some old ->
     Collab.collaborators (Collab.handleCursorMove me st data).1
       !! Collab.cm_userId data = Some (Vocabulary.moved old data)) /\
  (forall data,
     Collab.cu_userId data <> Collab.id me ->
     Collab.handleCellUpdate me st data = (st, [Collab.OnCellUpdate data])) /\
  (forall data,
     Collab.cm_userId data = Collab.id me
     \/ Collab.collaborators st !! Collab.cm_userId data = None ->
     Collab.handleCursorMove me st data = (st, [])) /\
  (forall data,
     Collab.cu_userId data = Collab.id me ->
     Collab.handleCellUpdate me st data = (st, [])).
Proof.
  repeat split.
  - intros data old Hne Hold.
    rewrite (ChannelFacts.handleCursorMove_known me st data old Hne Hold).
    simpl. apply lookup_insert_eq.
  - intros data. apply ChannelFacts.handleCellUpdate_remote.
  - intros data [Hown|Hunknown].
    + by apply ChannelFacts.handleCursorMove_own.
    + by apply ChannelFacts.handleCursorMove_unknown.
  - intros data. apply ChannelFacts.handleCellUpdate_own.
Qed.

Lemma inbound_events_not_bounds_checked_witness :
  let me := {| Collab.id := 7; Collab.username := "ann";
               Collab.email := "ann@example.org"; Collab.avatar := None |} in
  let st := {| Collab.collaborators := ∅; Collab.isConnected := true;
               Collab.connectionStatus := Collab.connected |} in
  let upd := Vocabulary.update_from 8 1 5000 99 "x" 0 in
  Collab.handleCellUpdate me st upd = (st, [Collab.OnCellUpdate upd]).
Proof.
  intros me st upd.
  refine (proj1 (proj2 (inbound_events_not_bounds_checked me st)) upd _).
  discriminate.
Defined.

(** C10: a cursor-move from another user who has no Presence entry leaves
    the Presence map as it is.  No cursor-move changes the set of users
    present; among the inbound events only a collaborator-join makes an
    absent user present, and the entry it writes is at row 1, column 1, not
    editing. *)
Theorem cursor_move_creates_no_entry
    (me : Collab.User) (st : Collab.State) (data : Collab.CursorMove) :
  Collab.cm_userId data <> Collab.id me ->
  Collab.collaborators st !! Collab.cm_userId data = None ->
  Collab.handleCursorMove me st data = (st, []) /\
  (forall d,
     dom (Collab.collaborators (Collab.handleCursorMove me st d).1)
     = dom (Collab.collaborators st)) /\
  (forall u,
     Collab.collaborators (Collab.handleCollaboratorJoin st u).1 !! Collab.id u
     = Some {| Collab.userId := Collab.id u; Collab.user := u;
               Collab.row := 1; Collab.column := 1; Collab.isEditing := false;
               Collab.color := Collab.getUserColor (Collab.id u) |}) /\
  (forall m uid,
     Collab.collaborators st !! uid = None ->
     is_Some (Collab.collaborators (Collab.receive me st m).1 !! uid) ->
     exists u, m = Collab.CollaboratorJoin u /\ Collab.id u = uid).
Proof.
  intros _ Hnone.
  split; [by apply ChannelFacts.handleCursorMove_unknown|].
  split; [apply ChannelFacts.handleCursorMove_dom|].
  split; [intros u; simpl; apply lookup_insert_eq|].
  intros m uid Habsent Hpresent.
  destruct m as [u|left|d|d|status]; simpl in Hpresent.
  - destruct (decide (Collab.id u = uid)) as [Heq|Hne]; [by exists u|].
    rewrite lookup_insert_ne, Habsent in Hpresent by done.
    by destruct Hpresent.
  - destruct (decide (left = uid)) as [->|Hne].
    + rewrite lookup_delete_eq in Hpresent. by destruct Hpresent.
    + rewrite lookup_delete_ne, Habsent in Hpresent by done. by destruct Hpresent.
  - apply elem_of_dom in Hpresent.
    rewrite ChannelFacts.handleCursorMove_dom in Hpresent.
    apply elem_of_dom in Hpresent. rewrite Habsent in Hpresent.
    by destruct Hpresent.
  - unfold Collab.handleCellUpdate in Hpresent.
    destruct (Collab.cu_userId d =? Collab.id me); simpl in Hpresent;
      rewrite Habsent in Hpresent; by destruct Hpresent.
  - rewrite Habsent in Hpresent. by destruct Hpresent.
Qed.

Lemma cursor_move_creates_no_entry_witness :
  let me := {| Collab.id := 7; Collab.username := "ann";
               Collab.email := "ann@example.org"; Collab.avatar := None |} in
  let st := {| Collab.collaborators := ∅; Collab.isConnected := true;
               Collab.connectionStatus := Collab.connected |} in
  let data := {| Collab.cm_userId := 8; Collab.cm_row := 3;
                 Collab.cm_column := 4; Collab.cm_isEditing := true |} in
  Collab.handleCursorMove me st data = (st, []).
Proof.
  intros me st data.
  refine (proj1 (cursor_move_creates_no_entry me st data _ _)).
  - discriminate.
  - reflexivity.
Defined.

Example join_then_move :
  let me := {| Collab.id := 7; Collab.username := "ann";
               Collab.email := "ann@example.org"; Collab.avatar := None |} in
  let peer := {| Collab.id := 12; Collab.username := "bob";
                 Collab.email := "bob@example.org"; Collab.avatar := None |} in
  let st0 := {| Collab.collaborators := ∅; Collab.isConnected := true;
                Collab.connectionStatus := Collab.connected |} in
  let move := Collab.CursorMoved
                {| Collab.cm_userId := 12; Collab.cm_row := 3;
                   Collab.cm_column := 4; Collab.cm_isEditing := true |} in
  let st1 := (Collab.receive me st0 (Collab.CollaboratorJoin peer)).1 in
  Collab.collaborators (Collab.receive me st0 move).1 !! 12 = None /\
  Collab.collaborators (Collab.receive me st1 move).1 !! 12
  = Some {| Collab.userId := 12; Collab.user := peer;
            Collab.row := 3; Collab.column := 4; Collab.isEditing := true;
            Collab.color := Some "#45B7D1" |}.
Proof. vm_compute. split; reflexivity. Qed.

(** * Further properties *)

(** ** Column names *)

Module ColumnFacts.
Import Sheet Notions.

Lemma fromCharCode_ascii n :
  0 <= n < 128 -> Text.fromCharCode n = String (ascii_of_N (Z.to_N n)) "".
Proof.
  intros Hn. unfold Text.fromCharCode.
  rewrite Z.mod_small by lia.
  destruct (Z.ltb_spec n 128); [done | lia].
Qed.

Lemma letterToColumn_from_cons acc ch s :
  letterToColumn_from acc (String ch s)
  = letterToColumn_from (acc * 26 + (Z.of_N (N_of_ascii ch) - 64)) s.
Proof. reflexivity. Qed.

Lemma letterToColumn_from_shift s : forall acc,
  letterToColumn_from acc s
  = acc * 26 ^ Z.of_nat (String.length s) + letterToColumn_from 0 s.
Proof.
  induction s as [|ch s IH]; intros acc.
  - unfold letterToColumn_from. simpl. lia.
  - rewrite !letterToColumn_from_cons, IH, (IH (0 * 26 + _)).
    change (String.length (String ch s)) with (S (String.length s)).
    rewrite Nat2Z.inj_succ, Z.pow_succ_r by lia.
    generalize (26 ^ Z.of_nat (String.length s)) (Z.of_N (N_of_ascii ch))
               (letterToColumn_from 0 s).
    intros k code rest. ring.
Qed.

(** One round of the loop. *)
Lemma columnToLetter_loop_step fuel col result :
  0 < col ->
  columnToLetter_loop (S fuel) col result
  = columnToLetter_loop fuel ((col - 1) / 26)
      (String (ascii_of_N (Z.to_N (65 + (col - 1) mod 26))) result).
Proof.
  intros Hcol. simpl.
  destruct (Z.gtb_spec col 0); [|lia].
  rewrite Z.rem_mod_nonneg by lia.
  rewrite fromCharCode_ascii by (pose proof (Z.mod_pos_bound (col - 1) 26); lia).
  reflexivity.
Qed.

Lemma columnToLetter_loop_done fuel col result :
  col <= 0 -> columnToLetter_loop fuel col result = result.
Proof.
  intros Hcol. destruct fuel; [done|]. simpl.
  by destruct (Z.gtb_spec col 0); [lia|].
Qed.

(** Reading back what the loop has written. *)
Lemma letterToColumn_loop fuel : forall col result,
  0 <= col -> (Z.to_nat col <= fuel)%nat ->
  letterToColumn (columnToLetter_loop fuel col result)
  = col * 26 ^ Z.of_nat (String.length result) + letterToColumn result.
Proof.
  unfold letterToColumn.
  induction fuel as [|fuel IH]; intros col result Hcol Hfuel.
  - assert (col = 0) as -> by lia. simpl. lia.
  - destruct (decide (col = 0)) as [->|Hpos].
    + rewrite columnToLetter_loop_done by lia. lia.
    + rewrite columnToLetter_loop_step by lia.
      pose proof (Z.mod_pos_bound (col - 1) 26 ltac:(lia)) as Hr.
      pose proof (Z.div_mod (col - 1) 26 ltac:(lia)) as Hdiv.
      assert (0 <= (col - 1) / 26 < col) as Hq.
      { split; [apply Z.div_pos; lia|].
        apply Z.div_lt_upper_bound; lia. }
      rewrite IH by lia.
      rewrite (letterToColumn_from_cons 0).
      rewrite (letterToColumn_from_shift result (0 * 26 + _)).
      change (String.length (String ?a result)) with (S (String.length result)).
      rewrite Nat2Z.inj_succ, Z.pow_succ_r by lia.
      rewrite N_ascii_embedding by lia.
      rewrite Z2N.id by lia.
      replace col with (26 * ((col - 1) / 26) + (col - 1) mod 26 + 1) at 3 by lia.
      generalize (26 ^ Z.of_nat (String.length result)) ((col - 1) / 26)
                 ((col - 1) mod 26) (letterToColumn_from 0 result).
      intros k q m rest. ring.
Qed.

End ColumnFacts.

(** X1: for the columns from 1 to [Number.MAX_SAFE_INTEGER], where the
    arithmetic of the loop is exact, reading a column name back gives the
    column: [columnToLetter] is a one-to-one numbering of these columns
    (base 26 without a zero digit), so no two of them share a header. *)
Theorem columnToLetter_read_back (col col' : Z) :
  0 < col <= Js.MAX_SAFE_INTEGER ->
  Notions.letterToColumn (Sheet.columnToLetter col) = col /\
  (0 < col' <= Js.MAX_SAFE_INTEGER ->
   Sheet.columnToLetter col = Sheet.columnToLetter col' -> col = col').
Proof.
  assert (forall x, 0 < x -> Notions.letterToColumn (Sheet.columnToLetter x) = x)
    as Hback.
  { intros x Hx. unfold Sheet.columnToLetter.
    rewrite ColumnFacts.letterToColumn_loop by lia.
    unfold Notions.letterToColumn, Notions.letterToColumn_from. simpl. lia. }
  intros [Hcol _]. split; [by apply Hback|].
  intros [Hcol' _] Heq. rewrite <- (Hback col Hcol), <- (Hback col' Hcol').
  by rewrite Heq.
Qed.

Lemma columnToLetter_read_back_witness :
  Notions.letterToColumn (Sheet.columnToLetter 703) = 703.
Proof.
  refine (proj1 (columnToLetter_read_back 703 1 _)).
  unfold Js.MAX_SAFE_INTEGER. lia.
Defined.

Lemma columnToLetter_1_26 x :
  1 <= x <= 26 -> Sheet.columnToLetter x = Text.fromCharCode (64 + x).
Proof.
  intros Hx. unfold Sheet.columnToLetter.
  destruct (Z.to_nat x) as [|fuel] eqn:Hfuel; [lia|].
  rewrite ColumnFacts.columnToLetter_loop_step by lia.
  rewrite Z.div_small, Z.mod_small by lia.
  rewrite ColumnFacts.columnToLetter_loop_done by lia.
  rewrite ColumnFacts.fromCharCode_ascii by lia.
  do 3 f_equal. lia.
Qed.

(** X2: a column from 1 to 26 is named by the one letter with the code
    [64 + col]; a column that is zero or negative has the empty name. *)
Theorem columnToLetter_single_letter (col : Z) :
  (1 <= col <= 26 ->
     Sheet.columnToLetter col = Text.fromCharCode (64 + col) /\
     String.length (Sheet.columnToLetter col) = 1%nat) /\
  (col <= 0 -> Sheet.columnToLetter col = "").
Proof.
  repeat split.
  - by apply columnToLetter_1_26.
  - rewrite columnToLetter_1_26 by done.
    by rewrite ColumnFacts.fromCharCode_ascii by lia.
  - intros Hcol. unfold Sheet.columnToLetter.
    by apply ColumnFacts.columnToLetter_loop_done.
Qed.

Lemma columnToLetter_single_letter_witness :
  Sheet.columnToLetter 26 = Text.fromCharCode 90.
Proof.
  refine (proj1 (proj1 (columnToLetter_single_letter 26) _)). lia.
Defined.

(** X3: for a collaborator on one of the columns 1 to 26, the position the
    collaborators list shows names the column as the grid's header does. *)
Theorem positionLabel_matches_header (c : Collab.CollaboratorCursor) :
  1 <= Collab.column c <= 26 ->
  Cursor.positionLabel c
  = "Cell " +:+ Sheet.columnToLetter (Collab.column c) +:+ pretty (Collab.row c).
Proof.
  intros Hcol. unfold Cursor.positionLabel. by rewrite columnToLetter_1_26.
Qed.

Lemma positionLabel_matches_header_witness :
  Cursor.positionLabel
    {| Collab.userId := 1;
       Collab.user := {| Collab.id := 1; Collab.username := "bob";
                         Collab.email := ""; Collab.avatar := None |};
       Collab.row := 12; Collab.column := 3; Collab.isEditing := false;
       Collab.color := None |}
  = "Cell " +:+ Sheet.columnToLetter 3 +:+ pretty 12.
Proof.
  apply (positionLabel_matches_header
           {| Collab.userId := 1;
              Collab.user := {| Collab.id := 1; Collab.username := "bob";
                                Collab.email := ""; Collab.avatar := None |};
              Collab.row := 12; Collab.column := 3; Collab.isEditing := false;
              Collab.color := None |}).
  simpl. lia.
Defined.

(** Past column 26 the two namings part: the grid's header for column 27
    is [AA], the collaborators list shows the character after [Z]. *)
Example column_27_names :
  Sheet.columnToLetter 27 = "AA" /\ Text.fromCharCode (64 + 27) = "[".
Proof. vm_compute. split; reflexivity. Qed.

(** ** The active cell and the selection stay in the grid *)

Module GridInvariant.
Import Grid Notions.

Lemma plain_tame e : plain e -> tame e.
Proof. by destruct e. Qed.

Lemma Forall_plain_tame es : Forall plain es -> Forall tame es.
Proof. intros H. eapply Forall_impl; [exact H|]. apply plain_tame. Qed.

Lemma plain_startEditing st : Forall plain (startEditing st).
Proof. unfold startEditing. destruct (selectedCell st); repeat constructor. Qed.

Lemma plain_finishEditing st : Forall plain (finishEditing st).
Proof. unfold finishEditing. destruct (selectedCell st); repeat constructor. Qed.

Lemma plain_clearSelection st : Forall plain (clearSelection st).
Proof.
  unfold clearSelection. destruct (selection st) as [sel|].
  - apply Forall_flat_map, Forall_forall. intros r _.
    apply Forall_map, Forall_forall. by intros c _.
  - destruct (selectedCell st); repeat constructor.
Qed.

Lemma plain_copySelection st : Forall plain (copySelection st).
Proof.
  unfold copySelection. destruct (selection st), (selectedCell st);
    repeat constructor.
Qed.

Lemma plain_pasteSelection st : Forall plain (pasteSelection st).
Proof.
  unfold pasteSelection. destruct (selectedCell st) as [sc|]; [|constructor].
  destruct (clipboard st) as [|first rest] eqn:Hclip; [constructor|].
  apply Forall_app. split; [|repeat constructor].
  apply Forall_flat_map, Forall_forall. intros cell _.
  unfold pasteCell, when. destruct (_ && _); repeat constructor.
Qed.

Lemma plain_cutSelection st : Forall plain (cutSelection st).
Proof.
  apply Forall_app. split; [apply plain_copySelection | apply plain_clearSelection].
Qed.

Lemma in_bounds_all : range_in_grid {| startRow := 1; startCol := 1;
                                       endRow := ROWS; endCol := COLS |}.
Proof. unfold range_in_grid, normalized, in_bounds, ROWS, COLS. simpl. lia. Qed.

Lemma range_min_max r1 c1 r2 c2 :
  in_bounds r1 c1 -> in_bounds r2 c2 ->
  range_in_grid {| startRow := Z.min r1 r2; startCol := Z.min c1 c2;
                   endRow := Z.max r1 r2; endCol := Z.max c1 c2 |}.
Proof. unfold range_in_grid, normalized, in_bounds. simpl. lia. Qed.

(** A step of the arrow keys, Tab or Enter from a cell of the grid. *)
Lemma tame_move (b : bool) r' c' :
  (b = true -> in_bounds r' c') -> Forall tame (when b [OnCellSelect r' c']).
Proof.
  intros Hb. destruct b; [|constructor].
  constructor; [by apply Hb | constructor].
Qed.

Lemma tame_navigationKey st e r c :
  in_bounds r c -> Forall tame (navigationKey st e r c).
Proof.
  intros Hb. unfold navigationKey. apply Forall_app. split.
  - repeat case_match; try constructor; try exact I;
      try (apply Forall_plain_tame;
           first [apply plain_startEditing | apply plain_clearSelection]);
      try (apply tame_move;
           rewrite ?Z.gtb_ltb, ?Z.ltb_lt; unfold in_bounds in *; lia);
      repeat constructor.
  - repeat case_match; try constructor; try exact I;
      try (apply Forall_plain_tame;
           first [apply plain_copySelection | apply plain_pasteSelection
                 | apply plain_cutSelection]);
      repeat constructor; apply in_bounds_all.
Qed.

Lemma tame_editingKey st e r c :
  in_bounds r c -> Forall tame (editingKey st e r c).
Proof.
  intros Hb. unfold editingKey, cancelEditing.
  repeat case_match; try constructor; try exact I;
    try (apply Forall_app; split;
         [apply Forall_plain_tame, plain_finishEditing|]);
    try (apply tame_move;
         rewrite ?Z.gtb_ltb, ?Z.ltb_lt; unfold in_bounds in *; lia);
    repeat constructor.
Qed.

Lemma tame_handleKeyDown st e : active_in_bounds st -> Forall tame (handleKeyDown st e).
Proof.
  intros Hactive. unfold handleKeyDown.
  destruct (selectedCell st) as [sc|] eqn:Hsc; [|constructor].
  specialize (Hactive sc Hsc).
  destruct (negb (isEditing st));
    [by apply tame_navigationKey | by apply tame_editingKey].
Qed.

(** What a handler asks for is tame, when its render is a good one and the
    pointer is on a cell of the grid. *)
Lemma tame_handle st ev :
  active_in_bounds st -> drag_in_bounds st -> pointer_in_bounds (Dom ev) ->
  Forall tame (handle st ev).
Proof.
  intros Hactive Hdrag Hptr.
  destruct ev as [e|r c shift|r c| | |r c|v]; simpl in *.
  - by apply tame_handleKeyDown.
  - unfold handleMouseDown. apply Forall_app. split.
    + destruct (isEditing st); [|constructor].
      apply Forall_plain_tame, plain_finishEditing.
    + constructor; [exact Hptr|].
      destruct shift; [destruct (selectedCell st) as [sc|] eqn:Hsc|];
        first
          [ constructor;
            [apply range_min_max; [by apply Hactive | exact Hptr] | constructor]
          | constructor; [exact I|]; constructor; [exact I|];
            constructor; [exact Hptr | constructor] ].
  - unfold handleMouseEnter.
    destruct (isSelecting st); [|constructor].
    destruct (dragStart st) as [[dr dc]|] eqn:Hd; [|constructor].
    constructor; [|constructor].
    apply range_min_max; [exact (Hdrag (dr, dc) Hd) | exact Hptr].
  - repeat constructor.
  - repeat constructor.
  - constructor; [exact Hptr|]. constructor; [|constructor].
    apply plain_startEditing.
  - repeat constructor.
Qed.

(** Tame requests keep a good page good; the listener is looked at
    separately. *)
Lemma apply_ok p e :
  active_in_bounds (view p) -> selection_in_grid (view p) ->
  drag_in_bounds (view p) -> Forall (Forall plain) (timers p) -> tame e ->
  active_in_bounds (view (apply p e)) /\ selection_in_grid (view (apply p e))
  /\ drag_in_bounds (view (apply p e)) /\ Forall (Forall plain) (timers (apply p e)).
Proof.
  intros Ha Hs Hd Ht He.
  destruct e; simpl in *; (split; [|split; [|split]]); try done.
  - intros sc Hsc. simpl in Hsc. by injection Hsc as <-.
  - intros sel Hsel. simpl in Hsel. by subst s.
  - intros d' Hd'. simpl in Hd'. by subst d.
  - apply Forall_app. split; [done|]. by constructor.
Qed.

Lemma run_ok es : forall p,
  active_in_bounds (view p) -> selection_in_grid (view p) ->
  drag_in_bounds (view p) -> Forall (Forall plain) (timers p) -> Forall tame es ->
  active_in_bounds (view (run p es)) /\ selection_in_grid (view (run p es))
  /\ drag_in_bounds (view (run p es)) /\ Forall (Forall plain) (timers (run p es)).
Proof.
  induction es as [|e es IH]; intros p Ha Hs Hd Ht Hes; [done|].
  apply Forall_cons in Hes as [He Hes].
  destruct (apply_ok p e Ha Hs Hd Ht He) as (Ha' & Hs' & Hd' & Ht').
  unfold run. simpl. by apply IH.
Qed.

Lemma keydown_run p es : keydown (run p es) = keydown p.
Proof.
  revert p. induction es as [|e es IH]; intros p; [done|].
  unfold run in *. simpl. rewrite IH. by destruct e.
Qed.

Lemma rendered_ok p es :
  page_ok p -> Forall tame es -> page_ok (rendered p es).
Proof.
  intros (Ha & Hs & Hd & Hl & Ht) Hes.
  destruct (run_ok es p Ha Hs Hd Ht Hes) as (Ha' & Hs' & Hd' & Ht').
  unfold page_ok.
  split; [exact Ha'|]. split; [exact Hs'|]. split; [exact Hd'|].
  split; [|exact Ht'].
  unfold listener_current, rendered, same_deps. simpl.
  destruct (bool_decide _ && _) eqn:Hkeep; [|done].
  apply andb_true_iff in Hkeep as [Hsame _].
  apply bool_decide_eq_true in Hsame as (Hsc' & Hed' & Hsel').
  destruct Hl as (Hsc & Hed & Hsel).
  split; [congruence|]. split; congruence.
Qed.

Lemma step_ok p i : page_ok p -> pointer_in_bounds i -> page_ok (step p i).
Proof.
  intros Hp Hptr. pose proof Hp as (Ha & Hs & Hd & Hl & Ht).
  destruct i as [ev|]; simpl.
  - apply rendered_ok; [done|].
    destruct ev; simpl captured; try (by apply tame_handle).
    apply tame_handleKeyDown. destruct Hl as (Hsc & _ & _).
    intros sc Hsel. apply Ha. by rewrite <- Hsc.
  - destruct (timers p) as [|callback rest] eqn:Htimers; [done|].
    apply Forall_cons in Ht as [Hcb Hrest].
    apply rendered_ok; [|by apply Forall_plain_tame].
    unfold page_ok. simpl. tauto.
Qed.

End GridInvariant.

(** X4: along any sequence of inputs whose pointer events are on cells of
    the grid, the active cell stays a cell of the grid, the selected range
    stays a range of the grid with ordered corners, and the [keydown]
    listener knows the latest active cell, mode and selection. *)
Theorem grid_stays_in_bounds (p : Grid.Page) (inputs : list Grid.Input) :
  Notions.page_ok p ->
  Forall Notions.pointer_in_bounds inputs ->
  Notions.page_ok (foldl Grid.step p inputs) /\
  Notions.active_in_bounds (Grid.view (foldl Grid.step p inputs)) /\
  Notions.selection_in_grid (Grid.view (foldl Grid.step p inputs)) /\
  Grid.listener_current (foldl Grid.step p inputs).
Proof.
  intros Hp Hin.
  assert (Notions.page_ok (foldl Grid.step p inputs)) as Hok.
  { revert p Hp. induction Hin as [|i inputs Hi _ IH]; intros p Hp; [done|].
    simpl. apply IH. by apply GridInvariant.step_ok. }
  split; [exact Hok|]. destruct Hok as (Ha & Hs & _ & Hl & _). tauto.
Qed.

Lemma grid_stays_in_bounds_witness :
  let key k shift := Grid.Dom (Grid.KeyDown {| Grid.key := k; Grid.shiftKey := shift;
                                     Grid.ctrlKey := false; Grid.metaKey := false |}) in
  let p := Grid.mounted
             {| Grid.cells := [];
                Grid.selectedCell := None;
                Grid.isEditing := false; Grid.selection := None;
                Grid.isSelecting := false; Grid.isDragging := false;
                Grid.dragStart := None; Grid.editingValue := "";
                Grid.clipboard := [] |} in
  let inputs := [Grid.Dom (Grid.MouseDown 1000 26 false); Grid.Dom (Grid.MouseEnter 998 1);
                 Grid.Dom Grid.MouseUp; key "ArrowDown" false; key "Tab" false;
                 Grid.Dom (Grid.DoubleClick 1 1); Grid.Timer; key "Enter" true] in
  Notions.active_in_bounds (Grid.view (foldl Grid.step p inputs)).
Proof.
  intros key p inputs.
  refine (proj1 (proj2 (grid_stays_in_bounds p inputs _ _))).
  - unfold Notions.page_ok, Notions.active_in_bounds, Notions.selection_in_grid,
      Notions.drag_in_bounds, Grid.listener_current, Grid.same_deps.
    simpl. repeat split; try discriminate. constructor.
  - unfold inputs, key, Notions.pointer_in_bounds, Grid.in_bounds, Grid.ROWS, Grid.COLS.
    repeat constructor; lia.
Defined.

(** ** Blocks of cells: clear, cut, copy and paste *)

Module BlockFacts.
Import Grid Notions.

Lemma write_all_cons cells m ms :
  write_all cells (m :: ms) = write_all (setCell cells m.1.1 m.1.2 m.2) ms.
Proof. reflexivity. Qed.

Lemma write_all_app cells ms ms' :
  write_all cells (ms ++ ms') = write_all (write_all cells ms) ms'.
Proof. unfold write_all. apply foldl_app. Qed.

(** A cell no write names keeps its value. *)
Lemma write_all_other ms : forall cells r c,
  ~ In (r, c) (map fst ms) ->
  getCellValue (write_all cells ms) r c = getCellValue cells r c.
Proof.
  induction ms as [|[[r0 c0] v] ms IH]; intros cells r c Hnot; [done|].
  rewrite write_all_cons. simpl in *. rewrite IH by tauto.
  apply StoreFacts.getCellValue_setCell_ne. intros [= -> ->]. tauto.
Qed.

(** When the value of every write is a function of the cell it names, a
    cell of the grid that some write names ends with that value. *)
Lemma write_all_written (g : Z -> Z -> string) ms :
  Forall (fun m => m.2 = g m.1.1 m.1.2) ms ->
  forall cells r c,
    In (r, c) (map fst ms) -> in_bounds r c ->
    getCellValue (write_all cells ms) r c = g r c.
Proof.
  induction 1 as [|[[r0 c0] v] ms Hv _ IH]; intros cells r c Hin Hb; [done|].
  rewrite write_all_cons. simpl in *.
  destruct (decide ((r, c) ∈ map fst ms)) as [Hlater|Hnot].
  - apply IH; [|done]. by apply list_elem_of_In.
  - rewrite list_elem_of_In in Hnot.
    destruct Hin as [[= <- <-]|Hin]; [|done].
    rewrite write_all_other by done. rewrite Hv.
    by apply StoreFacts.getCellValue_setCell_eq.
Qed.

(** The same for the stored cell. *)
Lemma write_all_other_cell ms : forall cells r c,
  ~ In (r, c) (map fst ms) ->
  getCell (write_all cells ms) r c = getCell cells r c.
Proof.
  induction ms as [|[[r0 c0] v] ms IH]; intros cells r c Hnot; [done|].
  rewrite write_all_cons. simpl in *. rewrite IH by tauto.
  apply StoreFacts.getCell_writeCell_ne. intros [= -> ->]. tauto.
Qed.

(** A cell of the grid named by writes of the empty string ends stored
    with the empty string and the data type [number]. *)
Lemma write_all_cleared ms :
  Forall (fun m => m.2 = "") ms ->
  forall cells r c,
    In (r, c) (map fst ms) -> in_bounds r c ->
    getCell (write_all cells ms) r c ≫= value = Some ""
    /\ getCell (write_all cells ms) r c ≫= dataType = Some "number".
Proof.
  induction 1 as [|[[r0 c0] v] ms Hv _ IH]; intros cells r c Hin Hb; [done|].
  rewrite write_all_cons. simpl in *.
  destruct (decide ((r, c) ∈ map fst ms)) as [Hlater|Hnot].
  - apply IH; [|done]. by apply list_elem_of_In.
  - rewrite list_elem_of_In in Hnot.
    destruct Hin as [[= <- <-]|Hin]; [|done].
    rewrite write_all_other_cell by done. rewrite Hv. unfold setCell.
    destruct (StoreFacts.getCell_writeCell_eq cells r0 c0 (mutationBody "") Hb)
      as (cell & -> & _ & _ & Hval & Htype & _).
    simpl. by rewrite Hval, Htype.
Qed.

Lemma with_cells_same st : with_cells st (cells st) = st.
Proof. by destruct st. Qed.

(** Requests that only write leave everything but the cells alone. *)
Lemma run_writes_only es : forall p,
  Forall writes_only es ->
  run p es = {| view := with_cells (view p) (write_all (cells (view p)) (mutations es));
                keydown := keydown p; timers := timers p |}.
Proof.
  induction es as [|e es IH]; intros p Hes.
  - simpl. rewrite with_cells_same. by destruct p.
  - apply Forall_cons in Hes as [He Hes]. unfold run in *. simpl foldl.
    rewrite IH by done. destruct e; try done.
Qed.

Lemma writes_only_clearSelection st : Forall writes_only (clearSelection st).
Proof.
  unfold clearSelection. destruct (selection st) as [sel|].
  - apply Forall_flat_map, Forall_forall. intros r _.
    apply Forall_map, Forall_forall. by intros c _.
  - destruct (selectedCell st); repeat constructor.
Qed.

Lemma writes_only_pasteSelection st : Forall writes_only (pasteSelection st).
Proof.
  unfold pasteSelection. destruct (selectedCell st) as [sc|]; [|constructor].
  destruct (clipboard st) as [|first rest] eqn:Hclip; [constructor|].
  apply Forall_app. split; [|repeat constructor].
  apply Forall_flat_map, Forall_forall. intros cell _.
  unfold pasteCell, when. destruct (_ && _); repeat constructor.
Qed.

(** The handlers of the clipboard read the cells, the active cell, the
    selection and the clipboard, and nothing else. *)
Lemma copiedCells_ext st st' :
  cells st = cells st' -> selectedCell st = selectedCell st' ->
  selection st = selection st' -> copiedCells st = copiedCells st'.
Proof. intros Hc Hs Hsel. unfold copiedCells, copiedCell. by rewrite Hc, Hs, Hsel. Qed.

Lemma copySelection_ext st st' :
  cells st = cells st' -> selectedCell st = selectedCell st' ->
  selection st = selection st' -> copySelection st = copySelection st'.
Proof.
  intros Hc Hs Hsel. unfold copySelection.
  by rewrite (copiedCells_ext st st' Hc Hs Hsel), Hs, Hsel.
Qed.

Lemma clearSelection_ext st st' :
  selectedCell st = selectedCell st' -> selection st = selection st' ->
  clearSelection st = clearSelection st'.
Proof. intros Hs Hsel. unfold clearSelection. by rewrite Hs, Hsel. Qed.

Lemma pasteSelection_ext st st' :
  selectedCell st = selectedCell st' -> clipboard st = clipboard st' ->
  pasteSelection st = pasteSelection st'.
Proof. intros Hs Hc. unfold pasteSelection. by rewrite Hs, Hc. Qed.

Lemma copySelection_active st sc :
  selectedCell st = Some sc ->
  copySelection st
  = [SetClipboard (copiedCells st);
     Toast "Copied" (pretty (length (copiedCells st)) +:+ " cell(s) copied")].
Proof. intros Hsc. unfold copySelection. rewrite Hsc. by destruct (selection st). Qed.

(** What Ctrl+C, Ctrl+X and Ctrl+V run. *)
Lemma handleKeyDown_chord st sc :
  selectedCell st = Some sc -> isEditing st = false ->
  handleKeyDown st (chord_key "c") = PreventDefault :: copySelection st
  /\ handleKeyDown st (chord_key "x") = PreventDefault :: cutSelection st
  /\ handleKeyDown st (chord_key "v") = PreventDefault :: pasteSelection st.
Proof.
  intros Hsc Hed. unfold handleKeyDown, navigationKey.
  rewrite Hsc, Hed. simpl. by rewrite ?app_nil_r.
Qed.

(** What Delete, Backspace and Ctrl+X write. *)
Lemma mutations_clearing_key st e sc :
  isEditing st = false -> selectedCell st = Some sc ->
  Vocabulary.clearing_key e ->
  mutations (handleKeyDown st e) = mutations (clearSelection st).
Proof.
  intros Hnav Hsc Hkey. unfold handleKeyDown, navigationKey.
  rewrite Hsc, Hnav. simpl negb. cbv iota.
  rewrite EffectFacts.mutations_app.
  assert (mutations match selection st with
                    | Some _ => clearSelection st
                    | None => [Mutate (ref_row sc) (ref_column sc) ""]
                    end = mutations (clearSelection st)) as Hclear.
  { unfold clearSelection. destruct (selection st); [done|]. by rewrite Hsc. }
  destruct Hkey as [Hk|[Hk|[Hmod Hk]]]; rewrite Hk; simpl String.eqb; cbv iota;
    simpl orb; cbv iota.
  - change (mutations (PreventDefault :: ?l)) with (mutations l).
    rewrite Hclear. destruct (ctrlKey e || metaKey e); simpl; by rewrite app_nil_r.
  - change (mutations (PreventDefault :: ?l)) with (mutations l).
    rewrite Hclear. destruct (ctrlKey e || metaKey e); simpl; by rewrite app_nil_r.
  - rewrite Hmod. simpl. unfold cutSelection.
    by rewrite EffectFacts.mutations_app, EffectFacts.mutations_copySelection.
Qed.

End BlockFacts.

Module StepFacts.
Import Grid Notions.

Lemma keydown_kept p es :
  existsb fresh_object es = false ->
  same_deps (view p) (view (run p es)) ->
  keydown (rendered p es) = keydown p.
Proof.
  intros Hfresh Hsame. unfold rendered. simpl.
  by rewrite bool_decide_eq_true_2, Hfresh by done.
Qed.

Lemma existsb_fresh_writes_only es :
  Forall writes_only es -> existsb fresh_object es = false.
Proof.
  induction 1 as [|e es He _ IH]; [done|]. simpl. rewrite IH. by destruct e.
Qed.

(** Ctrl+C from a listener that is up to date. *)
Lemma step_copy p sc :
  listener_fresh p -> selectedCell (view p) = Some sc -> isEditing (view p) = false ->
  view (step p (chord "c")) = with_clipboard (view p) (copiedCells (view p))
  /\ keydown (step p (chord "c")) = keydown p.
Proof.
  intros (Hc & Hcl & Hs & Hsel & Hed) Hsc Hnav.
  assert (handleKeyDown (keydown p) (chord_key "c")
          = [PreventDefault; SetClipboard (copiedCells (view p));
             Toast "Copied" (pretty (length (copiedCells (view p))) +:+ " cell(s) copied")])
    as Hh.
  { destruct (BlockFacts.handleKeyDown_chord (keydown p) sc) as (-> & _ & _);
      [congruence | congruence |].
    rewrite (BlockFacts.copySelection_ext (keydown p) (view p)) by done.
    by rewrite (BlockFacts.copySelection_active (view p) sc). }
  unfold chord. simpl step. rewrite Hh. split; [reflexivity|].
  apply keydown_kept; [reflexivity | by repeat split].
Qed.

(** Ctrl+X from a listener that is up to date. *)
Lemma step_cut p sc :
  listener_fresh p -> selectedCell (view p) = Some sc -> isEditing (view p) = false ->
  view (step p (chord "x"))
  = with_cells (with_clipboard (view p) (copiedCells (view p)))
      (write_all (cells (view p)) (mutations (clearSelection (view p))))
  /\ keydown (step p (chord "x")) = keydown p.
Proof.
  intros (Hc & Hcl & Hs & Hsel & Hed) Hsc Hnav.
  assert (handleKeyDown (keydown p) (chord_key "x")
          = [PreventDefault; SetClipboard (copiedCells (view p));
             Toast "Copied" (pretty (length (copiedCells (view p))) +:+ " cell(s) copied")]
            ++ clearSelection (view p)) as Hh.
  { destruct (BlockFacts.handleKeyDown_chord (keydown p) sc) as (_ & -> & _);
      [congruence | congruence |].
    unfold cutSelection.
    rewrite (BlockFacts.copySelection_ext (keydown p) (view p)) by done.
    rewrite (BlockFacts.clearSelection_ext (keydown p) (view p)) by done.
    by rewrite (BlockFacts.copySelection_active (view p) sc). }
  assert (run p ([PreventDefault; SetClipboard (copiedCells (view p));
                  Toast "Copied" (pretty (length (copiedCells (view p))) +:+ " cell(s) copied")]
                 ++ clearSelection (view p))
          = {| view := with_cells (with_clipboard (view p) (copiedCells (view p)))
                         (write_all (cells (view p)) (mutations (clearSelection (view p))));
               keydown := keydown p; timers := timers p |}) as Hrun.
  { pose proof (BlockFacts.run_writes_only (clearSelection (view p))
                  (run p [PreventDefault; SetClipboard (copiedCells (view p));
                          Toast "Copied" (pretty (length (copiedCells (view p)))
                                          +:+ " cell(s) copied")])
                  (BlockFacts.writes_only_clearSelection (view p))) as Hclear.
    unfold run in *. rewrite foldl_app, Hclear. reflexivity. }
  unfold chord. simpl step. rewrite Hh. unfold rendered. rewrite Hrun. simpl.
  split; [reflexivity|].
  rewrite bool_decide_eq_true_2 by (by repeat split).
  by rewrite (existsb_fresh_writes_only _
               (BlockFacts.writes_only_clearSelection (view p))).
Qed.

(** Ctrl+V from a listener that is up to date. *)
Lemma step_paste p sc :
  listener_fresh p -> selectedCell (view p) = Some sc -> isEditing (view p) = false ->
  cells (view (step p (chord "v")))
  = write_all (cells (view p)) (mutations (pasteSelection (view p))).
Proof.
  intros (Hc & Hcl & Hs & Hsel & Hed) Hsc Hnav.
  unfold chord. simpl step.
  destruct (BlockFacts.handleKeyDown_chord (keydown p) sc) as (_ & _ & ->);
    [congruence | congruence |].
  rewrite (BlockFacts.pasteSelection_ext (keydown p) (view p)) by done.
  change (cells (view (run p (PreventDefault :: pasteSelection (view p))))
          = write_all (cells (view p)) (mutations (pasteSelection (view p)))).
  by rewrite EffectFacts.cells_run.
Qed.

(** A pointer press on a cell and its release, while navigating. *)
Lemma step_click p r c :
  isEditing (view p) = false ->
  let p' := foldl step p (click r c) in
  cells (view p') = cells (view p)
  /\ clipboard (view p') = clipboard (view p)
  /\ selectedCell (view p') = Some {| ref_row := r; ref_column := c |}
  /\ selection (view p') = None
  /\ isEditing (view p') = false
  /\ listener_fresh p'
  /\ timers p' = timers p.
Proof.
  intros Hnav. unfold click.
  change (foldl step p [Dom (MouseDown r c false); Dom MouseUp])
    with (step (step p (Dom (MouseDown r c false))) (Dom MouseUp)).
  assert (handle (view p) (MouseDown r c false)
          = [OnCellSelect r c; SetSelection None; SetIsSelecting true;
             SetDragStart (Some (r, c))]) as Hh
    by (simpl; unfold handleMouseDown; by rewrite Hnav).
  assert (step p (Dom (MouseDown r c false))
          = rendered p [OnCellSelect r c; SetSelection None; SetIsSelecting true;
                        SetDragStart (Some (r, c))]) as ->
    by (unfold step, captured; by rewrite Hh).
  set (p1 := rendered p _).
  assert (view p1 = with_dragStart (with_isSelecting (with_selection
              (with_selectedCell (view p) (Some {| ref_row := r; ref_column := c |}))
              None) true) (Some (r, c))) as Hv1 by reflexivity.
  assert (keydown p1 = view p1) as Hk1.
  { unfold p1, rendered. simpl. by rewrite andb_false_r. }
  assert (step p1 (Dom MouseUp) = rendered p1 [SetIsSelecting false; SetDragStart None])
    as -> by reflexivity.
  assert (keydown (rendered p1 [SetIsSelecting false; SetDragStart None]) = keydown p1)
    as Hk2.
  { apply keydown_kept; [reflexivity|]. by repeat split. }
  unfold listener_fresh. rewrite Hk2, Hk1.
  change (view (rendered p1 [SetIsSelecting false; SetDragStart None]))
    with (with_dragStart (with_isSelecting (view p1) false) None).
  rewrite Hv1. simpl. by rewrite Hnav.
Qed.

(** A drag over cells, while navigating: the pressed cell is the active
    one, the range is the smallest one that holds both cells, nothing is
    written, and the listener registered when the range was set is up to
    date. *)
Lemma step_drag p r0 c0 r1 c1 :
  isEditing (view p) = false ->
  let p' := foldl step p (drag r0 c0 r1 c1) in
  cells (view p') = cells (view p)
  /\ clipboard (view p') = clipboard (view p)
  /\ selectedCell (view p') = Some {| ref_row := r0; ref_column := c0 |}
  /\ selection (view p') = Some (box r0 c0 r1 c1)
  /\ isEditing (view p') = false
  /\ listener_fresh p'.
Proof.
  intros Hnav. unfold drag.
  change (foldl step p [Dom (MouseDown r0 c0 false); Dom (MouseEnter r1 c1); Dom MouseUp])
    with (step (step (step p (Dom (MouseDown r0 c0 false))) (Dom (MouseEnter r1 c1)))
               (Dom MouseUp)).
  assert (handle (view p) (MouseDown r0 c0 false)
          = [OnCellSelect r0 c0; SetSelection None; SetIsSelecting true;
             SetDragStart (Some (r0, c0))]) as Hh
    by (simpl; unfold handleMouseDown; by rewrite Hnav).
  assert (step p (Dom (MouseDown r0 c0 false))
          = rendered p [OnCellSelect r0 c0; SetSelection None; SetIsSelecting true;
                        SetDragStart (Some (r0, c0))]) as ->
    by (unfold step, captured; by rewrite Hh).
  set (p1 := rendered p _).
  assert (view p1 = with_dragStart (with_isSelecting (with_selection
              (with_selectedCell (view p) (Some {| ref_row := r0; ref_column := c0 |}))
              None) true) (Some (r0, c0))) as Hv1 by reflexivity.
  assert (step p1 (Dom (MouseEnter r1 c1))
          = rendered p1 [SetSelection (Some (box r0 c0 r1 c1))]) as ->
    by (unfold step, captured, handle, handleMouseEnter; by rewrite Hv1).
  set (p2 := rendered p1 _).
  assert (view p2 = with_selection (view p1) (Some (box r0 c0 r1 c1))) as Hv2
    by reflexivity.
  assert (keydown p2 = view p2) as Hk2.
  { unfold p2, rendered. simpl. by rewrite andb_false_r. }
  assert (step p2 (Dom MouseUp) = rendered p2 [SetIsSelecting false; SetDragStart None])
    as -> by reflexivity.
  assert (keydown (rendered p2 [SetIsSelecting false; SetDragStart None]) = keydown p2)
    as Hk3.
  { apply keydown_kept; [reflexivity|]. by repeat split. }
  unfold listener_fresh. rewrite Hk3, Hk2.
  change (view (rendered p2 [SetIsSelecting false; SetDragStart None]))
    with (with_dragStart (with_isSelecting (view p2) false) None).
  rewrite Hv2, Hv1. simpl. by rewrite Hnav.
Qed.

End StepFacts.

Module RangeFacts.
Import Grid Notions.

Lemma in_cells_of sel r c : In (r, c) (cells_of sel) <-> in_range sel r c.
Proof.
  unfold cells_of, in_range. rewrite in_flat_map. split.
  - intros (r' & Hr & Hin). apply in_map_iff in Hin as (c' & [= -> ->] & Hc).
    apply ClipboardFacts.in_for_range in Hr, Hc. tauto.
  - intros [Hr Hc]. exists r. split; [by apply ClipboardFacts.in_for_range|].
    apply in_map_iff. exists c. split; [done|]. by apply ClipboardFacts.in_for_range.
Qed.

Lemma length_for_range lo hi : length (Js.for_range lo hi) = Z.to_nat (hi - lo + 1).
Proof. unfold Js.for_range. by rewrite length_map, length_seq. Qed.

Lemma length_cells_of sel :
  normalized sel ->
  length (cells_of sel)
  = Z.to_nat ((endRow sel - startRow sel + 1) * (endCol sel - startCol sel + 1)).
Proof.
  intros [Hr Hc]. unfold cells_of.
  rewrite Z2Nat.inj_mul by lia. rewrite <- !length_for_range.
  induction (Js.for_range (startRow sel) (endRow sel)) as [|r rs IH]; [done|].
  simpl. rewrite length_app, length_map, IH. lia.
Qed.

Lemma mutations_clearSelection_range st sel :
  selection st = Some sel ->
  mutations (clearSelection st) = map (fun rc => (rc, "")) (cells_of sel).
Proof.
  intros Hsel. unfold clearSelection, cells_of. rewrite Hsel.
  rewrite EffectFacts.mutations_flat_map.
  induction (Js.for_range (startRow sel) (endRow sel)) as [|r rs IH]; [done|].
  simpl. rewrite map_app, IH, EffectFacts.mutations_clear_row, map_map. done.
Qed.

Lemma copiedCells_range st sel :
  selection st = Some sel ->
  copiedCells st = map (fun rc => copiedCell st rc.1 rc.2) (cells_of sel).
Proof.
  intros Hsel. unfold copiedCells, cells_of. rewrite Hsel.
  induction (Js.for_range (startRow sel) (endRow sel)) as [|r rs IH]; [done|].
  simpl. by rewrite map_app, IH, map_map.
Qed.

Lemma copiedCell_in st sel r c :
  selection st = Some sel -> in_range sel r c ->
  In (copiedCell st r c) (copiedCells st).
Proof.
  intros Hsel Hin. rewrite (copiedCells_range st sel Hsel).
  apply in_map_iff. exists (r, c). split; [done|]. by apply in_cells_of.
Qed.

(** What [paste] writes when the clipboard is what [copy] took from the
    range [sel] of the render [st]. *)
Lemma mutations_paste_copied st st' sel anchor :
  selection st = Some sel ->
  selectedCell st' = Some anchor -> clipboard st' = copiedCells st ->
  in_bounds (ref_row anchor) (ref_column anchor) ->
  mutations (pasteSelection st')
  = map (fun cell => (Vocabulary.target sel anchor cell, Js.or_empty (value cell)))
        (List.filter (Vocabulary.target_in_bounds sel anchor) (copiedCells st)).
Proof.
  intros Hsel Hsc Hclip [[Har _] [Hac _]].
  unfold pasteSelection. rewrite Hsc, Hclip.
  destruct (copiedCells st) as [|first rest] eqn:Hcopied; [done|].
  destruct (ClipboardFacts.copiedCells_head st sel first rest Hsel Hcopied)
    as [Hfr Hfc].
  rewrite EffectFacts.mutations_app. simpl mutations at 2.
  rewrite app_nil_r, ClipboardFacts.mutations_pasteCells; [|done|done|].
  - unfold Vocabulary.target_in_bounds, Vocabulary.target. by rewrite Hfr, Hfc.
  - apply Forall_forall. intros cell Hin. rewrite Hfr, Hfc.
    apply list_elem_of_In in Hin. rewrite <- Hcopied in Hin.
    pose proof (ClipboardFacts.in_copiedCells st sel cell Hsel Hin). lia.
Qed.

(** The cells a paste names, and the value it gives each of them. *)
Lemma paste_copied_values st sel anchor :
  selection st = Some sel ->
  let ms := map (fun cell => (Vocabulary.target sel anchor cell,
                              Js.or_empty (value cell)))
                (List.filter (Vocabulary.target_in_bounds sel anchor)
                             (copiedCells st)) in
  Forall (fun m => m.2 = getCellValue (cells st)
                           (m.1.1 - ref_row anchor + startRow sel)
                           (m.1.2 - ref_column anchor + startCol sel)) ms
  /\ (forall r c, In (r, c) (map fst ms) <->
        pasted_over sel (ref_row anchor) (ref_column anchor) r c).
Proof.
  intros Hsel ms. split.
  - apply Forall_map, Forall_forall. intros cell Hin.
    apply list_elem_of_In, filter_In in Hin as [Hin _].
    destruct (ClipboardFacts.in_copiedCells st sel cell Hsel Hin) as (_ & _ & Hv).
    simpl. rewrite Hv. simpl. f_equal; lia.
  - intros r c. unfold ms. rewrite map_map. simpl. rewrite in_map_iff. split.
    + intros (cell & Heq & Hin). apply filter_In in Hin as [Hin Hb].
      destruct (ClipboardFacts.in_copiedCells st sel cell Hsel Hin) as (Hr & Hc & _).
      unfold Vocabulary.target_in_bounds in Hb.
      apply StoreFacts.in_boundsb_true in Hb. rewrite Heq in Hb. simpl in Hb.
      unfold Vocabulary.target in Heq. injection Heq as <- <-.
      split; [|exact Hb]. unfold in_range. lia.
    + intros [Hrange Hb].
      exists (copiedCell st (r - ref_row anchor + startRow sel)
                            (c - ref_column anchor + startCol sel)).
      split.
      * unfold Vocabulary.target. simpl. f_equal; lia.
      * apply filter_In. split; [by apply (copiedCell_in st sel)|].
        unfold Vocabulary.target_in_bounds. apply StoreFacts.in_boundsb_true.
        unfold Vocabulary.target. simpl.
        replace (ref_row anchor + (r - ref_row anchor + startRow sel - startRow sel))
          with r by lia.
        replace (ref_column anchor
                 + (c - ref_column anchor + startCol sel - startCol sel))
          with c by lia.
        exact Hb.
Qed.

End RangeFacts.

(** ** The data type of a cleared cell *)

(** C9: [setCell] with the empty string infers the data type [number],
    because [Number("")] is [0] and not [NaN].  Clearing a range sends one
    request with the empty string for each cell of the range, clearing
    without a range sends one for the active cell, cut sends what clearing
    sends, and Delete, Backspace and Ctrl+X send these requests; every
    cell of the grid they clear ends stored with the empty string and the
    data type [number]. *)
Theorem empty_string_is_number :
  Js.isNaN_Number "" = false /\
  Grid.body_dataType (Grid.mutationBody "") = "number" /\
  (forall cells r c,
     Grid.in_bounds r c ->
     Grid.getCell (Grid.setCell cells r c "") r c ≫= Grid.dataType = Some "number") /\
  (forall st sel,
     Grid.selection st = Some sel ->
     Grid.mutations (Grid.clearSelection st)
     = map (fun rc => (rc, "")) (Notions.cells_of sel)) /\
  (forall st sc,
     Grid.selection st = None -> Grid.selectedCell st = Some sc ->
     Grid.mutations (Grid.clearSelection st)
     = [(Grid.ref_row sc, Grid.ref_column sc, "")]) /\
  (forall st,
     Grid.mutations (Grid.cutSelection st) = Grid.mutations (Grid.clearSelection st)) /\
  (forall st e sc,
     Grid.isEditing st = false -> Grid.selectedCell st = Some sc ->
     Vocabulary.clearing_key e ->
     Grid.mutations (Grid.handleKeyDown st e)
     = Grid.mutations (Grid.clearSelection st)) /\
  (forall p e sc r c,
     Grid.listener_current p ->
     Grid.isEditing (Grid.view p) = false ->
     Grid.selectedCell (Grid.view p) = Some sc ->
     Vocabulary.clearing_key e ->
     Vocabulary.to_clear (Grid.view p) r c ->
     Grid.in_bounds r c ->
     let stored := Grid.getCell
                     (Grid.cells (Grid.view (Grid.step p (Grid.Dom (Grid.KeyDown e)))))
                     r c in
     stored ≫= Grid.value = Some "" /\ stored ≫= Grid.dataType = Some "number").
Proof.
  split; [reflexivity|]. split; [reflexivity|].
  split; [|split; [|split; [|split; [|split]]]].
  - intros cells r c Hb.
    destruct (StoreFacts.getCell_writeCell_eq cells r c (Grid.mutationBody "") Hb)
      as (cell & Hget & _ & _ & _ & Ht & _).
    unfold Grid.setCell. rewrite Hget. simpl. by rewrite Ht.
  - intros st sel Hsel. by apply RangeFacts.mutations_clearSelection_range.
  - intros st sc Hsel Hsc. unfold Grid.clearSelection. by rewrite Hsel, Hsc.
  - intros st. unfold Grid.cutSelection.
    by rewrite EffectFacts.mutations_app, EffectFacts.mutations_copySelection.
  - intros st e sc. apply BlockFacts.mutations_clearing_key.
  - intros p e sc r c (Hsc' & Hed' & Hsel') Hnav Hsc Hkey Hclear Hb stored.
    subst stored.
    change (Grid.view (Grid.step p (Grid.Dom (Grid.KeyDown e))))
      with (Grid.view (Grid.run p (Grid.handleKeyDown (Grid.keydown p) e))).
    rewrite EffectFacts.cells_run.
    rewrite (BlockFacts.mutations_clearing_key (Grid.keydown p) e sc)
      by congruence.
    rewrite (BlockFacts.clearSelection_ext (Grid.keydown p) (Grid.view p)) by done.
    unfold Vocabulary.to_clear in Hclear.
    destruct (Grid.selection (Grid.view p)) as [sel|] eqn:Hsel.
    + rewrite (RangeFacts.mutations_clearSelection_range _ sel Hsel).
      apply BlockFacts.write_all_cleared; [| |done].
      * apply Forall_map, Forall_forall. by intros rc _.
      * rewrite map_map. simpl. rewrite map_id. by apply RangeFacts.in_cells_of.
    + unfold Grid.clearSelection. rewrite Hsel, Hclear.
      apply BlockFacts.write_all_cleared; [by repeat constructor| |done].
      simpl. by left.
Qed.

Lemma empty_string_is_number_witness :
  let page sel :=
    Grid.mounted
      {| Grid.cells := Grid.setCell (Grid.setCell [] 1 1 "abc") 2 1 "xyz";
         Grid.selectedCell := Some {| Grid.ref_row := 1; Grid.ref_column := 1 |};
         Grid.isEditing := false;
         Grid.selection := sel;
         Grid.isSelecting := false; Grid.isDragging := false;
         Grid.dragStart := None; Grid.editingValue := "";
         Grid.clipboard := [] |} in
  let p := page (Some {| Grid.startRow := 1; Grid.startCol := 1;
                         Grid.endRow := 2; Grid.endCol := 1 |}) in
  let q := page None in
  let delete := {| Grid.key := "Delete"; Grid.shiftKey := false;
                   Grid.ctrlKey := false; Grid.metaKey := false |} in
  let after p e := Grid.cells (Grid.view (Grid.step p (Grid.Dom (Grid.KeyDown e)))) in
  Grid.getCell (Grid.cells (Grid.view p)) 2 1 ≫= Grid.dataType = Some "text" /\
  Grid.mutations (Grid.handleKeyDown (Grid.view p) delete) = [(1, 1, ""); (2, 1, "")] /\
  Grid.mutations (Grid.cutSelection (Grid.view p)) = [(1, 1, ""); (2, 1, "")] /\
  Grid.mutations (Grid.handleKeyDown (Grid.view q) delete) = [(1, 1, "")] /\
  Grid.getCell (after p delete) 2 1 ≫= Grid.dataType = Some "number" /\
  Grid.getCell (after p (Notions.chord_key "x")) 2 1 ≫= Grid.dataType = Some "number" /\
  Grid.getCell (after q delete) 1 1 ≫= Grid.dataType = Some "number".
Proof.
  intros page p q delete after.
  pose proof empty_string_is_number
    as (_ & _ & _ & Hrange & Hactive & Hcut & Hkey & Hstored).
  assert (forall r c, 1 <= r <= 2 -> c = 1 -> Grid.in_bounds r c) as Hb
    by (unfold Grid.in_bounds, Grid.ROWS, Grid.COLS; lia).
  assert (Vocabulary.to_clear (Grid.view p) 2 1) as Hclear
    by (unfold Vocabulary.to_clear; simpl; lia).
  assert (Vocabulary.to_clear (Grid.view q) 1 1) as Hclear' by reflexivity.
  assert (Vocabulary.clearing_key delete) as Hdelete by (left; reflexivity).
  assert (Vocabulary.clearing_key (Notions.chord_key "x")) as Hx
    by (right; right; split; reflexivity).
  split; [reflexivity|]. split; [|split; [|split; [|split; [|split]]]].
  - rewrite (Hkey (Grid.view p) delete _ eq_refl eq_refl Hdelete).
    rewrite (Hrange (Grid.view p) _ eq_refl). reflexivity.
  - rewrite Hcut, (Hrange (Grid.view p) _ eq_refl). reflexivity.
  - rewrite (Hkey (Grid.view q) delete _ eq_refl eq_refl Hdelete).
    rewrite (Hactive (Grid.view q) _ eq_refl eq_refl). reflexivity.
  - refine (proj2 (Hstored p delete _ 2 1 _ eq_refl eq_refl Hdelete Hclear _)).
    + repeat split.
    + apply Hb; lia.
  - refine (proj2 (Hstored p (Notions.chord_key "x") _ 2 1 _ eq_refl eq_refl Hx Hclear _)).
    + repeat split.
    + apply Hb; lia.
  - refine (proj2 (Hstored q delete _ 1 1 _ eq_refl eq_refl Hdelete Hclear' _)).
    + repeat split.
    + apply Hb; lia.
Defined.

(** X5: clearing a selected range sends one request for each cell of the
    range and no other, rows times columns of them, each with the empty
    string; clearing the whole grid sends 26000. *)
Theorem clear_range_requests (st : Grid.State) (sel : Grid.Selection) :
  Grid.selection st = Some sel ->
  Grid.normalized sel ->
  length (Grid.mutations (Grid.clearSelection st))
    = Z.to_nat ((Grid.endRow sel - Grid.startRow sel + 1)
                * (Grid.endCol sel - Grid.startCol sel + 1)) /\
  (forall r c v, In (r, c, v) (Grid.mutations (Grid.clearSelection st)) <->
     Notions.in_range sel r c /\ v = "") /\
  (sel = {| Grid.startRow := 1; Grid.startCol := 1;
            Grid.endRow := Grid.ROWS; Grid.endCol := Grid.COLS |} ->
   length (Grid.mutations (Grid.clearSelection st)) = Z.to_nat 26000).
Proof.
  intros Hsel Hnorm.
  rewrite (RangeFacts.mutations_clearSelection_range st sel Hsel).
  rewrite length_map, (RangeFacts.length_cells_of sel Hnorm).
  split; [done|]. split.
  - intros r c v. rewrite in_map_iff. split.
    + intros ([r' c'] & [= -> -> <-] & Hin). by apply RangeFacts.in_cells_of in Hin.
    + intros [Hin ->]. exists (r, c). split; [done|]. by apply RangeFacts.in_cells_of.
  - intros ->. reflexivity.
Qed.

Lemma clear_range_requests_witness :
  let st := {| Grid.cells := [];
               Grid.selectedCell := Some {| Grid.ref_row := 2; Grid.ref_column := 2 |};
               Grid.isEditing := false;
               Grid.selection := Some {| Grid.startRow := 2; Grid.startCol := 2;
                                         Grid.endRow := 4; Grid.endCol := 3 |};
               Grid.isSelecting := false; Grid.isDragging := false;
               Grid.dragStart := None; Grid.editingValue := "";
               Grid.clipboard := [] |} in
  length (Grid.mutations (Grid.clearSelection st)) = 6%nat.
Proof.
  intros st.
  refine (proj1 (clear_range_requests st
                   {| Grid.startRow := 2; Grid.startCol := 2;
                      Grid.endRow := 4; Grid.endCol := 3 |} _ _)).
  - reflexivity.
  - unfold Grid.normalized; simpl; lia.
Defined.

(** The values the sheet shows after Ctrl+X. *)
Lemma cut_values (p : Grid.Page) (sc : Grid.CellRef) (sel : Grid.Selection) :
  Notions.listener_fresh p ->
  Grid.selectedCell (Grid.view p) = Some sc ->
  Grid.isEditing (Grid.view p) = false ->
  Grid.selection (Grid.view p) = Some sel ->
  (forall r c, Notions.in_range sel r c -> Grid.in_bounds r c ->
     Grid.getCellValue (Grid.cells (Grid.view (Grid.step p (Notions.chord "x")))) r c
     = "") /\
  (forall r c, ~ Notions.in_range sel r c ->
     Grid.getCellValue (Grid.cells (Grid.view (Grid.step p (Notions.chord "x")))) r c
     = Grid.getCellValue (Grid.cells (Grid.view p)) r c).
Proof.
  intros Hfresh Hsc Hnav Hsel.
  destruct (StepFacts.step_cut p sc Hfresh Hsc Hnav) as [Hview _].
  rewrite Hview. simpl.
  rewrite (RangeFacts.mutations_clearSelection_range _ sel Hsel).
  split.
  - intros r c Hin Hb.
    apply (BlockFacts.write_all_written (fun _ _ => "")); [| |done].
    + apply Forall_map, Forall_forall. by intros rc _.
    + rewrite map_map. simpl. rewrite map_id. by apply RangeFacts.in_cells_of.
  - intros r c Hout. apply BlockFacts.write_all_other.
    rewrite map_map. simpl. rewrite map_id. by rewrite RangeFacts.in_cells_of.
Qed.

(** X6: Ctrl+X, from a listener that is up to date, puts the cells of the
    selected range on the clipboard with the values they showed, leaves
    every cell of the range that lies in the grid empty, and leaves every
    cell outside the range as it was. *)
Theorem cut_clears_the_range
    (p : Grid.Page) (sc : Grid.CellRef) (sel : Grid.Selection) :
  Notions.listener_fresh p ->
  Grid.selectedCell (Grid.view p) = Some sc ->
  Grid.isEditing (Grid.view p) = false ->
  Grid.selection (Grid.view p) = Some sel ->
  let p' := Grid.step p (Notions.chord "x") in
  map (fun cell => (Grid.row cell, Grid.column cell, Grid.value cell))
      (Grid.clipboard (Grid.view p'))
    = map (fun rc => (rc.1, rc.2,
                      Some (Grid.getCellValue (Grid.cells (Grid.view p)) rc.1 rc.2)))
          (Notions.cells_of sel) /\
  (forall r c, Notions.in_range sel r c -> Grid.in_bounds r c ->
     Grid.getCellValue (Grid.cells (Grid.view p')) r c = "") /\
  (forall r c, ~ Notions.in_range sel r c ->
     Grid.getCellValue (Grid.cells (Grid.view p')) r c
     = Grid.getCellValue (Grid.cells (Grid.view p)) r c).
Proof.
  intros Hfresh Hsc Hnav Hsel p'.
  split; [|by apply (cut_values p sc sel)].
  destruct (StepFacts.step_cut p sc Hfresh Hsc Hnav) as [Hview _].
  subst p'. rewrite Hview. simpl.
  by rewrite (RangeFacts.copiedCells_range _ sel Hsel), map_map.
Qed.

Lemma cut_clears_the_range_witness :
  let sel := {| Grid.startRow := 1; Grid.startCol := 1;
                Grid.endRow := 2; Grid.endCol := 1 |} in
  let p := Grid.mounted
             {| Grid.cells := Grid.setCell (Grid.setCell [] 1 1 "a") 2 1 "b";
                Grid.selectedCell := Some {| Grid.ref_row := 1; Grid.ref_column := 1 |};
                Grid.isEditing := false; Grid.selection := Some sel;
                Grid.isSelecting := false; Grid.isDragging := false;
                Grid.dragStart := None; Grid.editingValue := "";
                Grid.clipboard := [] |} in
  Grid.getCellValue (Grid.cells (Grid.view (Grid.step p (Notions.chord "x")))) 2 1 = "".
Proof.
  intros sel p.
  refine (proj1 (proj2 (cut_clears_the_range p
            {| Grid.ref_row := 1; Grid.ref_column := 1 |} sel _ _ _ _)) 2 1 _ _).
  - repeat split.
  - reflexivity.
  - reflexivity.
  - reflexivity.
  - unfold Notions.in_range; simpl; lia.
  - unfold Grid.in_bounds, Grid.ROWS, Grid.COLS; lia.
Defined.

Module PasteFacts.
Import Grid Notions.

(** The page on which Ctrl+V runs after a copy or a cut and a click on the
    anchor. *)
Lemma paste_after_click p1 sel orig ar ac :
  isEditing (view p1) = false ->
  clipboard (view p1) = copiedCells orig ->
  selection orig = Some sel ->
  in_bounds ar ac ->
  let p' := step (foldl step p1 (click ar ac)) (chord "v") in
  (forall r c, pasted_over sel ar ac r c ->
     getCellValue (cells (view p')) r c
     = getCellValue (cells orig) (r - ar + startRow sel) (c - ac + startCol sel)) /\
  (forall r c, ~ pasted_over sel ar ac r c ->
     getCellValue (cells (view p')) r c = getCellValue (cells (view p1)) r c).
Proof.
  intros Hnav Hclip Hsel Hb p'.
  destruct (StepFacts.step_click p1 ar ac Hnav)
    as (Hcells & Hclip' & Hsc & _ & Hnav' & Hfresh & _).
  set (p3 := foldl step p1 (click ar ac)) in *.
  set (anchor := {| ref_row := ar; ref_column := ac |}) in *.
  subst p'. rewrite (StepFacts.step_paste p3 anchor Hfresh Hsc Hnav').
  rewrite (RangeFacts.mutations_paste_copied orig (view p3) sel anchor Hsel Hsc)
    by (done || congruence).
  destruct (RangeFacts.paste_copied_values orig sel anchor Hsel) as [Hvals Hnames].
  rewrite Hcells. split.
  - intros r c Hover.
    apply (BlockFacts.write_all_written
             (fun r c => getCellValue (cells orig) (r - ar + startRow sel)
                                      (c - ac + startCol sel))).
    + exact Hvals.
    + by apply Hnames.
    + by destruct Hover.
  - intros r c Hout. apply BlockFacts.write_all_other. by rewrite Hnames.
Qed.

(** Ctrl+C, a click on the anchor and Ctrl+V, with a listener that is up
    to date when Ctrl+C is pressed. *)
Lemma copy_click_paste p sc sel ar ac :
  listener_fresh p ->
  selectedCell (view p) = Some sc ->
  isEditing (view p) = false ->
  selection (view p) = Some sel ->
  in_bounds ar ac ->
  let p' := foldl step p (chord "c" :: click ar ac ++ [chord "v"]) in
  (forall r c,
     in_range sel r c ->
     in_bounds (moved_to sel ar ac r c).1 (moved_to sel ar ac r c).2 ->
     getCellValue (cells (view p')) (moved_to sel ar ac r c).1 (moved_to sel ar ac r c).2
     = getCellValue (cells (view p)) r c) /\
  (forall r c,
     ~ pasted_over sel ar ac r c ->
     getCellValue (cells (view p')) r c = getCellValue (cells (view p)) r c).
Proof.
  intros Hfresh Hsc Hnav Hsel Hb p'.
  destruct (StepFacts.step_copy p sc Hfresh Hsc Hnav) as [Hview _].
  set (p1 := step p (chord "c")) in *.
  assert (p' = step (foldl step p1 (click ar ac)) (chord "v")) as -> by reflexivity.
  destruct (paste_after_click p1 sel (view p) ar ac)
    as [Hover Hout]; try done; try (by rewrite Hview).
  assert (cells (view p1) = cells (view p)) as Hcells by (by rewrite Hview).
  split.
  - intros r c Hin Htarget. rewrite Hover.
    + unfold moved_to. simpl. f_equal; lia.
    + split; [|exact Htarget]. unfold moved_to, in_range in *. simpl. lia.
  - intros r c Hno. rewrite Hout by done. by rewrite Hcells.
Qed.

(** Ctrl+X, a click on the anchor and Ctrl+V, with a listener that is up
    to date when Ctrl+X is pressed. *)
Lemma cut_click_paste p sc sel ar ac :
  listener_fresh p ->
  selectedCell (view p) = Some sc ->
  isEditing (view p) = false ->
  selection (view p) = Some sel ->
  in_bounds ar ac ->
  let p' := foldl step p (chord "x" :: click ar ac ++ [chord "v"]) in
  (forall r c,
     in_range sel r c ->
     in_bounds (moved_to sel ar ac r c).1 (moved_to sel ar ac r c).2 ->
     getCellValue (cells (view p')) (moved_to sel ar ac r c).1 (moved_to sel ar ac r c).2
     = getCellValue (cells (view p)) r c) /\
  (forall r c,
     ~ pasted_over sel ar ac r c -> in_range sel r c -> in_bounds r c ->
     getCellValue (cells (view p')) r c = "") /\
  (forall r c,
     ~ pasted_over sel ar ac r c -> ~ in_range sel r c ->
     getCellValue (cells (view p')) r c = getCellValue (cells (view p)) r c).
Proof.
  intros Hfresh Hsc Hnav Hsel Hb p'.
  destruct (StepFacts.step_cut p sc Hfresh Hsc Hnav) as [Hview _].
  destruct (cut_values p sc sel Hfresh Hsc Hnav Hsel) as [Hempty Hkept].
  set (p1 := step p (chord "x")) in *.
  assert (p' = step (foldl step p1 (click ar ac)) (chord "v")) as -> by reflexivity.
  destruct (paste_after_click p1 sel (view p) ar ac)
    as [Hover Hout]; try done; try (by rewrite Hview).
  split; [|split].
  - intros r c Hin Htarget. rewrite Hover.
    + unfold moved_to. simpl. f_equal; lia.
    + split; [|exact Htarget]. unfold moved_to, in_range in *. simpl. lia.
  - intros r c Hno Hin Hbrc. rewrite Hout by done. by apply Hempty.
  - intros r c Hno Hnin. rewrite Hout by done. by apply Hkept.
Qed.

End PasteFacts.

(** X7: outside editing mode, selecting a range by a drag, Ctrl+C, a click
    on an anchor cell of the grid and Ctrl+V reproduce the block at the
    anchor: each cell of the range whose target lies in the grid is shown
    there with the value it had, and every cell that is no such target
    keeps its value.  The drag and the click each register a new [keydown]
    listener, so Ctrl+C reads the cells and Ctrl+V the clipboard of the
    latest render. *)
Theorem copy_paste_reproduces_block (p : Grid.Page) (r0 c0 r1 c1 ar ac : Z) :
  Grid.isEditing (Grid.view p) = false ->
  Grid.in_bounds ar ac ->
  let sel := Notions.box r0 c0 r1 c1 in
  let p' := foldl Grid.step p
              (Notions.drag r0 c0 r1 c1
               ++ Notions.chord "c" :: Notions.click ar ac ++ [Notions.chord "v"]) in
  (forall r c,
     Notions.in_range sel r c ->
     Grid.in_bounds (Notions.moved_to sel ar ac r c).1
                    (Notions.moved_to sel ar ac r c).2 ->
     Grid.getCellValue (Grid.cells (Grid.view p'))
       (Notions.moved_to sel ar ac r c).1 (Notions.moved_to sel ar ac r c).2
     = Grid.getCellValue (Grid.cells (Grid.view p)) r c) /\
  (forall r c,
     ~ Notions.pasted_over sel ar ac r c ->
     Grid.getCellValue (Grid.cells (Grid.view p')) r c
     = Grid.getCellValue (Grid.cells (Grid.view p)) r c).
Proof.
  intros Hnav Hb sel p'.
  destruct (StepFacts.step_drag p r0 c0 r1 c1 Hnav)
    as (Hcells & _ & Hsc & Hsel & Hnav' & Hfresh).
  subst p'. rewrite foldl_app.
  set (p0 := foldl Grid.step p (Notions.drag r0 c0 r1 c1)) in *.
  rewrite <- Hcells.
  exact (PasteFacts.copy_click_paste p0 _ sel ar ac Hfresh Hsc Hnav' Hsel Hb).
Qed.

Lemma copy_paste_reproduces_block_witness :
  let p := Grid.mounted
             {| Grid.cells := Grid.setCell (Grid.setCell [] 1 1 "a") 2 1 "b";
                Grid.selectedCell := Some {| Grid.ref_row := 7; Grid.ref_column := 7 |};
                Grid.isEditing := false; Grid.selection := None;
                Grid.isSelecting := false; Grid.isDragging := false;
                Grid.dragStart := None; Grid.editingValue := "";
                Grid.clipboard := [] |} in
  let p' := foldl Grid.step p
              (Notions.drag 1 1 2 1
               ++ Notions.chord "c" :: Notions.click 5 3 ++ [Notions.chord "v"]) in
  Grid.getCellValue (Grid.cells (Grid.view p')) 6 3
  = Grid.getCellValue (Grid.cells (Grid.view p)) 2 1.
Proof.
  intros p p'.
  refine (proj1 (copy_paste_reproduces_block p 1 1 2 1 5 3 _ _) 2 1 _ _).
  - reflexivity.
  - unfold Grid.in_bounds, Grid.ROWS, Grid.COLS; lia.
  - unfold Notions.in_range; simpl; lia.
  - unfold Grid.in_bounds, Grid.ROWS, Grid.COLS; simpl; lia.
Defined.

(** X8: outside editing mode, selecting a range by a drag, Ctrl+X, a click
    on an anchor cell of the grid and Ctrl+V move the block to the anchor:
    the targets in the grid show the values the cells of the range had, the
    cells of the range that are no target are empty, and every other cell
    keeps its value. *)
Theorem cut_paste_moves_block (p : Grid.Page) (r0 c0 r1 c1 ar ac : Z) :
  Grid.isEditing (Grid.view p) = false ->
  Grid.in_bounds ar ac ->
  let sel := Notions.box r0 c0 r1 c1 in
  let p' := foldl Grid.step p
              (Notions.drag r0 c0 r1 c1
               ++ Notions.chord "x" :: Notions.click ar ac ++ [Notions.chord "v"]) in
  (forall r c,
     Notions.in_range sel r c ->
     Grid.in_bounds (Notions.moved_to sel ar ac r c).1
                    (Notions.moved_to sel ar ac r c).2 ->
     Grid.getCellValue (Grid.cells (Grid.view p'))
       (Notions.moved_to sel ar ac r c).1 (Notions.moved_to sel ar ac r c).2
     = Grid.getCellValue (Grid.cells (Grid.view p)) r c) /\
  (forall r c,
     ~ Notions.pasted_over sel ar ac r c ->
     Notions.in_range sel r c -> Grid.in_bounds r c ->
     Grid.getCellValue (Grid.cells (Grid.view p')) r c = "") /\
  (forall r c,
     ~ Notions.pasted_over sel ar ac r c ->
     ~ Notions.in_range sel r c ->
     Grid.getCellValue (Grid.cells (Grid.view p')) r c
     = Grid.getCellValue (Grid.cells (Grid.view p)) r c).
Proof.
  intros Hnav Hb sel p'.
  destruct (StepFacts.step_drag p r0 c0 r1 c1 Hnav)
    as (Hcells & _ & Hsc & Hsel & Hnav' & Hfresh).
  subst p'. rewrite foldl_app.
  set (p0 := foldl Grid.step p (Notions.drag r0 c0 r1 c1)) in *.
  rewrite <- Hcells.
  exact (PasteFacts.cut_click_paste p0 _ sel ar ac Hfresh Hsc Hnav' Hsel Hb).
Qed.

Lemma cut_paste_moves_block_witness :
  let p := Grid.mounted
             {| Grid.cells := Grid.setCell (Grid.setCell [] 1 1 "a") 2 1 "b";
                Grid.selectedCell := Some {| Grid.ref_row := 7; Grid.ref_column := 7 |};
                Grid.isEditing := false; Grid.selection := None;
                Grid.isSelecting := false; Grid.isDragging := false;
                Grid.dragStart := None; Grid.editingValue := "";
                Grid.clipboard := [] |} in
  let p' := foldl Grid.step p
              (Notions.drag 1 1 2 1
               ++ Notions.chord "x" :: Notions.click 2 1 ++ [Notions.chord "v"]) in
  Grid.getCellValue (Grid.cells (Grid.view p')) 3 1
  = Grid.getCellValue (Grid.cells (Grid.view p)) 2 1.
Proof.
  intros p p'.
  refine (proj1 (cut_paste_moves_block p 1 1 2 1 2 1 _ _) 2 1 _ _).
  - reflexivity.
  - unfold Grid.in_bounds, Grid.ROWS, Grid.COLS; lia.
  - unfold Notions.in_range; simpl; lia.
  - unfold Grid.in_bounds, Grid.ROWS, Grid.COLS; simpl; lia.
Defined.

(** Delete between the drag and Ctrl+C registers no new listener: Ctrl+C
    then copies the values the Delete has cleared, and the paste brings
    them back. *)
Example copy_after_delete_copies_cleared_values :
  let p := Grid.mounted
             {| Grid.cells := Grid.setCell (Grid.setCell [] 1 1 "a") 2 1 "b";
                Grid.selectedCell := Some {| Grid.ref_row := 7; Grid.ref_column := 7 |};
                Grid.isEditing := false; Grid.selection := None;
                Grid.isSelecting := false; Grid.isDragging := false;
                Grid.dragStart := None; Grid.editingValue := "";
                Grid.clipboard := [] |} in
  let delete := Grid.Dom (Grid.KeyDown {| Grid.key := "Delete"; Grid.shiftKey := false;
                                          Grid.ctrlKey := false; Grid.metaKey := false |}) in
  let p1 := foldl Grid.step p (Notions.drag 1 1 2 1 ++ [delete]) in
  let p2 := Grid.step p1 (Notions.chord "c") in
  let p3 := foldl Grid.step p2 (Notions.click 5 3 ++ [Notions.chord "v"]) in
  map (fun r => Grid.getCellValue (Grid.cells (Grid.view p1)) r 1) [1; 2] = [""; ""] /\
  map Grid.value (Grid.clipboard (Grid.view p2)) = [Some "a"; Some "b"] /\
  map (fun r => Grid.getCellValue (Grid.cells (Grid.view p3)) r 3) [5; 6] = ["a"; "b"].
Proof. vm_compute. repeat split. Qed.

(** A block cut and pasted one row lower, over its own last row. *)
Example cut_paste_overlapping :
  let sel := {| Grid.startRow := 1; Grid.startCol := 1;
                Grid.endRow := 2; Grid.endCol := 1 |} in
  let p := Grid.mounted
             {| Grid.cells := Grid.setCell (Grid.setCell [] 1 1 "a") 2 1 "b";
                Grid.selectedCell := Some {| Grid.ref_row := 1; Grid.ref_column := 1 |};
                Grid.isEditing := false; Grid.selection := Some sel;
                Grid.isSelecting := false; Grid.isDragging := false;
                Grid.dragStart := None; Grid.editingValue := "";
                Grid.clipboard := [] |} in
  let p' := foldl Grid.step p
              (Notions.chord "x" :: Notions.click 2 1 ++ [Notions.chord "v"]) in
  map (fun r => Grid.getCellValue (Grid.cells (Grid.view p')) r 1) [1; 2; 3]
  = [""; "a"; "b"].
Proof. vm_compute. reflexivity. Qed.

(** ** Pointer gestures *)

Module PointerFacts.
Import Grid Notions.

(** A pointer press without Shift starts a drag on the pressed cell. *)
Lemma step_mouse_down p r c :
  let p1 := step p (Dom (MouseDown r c false)) in
  isSelecting (view p1) = true
  /\ dragStart (view p1) = Some (r, c)
  /\ selectedCell (view p1) = Some {| ref_row := r; ref_column := c |}
  /\ selection (view p1) = None.
Proof.
  simpl. unfold handleMouseDown, finishEditing.
  destruct (isEditing (view p)), (selectedCell (view p)); simpl; done.
Qed.

Lemma step_mouse_enter p r c dr dc :
  isSelecting (view p) = true -> dragStart (view p) = Some (dr, dc) ->
  view (step p (Dom (MouseEnter r c)))
  = with_selection (view p)
      (Some {| startRow := Z.min dr r; startCol := Z.min dc c;
               endRow := Z.max dr r; endCol := Z.max dc c |}).
Proof.
  intros Hsel Hdrag. simpl. unfold handleMouseEnter. by rewrite Hsel, Hdrag.
Qed.

End PointerFacts.

(** X9: pressing the pointer on a cell and moving it over another selects
    the smallest range that holds both, and exactly the cells of that range
    are highlighted; the pressed cell is the active one.  Once the pointer
    is released, moving it over cells changes the selection no more. *)
Theorem drag_selects_bounding_box (p : Grid.Page) (r0 c0 r1 c1 : Z) :
  let p' := foldl Grid.step p
              [Grid.Dom (Grid.MouseDown r0 c0 false); Grid.Dom (Grid.MouseEnter r1 c1)] in
  Grid.selectedCell (Grid.view p') = Some {| Grid.ref_row := r0; Grid.ref_column := c0 |} /\
  (forall r c,
     Sheet.isInSelection (Grid.view p') r c = true <->
     Z.min r0 r1 <= r <= Z.max r0 r1 /\ Z.min c0 c1 <= c <= Z.max c0 c1) /\
  (forall r2 c2,
     Grid.selection
       (Grid.view (foldl Grid.step p' [Grid.Dom Grid.MouseUp;
                                       Grid.Dom (Grid.MouseEnter r2 c2)]))
     = Grid.selection (Grid.view p')).
Proof.
  intros p'.
  destruct (PointerFacts.step_mouse_down p r0 c0) as (Hsel & Hdrag & Hsc & _).
  set (p1 := Grid.step p (Grid.Dom (Grid.MouseDown r0 c0 false))) in *.
  assert (Grid.view p' = Grid.with_selection (Grid.view p1)
            (Some {| Grid.startRow := Z.min r0 r1; Grid.startCol := Z.min c0 c1;
                     Grid.endRow := Z.max r0 r1; Grid.endCol := Z.max c0 c1 |}))
    as Hview by (by apply PointerFacts.step_mouse_enter).
  split; [by rewrite Hview|]. split.
  - intros r c. rewrite Hview. unfold Sheet.isInSelection. simpl.
    rewrite !andb_true_iff, !Z.geb_leb, !Z.leb_le. tauto.
  - intros r2 c2. simpl.
    unfold Grid.handleMouseEnter at 1.
    change (Grid.isSelecting (Grid.view (Grid.rendered p' (Grid.handleMouseUp (Grid.view p')))))
      with false.
    reflexivity.
Qed.

Lemma drag_selects_bounding_box_witness :
  let p := Grid.mounted
             {| Grid.cells := [];
                Grid.selectedCell := None;
                Grid.isEditing := false; Grid.selection := None;
                Grid.isSelecting := false; Grid.isDragging := false;
                Grid.dragStart := None; Grid.editingValue := "";
                Grid.clipboard := [] |} in
  let p' := foldl Grid.step p
              [Grid.Dom (Grid.MouseDown 5 4 false); Grid.Dom (Grid.MouseEnter 3 6)] in
  Sheet.isInSelection (Grid.view p') 4 5 = true.
Proof.
  intros p p'.
  apply (proj1 (proj2 (drag_selects_bounding_box p 5 4 3 6))). lia.
Defined.

(** X10: a click on a cell followed by a double click on it opens the
    editor on that cell, with the edit buffer holding the value the cell
    shows; no cell is written. *)
Theorem double_click_opens_editor (p : Grid.Page) (r c : Z) :
  Grid.timers p = [] ->
  Grid.isEditing (Grid.view p) = false ->
  let p' := foldl Grid.step p
              (Notions.click r c ++ [Grid.Dom (Grid.DoubleClick r c); Grid.Timer]) in
  Grid.isEditing (Grid.view p') = true /\
  Grid.selectedCell (Grid.view p') = Some {| Grid.ref_row := r; Grid.ref_column := c |} /\
  Grid.editingValue (Grid.view p') = Grid.getCellValue (Grid.cells (Grid.view p)) r c /\
  Grid.cells (Grid.view p') = Grid.cells (Grid.view p) /\
  Sheet.showsInput (Grid.view p') r c = true.
Proof.
  intros Htimers Hnav p'.
  destruct (StepFacts.step_click p r c Hnav)
    as (Hcells & _ & Hsc & _ & Hnav' & _ & Htimers').
  subst p'. rewrite foldl_app.
  set (p2 := foldl Grid.step p (Notions.click r c)) in *.
  rewrite Htimers in Htimers'. clearbody p2.
  assert (Grid.startEditing (Grid.view p2)
          = [Grid.SetEditingValue (Grid.getCellValue (Grid.cells (Grid.view p)) r c);
             Grid.OnEditingChange true; Grid.FocusInput]) as Hstart
    by (unfold Grid.startEditing; by rewrite Hsc, Hcells).
  simpl. unfold Grid.rendered at 1. simpl. rewrite Htimers', Hstart. simpl.
  rewrite Hcells. unfold Sheet.showsInput, Sheet.isSelected. simpl.
  by rewrite !Z.eqb_refl.
Qed.

Lemma double_click_opens_editor_witness :
  let p := Grid.mounted
             {| Grid.cells := Grid.setCell [] 4 2 "hello";
                Grid.selectedCell := None;
                Grid.isEditing := false; Grid.selection := None;
                Grid.isSelecting := false; Grid.isDragging := false;
                Grid.dragStart := None; Grid.editingValue := "";
                Grid.clipboard := [] |} in
  let p' := foldl Grid.step p
              (Notions.click 4 2 ++ [Grid.Dom (Grid.DoubleClick 4 2); Grid.Timer]) in
  Grid.isEditing (Grid.view p') = true.
Proof.
  intros p p'.
  refine (proj1 (double_click_opens_editor p 4 2 _ _)); reflexivity.
Defined.

(** ** Presence *)

Module PresenceFacts.
Import Collab Cursor Notions.

Lemma well_keyed_receive me st m : well_keyed st -> well_keyed (next me st m).
Proof.
  intros Hwk. unfold next.
  destruct m as [u|left|d|d|status]; simpl.
  - intros uid c. simpl. destruct (decide (id u = uid)) as [<-|Hne].
    + rewrite lookup_insert_eq. by intros [= <-].
    + rewrite lookup_insert_ne by done. apply Hwk.
  - intros uid c. simpl. destruct (decide (left = uid)) as [<-|Hne].
    + by rewrite lookup_delete_eq.
    + rewrite lookup_delete_ne by done. apply Hwk.
  - unfold handleCursorMove. destruct (cm_userId d =? id me); [done|].
    destruct (collaborators st !! cm_userId d) as [old|] eqn:Hold; [|done].
    intros uid c. simpl. destruct (decide (cm_userId d = uid)) as [<-|Hne].
    + rewrite lookup_insert_eq. intros [= <-]. simpl. by apply Hwk.
    + rewrite lookup_insert_ne by done. apply Hwk.
  - unfold handleCellUpdate. by destruct (cu_userId d =? id me).
  - exact Hwk.
Qed.

Lemma status_consistent_receive me st m :
  status_consistent st -> status_consistent (next me st m).
Proof.
  intros Hst. unfold next, status_consistent.
  destruct m as [u|left|d|d|status]; simpl; try exact Hst.
  - unfold handleCursorMove. destruct (cm_userId d =? id me); [done|].
    by destruct (collaborators st !! cm_userId d).
  - unfold handleCellUpdate. by destruct (cu_userId d =? id me).
  - by destruct status.
Qed.

End PresenceFacts.

(** X11: whatever events arrive, every Presence entry sits under the id of
    the user it describes and carries that user's colour, and the
    connection flag is set exactly when the status is [connected]. *)
Theorem channel_invariants
    (me : Collab.User) (st : Collab.State) (ms : list Collab.Message) :
  Cursor.well_keyed st ->
  Cursor.status_consistent st ->
  Cursor.well_keyed (foldl (Notions.next me) st ms) /\
  Cursor.status_consistent (foldl (Notions.next me) st ms).
Proof.
  revert st. induction ms as [|m ms IH]; intros st Hwk Hst; [done|].
  simpl. apply IH.
  - by apply PresenceFacts.well_keyed_receive.
  - by apply PresenceFacts.status_consistent_receive.
Qed.

Lemma channel_invariants_witness :
  let me := {| Collab.id := 7; Collab.username := "ann";
               Collab.email := "ann@example.org"; Collab.avatar := None |} in
  let bob := {| Collab.id := 8; Collab.username := "bob";
                Collab.email := "bob@example.org"; Collab.avatar := None |} in
  let st := {| Collab.collaborators := ∅; Collab.isConnected := false;
               Collab.connectionStatus := Collab.connecting |} in
  Cursor.well_keyed
    (foldl (Notions.next me) st
       [Collab.StatusChanged Collab.connected; Collab.CollaboratorJoin bob;
        Collab.CursorMoved {| Collab.cm_userId := 8; Collab.cm_row := 3;
                              Collab.cm_column := 4; Collab.cm_isEditing := true |}]).
Proof.
  intros me bob st.
  refine (proj1 (channel_invariants me st _ _ _)).
  - intros uid c Hc. simpl in Hc. by rewrite lookup_empty in Hc.
  - unfold Cursor.status_consistent. simpl. split; discriminate.
Defined.

(** X12: a leave for a user who is not present leaves the Presence map as
    it is (the callback is still called), and a leave undoes the join of a
    user who was not present before. *)
Theorem leave_of_absent_user (st : Collab.State) (uid : Z) (u : Collab.User) :
  (Collab.collaborators st !! uid = None ->
     Collab.collaborators (Collab.handleCollaboratorLeave st uid).1
       = Collab.collaborators st /\
     (Collab.handleCollaboratorLeave st uid).2 = [Collab.OnCollaboratorLeave uid]) /\
  (Collab.collaborators st !! Collab.id u = None ->
     Collab.collaborators
       (Collab.handleCollaboratorLeave (Collab.handleCollaboratorJoin st u).1
          (Collab.id u)).1
     = Collab.collaborators st).
Proof.
  split.
  - intros Habsent. split; [|done]. simpl. by apply delete_id.
  - intros Habsent. simpl. by apply delete_insert_id.
Qed.

Lemma leave_of_absent_user_witness :
  let st := {| Collab.collaborators := ∅; Collab.isConnected := true;
               Collab.connectionStatus := Collab.connected |} in
  Collab.collaborators (Collab.handleCollaboratorLeave st 8).1
  = Collab.collaborators st.
Proof.
  intros st.
  refine (proj1 (proj1 (leave_of_absent_user st 8
            {| Collab.id := 8; Collab.username := "bob";
               Collab.email := "bob@example.org"; Collab.avatar := None |}) _)).
  reflexivity.
Defined.

(** X13: every user with a non-negative id gets a colour of the table, and
    ids that differ by the length of the table get the same colour; a
    negative id that is no multiple of ten gets no colour. *)
Theorem getUserColor_table (uid : Z) :
  (0 <= uid ->
     (exists colour, Collab.getUserColor uid = Some colour
                     /\ In colour Collab.CURSOR_COLORS) /\
     Collab.getUserColor (uid + 10) = Collab.getUserColor uid) /\
  (uid < 0 -> Z.rem uid 10 <> 0 -> Collab.getUserColor uid = None).
Proof.
  unfold Collab.getUserColor.
  change (Z.of_nat (length Collab.CURSOR_COLORS)) with 10.
  split.
  - intros Hpos. rewrite !Z.rem_mod_nonneg by lia.
    replace ((uid + 10) mod 10) with (uid mod 10)
      by (rewrite <- (Z.mul_1_l 10) at 2; by rewrite Z.mod_add by lia).
    pose proof (Z.mod_pos_bound uid 10 ltac:(lia)) as Hm.
    split; [|done].
    destruct (Z.ltb_spec (uid mod 10) 0); [lia|].
    destruct (lookup_lt_is_Some_2 Collab.CURSOR_COLORS (Z.to_nat (uid mod 10)))
      as [colour Hcolour]; [simpl; lia|].
    exists colour. split; [done|].
    apply list_elem_of_In. by eapply list_elem_of_lookup_2.
  - intros Hneg Hrem.
    pose proof (Z.rem_nonpos uid 10 ltac:(lia) ltac:(lia)).
    destruct (Z.ltb_spec (Z.rem uid 10) 0); [done | lia].
Qed.

Lemma getUserColor_table_witness :
  Collab.getUserColor 23 = Collab.getUserColor 13 /\ Collab.getUserColor (-3) = None.
Proof.
  split.
  - symmetry. exact (proj2 (proj1 (getUserColor_table 13) ltac:(lia))).
  - apply (proj2 (getUserColor_table (-3))); [lia | discriminate].
Defined.

(** X14: every cursor overlay that is drawn belongs to a collaborator
    whose cursor is on the local user's current cell, sits at that cell's
    position (32 px a row, 100 px a column) and carries the collaborator's
    user name; without a current cell none is drawn. *)
Theorem overlays_on_current_cell
    (st : Collab.State) (currentCell : option (Z * Z)) (o : Cursor.Overlay) :
  In o (Cursor.renderCollaboratorCursors st currentCell) ->
  exists uid c r col,
    Collab.collaborators st !! uid = Some c /\
    currentCell = Some (r, col) /\
    Collab.row c = r /\ Collab.column c = col /\
    Cursor.top o = (r - 1) * 32 /\ Cursor.left o = (col - 1) * 100 /\
    Cursor.badge o = Collab.username (Collab.user c).
Proof.
  unfold Cursor.renderCollaboratorCursors. intros Hin.
  apply list_elem_of_In, list_elem_of_omap in Hin as ([uid c] & Hc & Hview).
  apply elem_of_map_to_list in Hc. simpl in Hview.
  unfold Cursor.CollaboratorCursorView in Hview.
  destruct currentCell as [[r col]|]; [|done].
  destruct (Z.eqb_spec (Collab.row c) r) as [Hr|]; [|done].
  destruct (Z.eqb_spec (Collab.column c) col) as [Hcol|]; [|done].
  simpl in Hview. injection Hview as <-.
  exists uid, c, r, col. simpl. rewrite Hr, Hcol. by repeat split.
Qed.

Lemma overlays_on_current_cell_witness :
  let bob := {| Collab.id := 8; Collab.username := "bob";
                Collab.email := "bob@example.org"; Collab.avatar := None |} in
  let st := (Collab.handleCollaboratorJoin
               {| Collab.collaborators := ∅; Collab.isConnected := true;
                  Collab.connectionStatus := Collab.connected |} bob).1 in
  let o := {| Cursor.top := 0; Cursor.left := 0;
              Cursor.overlay_color := Some "#F8C471";
              Cursor.badge := "bob"; Cursor.badge_editing := false |} in
  In o (Cursor.renderCollaboratorCursors st (Some (1, 1))) /\
  exists uid c r col,
    Collab.collaborators st !! uid = Some c /\
    Some (1, 1) = Some (r, col) /\
    Collab.row c = r /\ Collab.column c = col /\
    Cursor.top o = (r - 1) * 32 /\ Cursor.left o = (col - 1) * 100 /\
    Cursor.badge o = Collab.username (Collab.user c).
Proof.
  intros bob st o.
  assert (In o (Cursor.renderCollaboratorCursors st (Some (1, 1)))) as Hin
    by (vm_compute; left; reflexivity).
  split; [exact Hin|].
  exact (overlays_on_current_cell st (Some (1, 1)) o Hin).
Defined.

(** ** Debouncing *)

Module DebounceFacts.
Import Cursor Notions.

Section OneFunction.
Context {A : Type} (wait : Z).

Lemma filter_keeps_base (base : list (Pending A)) i :
  Forall (fun y => timer_id y <> i) base ->
  List.filter (fun y => negb (Pos.eqb (timer_id y) i)) base = base.
Proof.
  induction 1 as [|y base Hy _ IH]; [done|]. simpl.
  destruct (Pos.eqb_spec (timer_id y) i); [done|]. simpl. by rewrite IH.
Qed.

Lemma cleared (base : list (Pending A)) (st : option positive * Timers A) :
  Notions.own_timer wait base st ->
  pending (match st.1 with Some i => clearTimeout i st.2 | None => st.2 end) = base
  /\ next_id (match st.1 with Some i => clearTimeout i st.2 | None => st.2 end)
     = next_id st.2
  /\ Forall (fun y => (timer_id y < next_id st.2)%positive) base.
Proof.
  intros [Hwf [[-> Hbase]|(i & x & -> & Hpend & Hne)]].
  - rewrite Hbase. repeat split. by rewrite <- Hbase.
  - unfold timers_wf in Hwf. rewrite Hpend in Hwf.
    apply Forall_app in Hwf as [Hwf _].
    simpl. rewrite Hpend, List.filter_app, filter_keeps_base by done.
    simpl. rewrite Pos.eqb_refl. simpl. by rewrite app_nil_r.
Qed.

(** One more call: the timer of the call before is cleared, a new one is
    set. *)
Lemma debounced_own_timer (base : list (Pending A)) (st : option positive * Timers A) x :
  Notions.own_timer wait base st ->
  Notions.own_timer wait base (debounced wait st.1 x st.2)
  /\ exists i, pending (debounced wait st.1 x st.2).2
               = base ++ [{| timer_id := i; delay := wait; payload := x |}].
Proof.
  intros Hown. destruct (cleared base st Hown) as (Hpend & Hnext & Hlt).
  unfold debounced, setTimeout. simpl. rewrite Hpend, Hnext.
  split; [|by eexists].
  split.
  - unfold timers_wf. simpl. apply Forall_app. split.
    + eapply Forall_impl; [exact Hlt|]. simpl. intros y Hy. lia.
    + repeat constructor. simpl. lia.
  - right. exists (next_id st.2), x. repeat split.
    eapply Forall_impl; [exact Hlt|]. simpl. intros y Hy. lia.
Qed.

Lemma debounced_calls_own_timer (base : list (Pending A)) xs :
  forall st : option positive * Timers A,
  Notions.own_timer wait base st -> Notions.own_timer wait base (debounced_calls wait xs st).
Proof.
  induction xs as [|x xs IH]; intros st Hown; [done|].
  simpl. apply IH. by apply debounced_own_timer.
Qed.

End OneFunction.

(** One run of the effect: a fresh debounced function, called once. *)
Lemma cursorEffect_pending props (t : Timers CursorEmit) :
  pending (cursorEffect props t)
  = pending t ++ match emit_of props with
                 | Some e => [{| timer_id := next_id t; delay := 100; payload := e |}]
                 | None => []
                 end.
Proof.
  unfold cursorEffect, emit_of.
  destruct (ready props), (currentCell props) as [[r c]|];
    simpl; by rewrite ?app_nil_r.
Qed.

End DebounceFacts.

(** X15: however often one debounced function is called before its timer
    fires, one timer of its own is pending afterwards, and it carries the
    arguments of the last call; the timers that were pending before are
    left alone. *)
Theorem debounce_keeps_last_call
    {A : Type} (wait : Z) (t : Cursor.Timers A) (xs : list A) (x : A) :
  Notions.timers_wf t ->
  exists i,
    Cursor.pending (Cursor.debounced_calls wait (xs ++ [x]) (None, t)).2
    = Cursor.pending t
      ++ [{| Cursor.timer_id := i; Cursor.delay := wait; Cursor.payload := x |}].
Proof.
  intros Hwf. unfold Cursor.debounced_calls. rewrite foldl_app. simpl.
  apply DebounceFacts.debounced_own_timer.
  apply DebounceFacts.debounced_calls_own_timer.
  split; [exact Hwf|]. by left.
Qed.

Lemma debounce_keeps_last_call_witness :
  exists i,
    Cursor.pending
      (Cursor.debounced_calls 100 (["a"; "b"] ++ ["c"])
         (None, {| Cursor.next_id := 1%positive; Cursor.pending := [] |})).2
    = [] ++ [{| Cursor.timer_id := i; Cursor.delay := 100; Cursor.payload := "c" |}].
Proof.
  apply (debounce_keeps_last_call 100
           {| Cursor.next_id := 1%positive; Cursor.pending := [] |} ["a"; "b"] "c").
  constructor.
Defined.

(** X16: the effect that broadcasts the cursor builds a new debounced
    function each time it runs, so nothing is cancelled: after the effect
    has run for a sequence of renders, one broadcast is pending for every
    render that had a connection and a current cell, in order, each after
    100 ms. *)
Theorem cursor_broadcasts_are_not_coalesced
    (renders : list Cursor.CursorProps) (t : Cursor.Timers Cursor.CursorEmit) :
  map Cursor.payload (Cursor.pending (Cursor.cursorEffects renders t))
    = map Cursor.payload (Cursor.pending t) ++ omap Notions.emit_of renders /\
  length (Cursor.pending (Cursor.cursorEffects renders t))
    = (length (Cursor.pending t) + length (omap Notions.emit_of renders))%nat /\
  (Forall (fun x => Cursor.delay x = 100) (Cursor.pending t) ->
   Forall (fun x => Cursor.delay x = 100)
          (Cursor.pending (Cursor.cursorEffects renders t))).
Proof.
  revert t. induction renders as [|props renders IH]; intros t.
  - simpl. rewrite app_nil_r. split; [done|]. split; [lia | done].
  - unfold Cursor.cursorEffects in *. simpl foldl.
    destruct (IH (Cursor.cursorEffect props t)) as (Hpay & Hlen & Hdelay).
    rewrite Hpay, Hlen. clear IH Hpay Hlen.
    rewrite DebounceFacts.cursorEffect_pending in *.
    change (omap Notions.emit_of (props :: renders))
      with (match Notions.emit_of props with
            | Some e => e :: omap Notions.emit_of renders
            | None => omap Notions.emit_of renders
            end).
    destruct (Notions.emit_of props) as [e|].
    + rewrite map_app, length_app. simpl. rewrite <- app_assoc.
      split; [done|]. split; [lia|].
      intros Hd. apply Hdelay, Forall_app. split; [done|]. by repeat constructor.
    + rewrite app_nil_r in *. done.
Qed.

Lemma cursor_broadcasts_are_not_coalesced_witness :
  let at_cell r c := {| Cursor.ready := true; Cursor.spreadsheetId := 1;
                        Cursor.sheetId := 1; Cursor.currentCell := Some (r, c);
                        Cursor.editing := false |} in
  length (Cursor.pending
            (Cursor.cursorEffects [at_cell 1 1; at_cell 2 1; at_cell 3 1]
               {| Cursor.next_id := 1%positive; Cursor.pending := [] |}))
  = 3%nat.
Proof.
  intros at_cell.
  exact (proj1 (proj2 (cursor_broadcasts_are_not_coalesced
                         [at_cell 1 1; at_cell 2 1; at_cell 3 1]
                         {| Cursor.next_id := 1%positive; Cursor.pending := [] |}))).
Defined.

(** ** Where the editor and the fill handle are drawn *)

(** X17: at most one cell of the grid shows the input, and while a cell
    shows it no cell shows the fill handle. *)
Theorem one_cell_holds_the_editor (st : Grid.State) (r c r' c' : Z) :
  Sheet.showsInput st r c = true ->
  (Sheet.showsInput st r' c' = true -> r' = r /\ c' = c) /\
  (forall r'' c'', Sheet.showsFillHandle st r'' c'' = false).
Proof.
  unfold Sheet.showsInput, Sheet.showsFillHandle, Sheet.isSelected.
  destruct (Grid.isEditing st); [|done].
  destruct (Grid.selectedCell st) as [sc|]; [|done]. simpl.
  intros [Hr Hc]%andb_true_iff. split.
  - intros [Hr' Hc']%andb_true_iff. lia.
  - intros r'' c''. by rewrite andb_false_r.
Qed.

Lemma one_cell_holds_the_editor_witness :
  let st := {| Grid.cells := [];
               Grid.selectedCell := Some {| Grid.ref_row := 2; Grid.ref_column := 3 |};
               Grid.isEditing := true;
               Grid.selection := None;
               Grid.isSelecting := false;
               Grid.isDragging := false;
               Grid.dragStart := None;
               Grid.editingValue := "";
               Grid.clipboard := [] |} in
  Sheet.showsFillHandle st 2 3 = false.
Proof.
  intros st.
  exact (proj2 (one_cell_holds_the_editor st 2 3 2 3 eq_refl) 2 3).
Defined.

(** ** The keyboard shortcut hook *)

Module ShortcutFacts.
Import Shortcuts.

(** The cases of a [switch (e.key)], one after the other. *)
Ltac by_key k :=
  repeat match goal with
         | |- context [String.eqb k ?s] =>
             destruct (String.eqb_spec k s) as [->|?]; cbn
         end.

Ltac open_handler e k :=
  destruct e as [k c m s a];
  unfold onKeyDown, handleKeyDown, navigating, editing, pressed; cbn.

End ShortcutFacts.

(** X18: a key press does one of three things: nothing; it prevents the
    default and calls one callback; or, in editing mode with Ctrl or Cmd
    held, [z] and [y] call undo or redo and leave the default of the
    browser alone.  So no key press calls two callbacks. *)
Theorem shortcut_shape (disabled isEditing : bool) (e : Shortcuts.KeyboardEvent) :
  let acts := Shortcuts.onKeyDown disabled isEditing e in
  acts = [] \/
  (exists cb, acts = [Shortcuts.PreventDefault; Shortcuts.Invoke cb]) \/
  (isEditing = true /\ (Shortcuts.ctrlKey e || Shortcuts.metaKey e) = true /\
   ((Shortcuts.key e = "z" /\
     acts = [Shortcuts.Invoke (if Shortcuts.shiftKey e then Shortcuts.OnRedo
                               else Shortcuts.OnUndo)]) \/
    (Shortcuts.key e = "y" /\ acts = [Shortcuts.Invoke Shortcuts.OnRedo]))).
Proof.
  ShortcutFacts.open_handler e k.
  destruct disabled; [by left|]. destruct isEditing; cbn.
  - ShortcutFacts.by_key k; destruct c, m, s; cbn;
      first [ by left | by (right; left; eexists) | right; right; tauto ].
  - ShortcutFacts.by_key k; destruct c, m, s, a; cbn;
      first [ by left | by (right; left; eexists) ].
Qed.

(** X19: while a cell is edited the hook calls nothing but the callbacks
    for Enter, Escape, Tab, save, undo and redo: the clipboard, the arrow
    keys, delete, select-all and the formatting shortcuts are left to the
    input. *)
Theorem editing_mode_callbacks (disabled : bool) (e : Shortcuts.KeyboardEvent) :
  Forall Shortcuts.editing_callback
         (Shortcuts.invoked (Shortcuts.onKeyDown disabled true e)).
Proof.
  ShortcutFacts.open_handler e k.
  destruct disabled; [by constructor|]. cbn.
  ShortcutFacts.by_key k; destruct c, m, s; cbn; by repeat constructor.
Qed.

(** X20: the delete callback is called exactly for Delete and Backspace
    without Ctrl and Cmd, outside editing mode, when the hook is enabled;
    Shift and Alt make no difference. *)
Theorem delete_shortcut (disabled isEditing : bool) (e : Shortcuts.KeyboardEvent) :
  In Shortcuts.OnDelete (Shortcuts.invoked (Shortcuts.onKeyDown disabled isEditing e))
  <-> disabled = false /\ isEditing = false /\
      (Shortcuts.key e = "Delete" \/ Shortcuts.key e = "Backspace") /\
      Shortcuts.ctrlKey e = false /\ Shortcuts.metaKey e = false.
Proof.
  ShortcutFacts.open_handler e k. split.
  - destruct disabled; [by intros []|]. destruct isEditing; cbn.
    + ShortcutFacts.by_key k; destruct c, m, s; cbn;
        intuition discriminate.
    + ShortcutFacts.by_key k; destruct c, m, s, a; cbn;
        intuition discriminate.
  - intros (-> & -> & [-> | ->] & -> & ->); cbn; destruct a; cbn; tauto.
Qed.

(** X21: redo has two chords, Ctrl/Cmd+Y and Ctrl/Cmd+Shift+Z, and they
    are the only ones; both call it in and outside editing mode. *)
Theorem redo_shortcuts (disabled isEditing : bool) (e : Shortcuts.KeyboardEvent) :
  In Shortcuts.OnRedo (Shortcuts.invoked (Shortcuts.onKeyDown disabled isEditing e))
  <-> disabled = false /\
      (Shortcuts.ctrlKey e || Shortcuts.metaKey e) = true /\
      (Shortcuts.key e = "y" \/
       (Shortcuts.key e = "z" /\ Shortcuts.shiftKey e = true)).
Proof.
  ShortcutFacts.open_handler e k. split.
  - destruct disabled; [by intros []|]. destruct isEditing; cbn.
    + ShortcutFacts.by_key k; destruct c, m, s; cbn;
        intuition discriminate.
    + ShortcutFacts.by_key k; destruct c, m, s, a; cbn;
        intuition discriminate.
  - intros (-> & Hc & [-> | [-> ->]]); rewrite Hc; cbn;
      destruct isEditing, a; cbn; tauto.
Qed.

(** ** The dashboard *)

Module TrimFacts.
Import Js Text.

Lemma strip_ws1_shorter s r :
  strip_ws1 s = Some r -> (String.length r < String.length s)%nat.
Proof.
  unfold strip_ws1. destruct s as [|c1 [|c2 [|c3 r3]]]; simpl;
    repeat case_match; intros [= <-]; simpl; lia.
Qed.

Lemma skip_ws_fuel_done fuel : forall s,
  (String.length s <= fuel)%nat ->
  skip_ws_fuel fuel s = "" \/ strip_ws1 (skip_ws_fuel fuel s) = None.
Proof.
  induction fuel as [|fuel IH]; intros s Hlen.
  - destruct s; [by left | simpl in Hlen; lia].
  - simpl. destruct (strip_ws1 s) as [r|] eqn:Hs; [|by right].
    apply IH. apply strip_ws1_shorter in Hs. lia.
Qed.

Lemma skip_ws_fixed s : strip_ws1 s = None -> skip_ws s = s.
Proof.
  intros Hs. unfold skip_ws. destruct (String.length s); [done|].
  simpl. by rewrite Hs.
Qed.

(** Nothing is left to skip after [skip_ws]. *)
Lemma skip_ws_idem s : skip_ws (skip_ws s) = skip_ws s.
Proof.
  destruct (skip_ws_fuel_done (String.length s) s) as [H|H]; [lia| |].
  - unfold skip_ws at 2. by rewrite H.
  - by apply skip_ws_fixed.
Qed.

(** [s.trim()] is empty exactly when [s] is white space. *)
Lemma trim_empty s : trim s = "" <-> only_ws s = true.
Proof.
  unfold trim. split.
  - intros Ht. unfold only_ws. destruct (skip_ws s) as [|c r] eqn:Hs; [done|].
    assert (Hw : only_ws (String c r) = false).
    { unfold only_ws. rewrite <- Hs, skip_ws_idem, Hs. done. }
    simpl in Ht. rewrite Hw in Ht. discriminate.
  - unfold only_ws. destruct (skip_ws s); [done|discriminate].
Qed.

End TrimFacts.

Module FilterFacts.

Lemma filter_split {A} (f g : A -> bool) (l : list A) :
  Permutation (List.filter f l)
    (List.filter (fun x => f x && g x) l
     ++ List.filter (fun x => f x && negb (g x)) l).
Proof.
  induction l as [|a l IH]; simpl; [constructor|].
  destruct (f a), (g a); simpl; try done.
  - by constructor.
  - by apply Permutation_cons_app.
Qed.

End FilterFacts.

(** X22: the filters "owned" and "shared" split what "all" shows: every
    spreadsheet listed under "all" is listed under exactly one of the two,
    as often as under "all". *)
Theorem owned_and_shared_split_all
    (toLowerCase : string -> string) (searchQuery : string) (user : option Z)
    (spreadsheets : list Dashboard.Spreadsheet) :
  Permutation
    (Dashboard.filtered toLowerCase searchQuery Dashboard.all user spreadsheets)
    (Dashboard.filtered toLowerCase searchQuery Dashboard.owned user spreadsheets
     ++ Dashboard.filtered toLowerCase searchQuery Dashboard.shared user spreadsheets)
  /\ forall sheet,
       In sheet (Dashboard.filtered toLowerCase searchQuery Dashboard.owned user
                   spreadsheets) ->
       ~ In sheet (Dashboard.filtered toLowerCase searchQuery Dashboard.shared user
                     spreadsheets).
Proof.
  unfold Dashboard.filtered, Dashboard.matchesFilter. split.
  - erewrite (List.filter_ext _ (Dashboard.matchesSearch toLowerCase searchQuery)).
    + apply FilterFacts.filter_split.
    + intros sheet. by rewrite andb_true_r.
  - intros sheet [_ Ho]%List.filter_In [_ Hs]%List.filter_In.
    apply andb_true_iff in Ho as [_ Ho], Hs as [_ Hs].
    rewrite Ho in Hs. discriminate.
Qed.

(** X23: while nobody is logged in, "owned" lists nothing and "shared"
    lists what "all" lists. *)
Theorem logged_out_owns_nothing
    (toLowerCase : string -> string) (searchQuery : string)
    (spreadsheets : list Dashboard.Spreadsheet) :
  Dashboard.filtered toLowerCase searchQuery Dashboard.owned None spreadsheets = []
  /\ Dashboard.filtered toLowerCase searchQuery Dashboard.shared None spreadsheets
     = Dashboard.filtered toLowerCase searchQuery Dashboard.all None spreadsheets.
Proof.
  unfold Dashboard.filtered, Dashboard.matchesFilter. split.
  - induction spreadsheets as [|a l IH]; [done|]. simpl.
    by rewrite andb_false_r.
  - apply List.filter_ext. intros sheet. done.
Qed.

(** X24: with an empty search box and the filter "all" every spreadsheet
    is listed, with or without a description. *)
Theorem empty_search_shows_all
    (toLowerCase : string -> string) (user : option Z)
    (spreadsheets : list Dashboard.Spreadsheet) :
  toLowerCase "" = "" ->
  Dashboard.filtered toLowerCase "" Dashboard.all user spreadsheets = spreadsheets.
Proof.
  intros Hlow. unfold Dashboard.filtered.
  induction spreadsheets as [|a l IH]; [done|].
  assert (Hinc : forall s, Text.includes s "" = true) by (by intros []).
  cbn [List.filter]. rewrite IH.
  unfold Dashboard.matchesSearch. by rewrite Hlow, Hinc.
Qed.

Lemma empty_search_shows_all_witness :
  let sheet := {| Dashboard.id := 1; Dashboard.name := "Budget";
                  Dashboard.description := None; Dashboard.ownerId := 7;
                  Dashboard.isPublic := false; Dashboard.createdAt := "";
                  Dashboard.updatedAt := "" |} in
  Dashboard.filtered (fun s => s) "" Dashboard.all (Some 7) [sheet] = [sheet].
Proof.
  intros sheet. apply (empty_search_shows_all (fun s => s) (Some 7) [sheet]).
  reflexivity.
Defined.

(** X25: the create dialog sends the request exactly when the name has a
    character that is not white space, and then it sends the dialog's data
    as they are, the name untrimmed; otherwise it shows the error toast and
    sends nothing. *)
Theorem create_needs_visible_name (newSpreadsheet : Dashboard.NewSpreadsheet) :
  (Js.only_ws (Dashboard.new_name newSpreadsheet) = false <->
   Dashboard.handleCreateSpreadsheet newSpreadsheet
   = [Dashboard.Create newSpreadsheet]) /\
  (Js.only_ws (Dashboard.new_name newSpreadsheet) = true <->
   Dashboard.handleCreateSpreadsheet newSpreadsheet
   = [Dashboard.Toast "Error" "Please enter a spreadsheet name" true]).
Proof.
  unfold Dashboard.handleCreateSpreadsheet.
  pose proof (TrimFacts.trim_empty (Dashboard.new_name newSpreadsheet)) as Ht.
  destruct (String.eqb_spec (Text.trim (Dashboard.new_name newSpreadsheet)) "")
    as [He|He].
  - apply Ht in He. rewrite He. split; split; try done.
  - destruct (Js.only_ws (Dashboard.new_name newSpreadsheet)).
    + exfalso. by apply He, Ht.
    + split; split; done.
Qed.
